(** * MCP playground: transport client and tool-calling orchestrator

    A shallow embedding of [src/lib/mcp/MCPClient.ts],
    [src/lib/openai/AIService.ts], the session store of
    [src/services/mcpSession.ts] and the handlers of the chat view
    ([App.tsx], [components/ChatInterface.tsx],
    [components/ApiKeysWarning.tsx]), with the properties of their
    specification, and further properties of the code, stated and
    proved over it.

    Conventions of the embedding.
    - A JavaScript string is a [string]: a sequence of 8-bit code units.
    - A value that went through [JSON.parse] is a [JSON] tree; a number
      keeps the lexeme it was written with, and is tested and printed as
      the double this lexeme is read as.
    - The request counter of a client is a natural number; a JavaScript
      number is exact on the integers below 2^53.
    - The unchecked casts [as T] of the source are trusted: a result is
      read at its declared TypeScript type.
    - Everything outside the program (the HTTP server behind [fetch], the
      chat-completion endpoint, the clock, the wording of the messages of
      the errors the engine raises) is an [Env], over which every
      statement is quantified.
    - Objects that are mutated (the client's counter, the service's tool
      list, the session store, the [ChatMessage[]] arrays) live in a
      [World] that is threaded through every operation. *)

From Stdlib Require Import NArith ZArith Ascii String List Bool Lia Sorted.
From Stdlib Require Import DecimalString.
From stdpp Require Import base tactics option list strings.

Local Open Scope N_scope.

(* ================================================================== *)
(** * JavaScript strings                                                *)
(* ================================================================== *)

Module JsString.

(** [s.startsWith(p)] *)
Definition startsWith (p s : string) : bool := String.prefix p s.

(** [s.includes(p)] *)
Fixpoint includes (p s : string) : bool :=
  if String.prefix p s then true
  else match s with
       | EmptyString => false
       | String _ s' => includes p s'
       end.

(** White space of [String.prototype.trim] among the 8-bit code units. *)
Definition is_space (c : ascii) : bool :=
  let n := N_of_ascii c in
  ((9 <=? n) && (n <=? 13)) || (n =? 32) || (n =? 160).

Fixpoint trimStart (s : string) : string :=
  match s with
  | String c s' => if is_space c then trimStart s' else s
  | EmptyString => EmptyString
  end.

Fixpoint trimEnd (s : string) : string :=
  match s with
  | EmptyString => EmptyString
  | String c s' =>
      match trimEnd s' with
      | EmptyString => if is_space c then EmptyString else String c EmptyString
      | t => String c t
      end
  end.

(** [s.trim()] *)
Definition trim (s : string) : string := trimEnd (trimStart s).

(** Truthiness of a string: [!s] is [negb (truthy s)]. *)
Definition truthy (s : string) : bool :=
  match s with EmptyString => false | _ => true end.

(** [s.split('\n')] *)
Fixpoint split_lines (s : string) : list string :=
  match s with
  | EmptyString => [EmptyString]
  | String c s' =>
      if Ascii.eqb c "010"%char then EmptyString :: split_lines s'
      else match split_lines s' with
           | l :: ls => String c l :: ls
           | [] => [String c EmptyString]
           end
  end.

(** [s.substring(n)] *)
Fixpoint substring_from (n : nat) (s : string) : string :=
  match n, s with
  | O, _ => s
  | S n', String _ s' => substring_from n' s'
  | S _, EmptyString => EmptyString
  end.

(** [s.substring(0, n)] *)
Fixpoint substring_to (n : nat) (s : string) : string :=
  match n, s with
  | S n', String c s' => String c (substring_to n' s')
  | _, _ => EmptyString
  end.

(** Concatenation of a list of strings, [l.join('')]. *)
Definition concat (l : list string) : string :=
  fold_right String.append EmptyString l.

(** [String(n)] for a non-negative integer. *)
Definition of_N (n : N) : string := NilZero.string_of_uint (N.to_uint n).

(** [s1 === s2] *)
Definition eqb (s1 s2 : string) : bool := String.eqb s1 s2.

End JsString.

Import JsString.

(* ================================================================== *)
(** * JSON values, [JSON.parse] and [JSON.stringify]                    *)
(* ================================================================== *)

Module Json.

(** A value produced by [JSON.parse].  A number keeps its lexeme.  The
    fields of an object are in the order in which its keys are
    enumerated, each key once. *)
#[warnings="-register-all"] Inductive JSON : Type :=
| JNull
| JBool (b : bool)
| JNum (lexeme : string)
| JStr (s : string)
| JArr (items : list JSON)
| JObj (fields : list (string * JSON)).

(** The object literal [{}]. *)
Definition empty_object : JSON := JObj [].

(** The double quote and the backslash. *)
Definition dquote : ascii := "034"%char.
Definition backslash : ascii := "092"%char.

Definition is_ws (c : ascii) : bool :=
  let n := N_of_ascii c in (n =? 32) || (n =? 9) || (n =? 10) || (n =? 13).

Fixpoint skip_ws (s : string) : string :=
  match s with
  | String c s' => if is_ws c then skip_ws s' else s
  | EmptyString => EmptyString
  end.

Definition is_digit (c : ascii) : bool :=
  let n := N_of_ascii c in (48 <=? n) && (n <=? 57).

(** The longest prefix of digits, and what follows it. *)
Fixpoint span_digits (s : string) : string * string :=
  match s with
  | String c s' =>
      if is_digit c then let '(d, r) := span_digits s' in (String c d, r)
      else (EmptyString, s)
  | EmptyString => (EmptyString, EmptyString)
  end.

(** A JSON number: an optional minus sign, an integer part without a
    leading zero, an optional fraction and an optional exponent. *)
Definition parse_number (s : string) : option (string * string) :=
  let '(sign, s1) :=
    match s with
    | String "-" r => ("-", r)
    | _ => (EmptyString, s)
    end in
  let '(int, s2) := span_digits s1 in
  match int with
  | EmptyString => None
  | String "0" (String _ _) => None
  | _ =>
      let frac :=
        match s2 with
        | String "." r =>
            let '(d, r') := span_digits r in
            match d with
            | EmptyString => None
            | _ => Some ("." +:+ d, r')
            end
        | _ => Some (EmptyString, s2)
        end in
      match frac with
      | None => None
      | Some (f, s3) =>
          let exp :=
            match s3 with
            | String e r =>
                if Ascii.eqb e "e" || Ascii.eqb e "E" then
                  let '(sg, r1) :=
                    match r with
                    | String "+" r' => ("+", r')
                    | String "-" r' => ("-", r')
                    | _ => (EmptyString, r)
                    end in
                  let '(d, r2) := span_digits r1 in
                  match d with
                  | EmptyString => None
                  | _ => Some (String e (sg +:+ d), r2)
                  end
                else Some (EmptyString, s3)
            | EmptyString => Some (EmptyString, s3)
            end in
          match exp with
          | None => None
          | Some (x, s4) => Some (sign +:+ int +:+ f +:+ x, s4)
          end
      end
  end.

(** ** Numbers

    A number is kept as its lexeme.  What the program can observe of it
    is the double the lexeme is read as: whether it is zero, and how
    [String] and [JSON.stringify] print it. *)

(** The number a string of digits writes, after [acc]. *)
Fixpoint digits_value (s : string) (acc : Z) : Z :=
  match s with
  | String c r => digits_value r (10 * acc + Z.of_N (N_of_ascii c - 48))
  | EmptyString => acc
  end.

(** The decimal a number lexeme writes: its sign, and [m] and [e] for
    the magnitude [m * 10^e]. *)
Definition decimal_of_lexeme (lexeme : string) : bool * Z * Z :=
  let '(negative, s1) :=
    match lexeme with
    | String "-" r => (true, r)
    | _ => (false, lexeme)
    end in
  let '(int, s2) := span_digits s1 in
  let '(frac, s3) :=
    match s2 with
    | String "." r => span_digits r
    | _ => (EmptyString, s2)
    end in
  let exp :=
    match s3 with
    | String _ (String "-" r) => (- digits_value (fst (span_digits r)) 0)%Z
    | String _ (String "+" r) => digits_value (fst (span_digits r)) 0
    | String _ r => digits_value (fst (span_digits r)) 0
    | EmptyString => 0%Z
    end in
  (negative, digits_value (int +:+ frac) 0, (exp - Z.of_nat (String.length frac))%Z).

(** The magnitude of a double: zero, [m * 2^e], or infinity. *)
Inductive Magnitude : Type :=
| Zero
| Finite (m e : Z)
| Infinite.

(** The integer nearest to [a / b], the even one of two. *)
Definition round_div (a b : Z) : Z :=
  let q := (a / b)%Z in
  match (2 * (a mod b) ?= b)%Z with
  | Lt => q
  | Gt => (q + 1)%Z
  | Eq => if Z.even q then q else (q + 1)%Z
  end.

(** [floor (log2 (a / b))] *)
Definition log2_ratio (a b : Z) : Z :=
  let l := (Z.log2 a - Z.log2 b)%Z in
  if (if 0 <=? l then b * 2 ^ l <=? a else b <=? a * 2 ^ (- l))%Z then l else (l - 1)%Z.

(** The double nearest to [a / b], for [a] and [b] positive: 53 bits of
    mantissa, no exponent below [-1074], ties to even, infinity from
    [2^1024] on.  A mantissa of [2^53] is that of the next exponent. *)
Definition nearest_double (a b : Z) : Magnitude :=
  let x := Z.max (log2_ratio a b - 52) (-1074) in
  let m := if (0 <=? x)%Z then round_div a (b * 2 ^ x) else round_div (a * 2 ^ (- x)) b in
  if (m =? 0)%Z then Zero
  else if (1024 <=? Z.log2 m + x)%Z then Infinite
  else if (m =? 2 ^ 53)%Z then Finite (2 ^ 52) (x + 1)
  else Finite m x.

(** The double a decimal [m * 10^e] is read as, as [JSON.parse] and
    [Number] read it.  The first two tests spare the computation of a
    large power of ten: a decimal that is not zero is at least [10^e],
    and below [2^(log2 m + 1 + 3 * e)] when [e] is negative. *)
Definition double_of_decimal (m e : Z) : Magnitude :=
  if (m =? 0)%Z then Zero
  else if (309 <=? e)%Z then Infinite
  else if (Z.log2 m + 1 + 3 * e <=? -1075)%Z then Zero
  else if (0 <=? e)%Z then nearest_double (m * 10 ^ e) 1
  else nearest_double m (10 ^ (- e)).

Definition Magnitude_eqb (x y : Magnitude) : bool :=
  match x, y with
  | Zero, Zero | Infinite, Infinite => true
  | Finite m e, Finite m' e' => ((m =? m') && (e =? e'))%Z
  | _, _ => false
  end.

(** The number of decimal digits of a positive integer. *)
Fixpoint count_digits (fuel : nat) (n : Z) : Z :=
  match fuel with
  | O => 1
  | S fuel' => if (n <? 10)%Z then 1 else (1 + count_digits fuel' (n / 10))%Z
  end.

(** The least [j] from [j0] on with [b <= a * 10^j]. *)
Fixpoint leading_zeros (fuel : nat) (a b j : Z) : Z :=
  match fuel with
  | O => j
  | S fuel' => if (b <=? a * 10 ^ j)%Z then j else leading_zeros fuel' a b (j + 1)
  end.

(** The [n] with [10^(n-1) <= a / b < 10^n]. *)
Definition decimal_exponent (a b : Z) : Z :=
  if (b <=? a)%Z then count_digits 400 (a / b) else (1 - leading_zeros 400 a b 0)%Z.

(** The digits of a positive integer. *)
Fixpoint digits_of (fuel : nat) (n : Z) (acc : string) : string :=
  match fuel with
  | O => acc
  | S fuel' =>
      let acc' := String (ascii_of_N (48 + Z.to_N (n mod 10))) acc in
      if (n <? 10)%Z then acc' else digits_of fuel' (n / 10) acc'
  end.

Fixpoint strip_zeros (fuel : nat) (s t : Z) : Z * Z :=
  match fuel with
  | O => (s, t)
  | S fuel' =>
      if ((s mod 10 =? 0) && negb (s =? 0))%Z then strip_zeros fuel' (s / 10) (t + 1)
      else (s, t)
  end.

(** The decimal [s * 10^t] of [k] digits that [Number::toString]
    prints for the double [m * 2^e], if there is one of [k] digits: the
    nearest of those that are read back as this double, the even one of
    two. *)
Definition shortest_at (m e n k : Z) : option (Z * Z) :=
  let a := if (0 <=? e)%Z then (m * 2 ^ e)%Z else m in
  let b := if (0 <=? e)%Z then 1%Z else (2 ^ (- e))%Z in
  let t := (n - k)%Z in
  let a' := if (0 <=? t)%Z then a else (a * 10 ^ (- t))%Z in
  let b' := if (0 <=? t)%Z then (b * 10 ^ t)%Z else b in
  let lo := (a' / b')%Z in
  let hi := (lo + 1)%Z in
  let back s := Magnitude_eqb (double_of_decimal s t) (Finite m e) in
  match back lo, back hi with
  | true, true =>
      match (2 * (a' mod b') ?= b')%Z with
      | Lt => Some (lo, t)
      | Gt => Some (hi, t)
      | Eq => Some (if Z.even lo then lo else hi, t)
      end
  | true, false => Some (lo, t)
  | false, true => Some (hi, t)
  | false, false => None
  end.

Fixpoint shortest_from (fuel : nat) (m e n k : Z) : Z * Z :=
  match fuel with
  | O => (0, 0)%Z
  | S fuel' =>
      match shortest_at m e n k with
      | Some st => st
      | None => shortest_from fuel' m e n (k + 1)
      end
  end.

Fixpoint zeros (n : nat) : string :=
  match n with
  | O => EmptyString
  | S n' => String "0" (zeros n')
  end.

(** [Number::toString] for a double that is finite and positive: the
    digits [s] and the exponent [n] of its shortest decimal
    [0.s * 10^n], written without an exponent when [-6 < n <= 21]. *)
Definition finite_to_string (m e : Z) : string :=
  let a := if (0 <=? e)%Z then (m * 2 ^ e)%Z else m in
  let b := if (0 <=? e)%Z then 1%Z else (2 ^ (- e))%Z in
  let '(s0, t0) := shortest_from 17 m e (decimal_exponent a b) 1 in
  let '(s, t) := strip_zeros 400 s0 t0 in
  let ds := digits_of 400 s EmptyString in
  let k := Z.of_nat (String.length ds) in
  let n := (k + t)%Z in
  if ((k <=? n) && (n <=? 21))%Z then ds +:+ zeros (Z.to_nat (n - k))
  else if ((0 <? n) && (n <=? 21))%Z
  then substring_to (Z.to_nat n) ds +:+ "." +:+ substring_from (Z.to_nat n) ds
  else if ((-6 <? n) && (n <=? 0))%Z then "0." +:+ zeros (Z.to_nat (- n)) +:+ ds
  else
    let x := (n - 1)%Z in
    let exponent :=
      (if (0 <=? x)%Z then "e+" else "e-") +:+ digits_of 400 (Z.abs x) EmptyString in
    match ds with
    | String d EmptyString => String d exponent
    | String d rest => String d ("." +:+ rest) +:+ exponent
    | EmptyString => exponent
    end.

(** The double a number lexeme is read as: its sign and its magnitude. *)
Definition double_of_lexeme (lexeme : string) : bool * Magnitude :=
  let '(negative, m, e) := decimal_of_lexeme lexeme in
  (negative, double_of_decimal m e).

(** [String(x)] for the number a lexeme is read as. *)
Definition number_to_string (lexeme : string) : string :=
  match double_of_lexeme lexeme with
  | (_, Zero) => "0"
  | (negative, Finite m e) => (if negative then "-" else EmptyString) +:+ finite_to_string m e
  | (negative, Infinite) => if negative then "-Infinity" else "Infinity"
  end.

(** [JSON.stringify(x)] for the number a lexeme is read as. *)
Definition number_to_json (lexeme : string) : string :=
  match double_of_lexeme lexeme with
  | (_, Infinite) => "null"
  | _ => number_to_string lexeme
  end.

(** The number a lexeme is read as is [0] or [-0]. *)
Definition zero_lexeme (lexeme : string) : bool :=
  match double_of_lexeme lexeme with
  | (_, Zero) => true
  | _ => false
  end.

(** ** Strings, arrays and objects *)

Definition hex_value (c : ascii) : option N :=
  let n := N_of_ascii c in
  if (48 <=? n) && (n <=? 57) then Some (n - 48)
  else if (65 <=? n) && (n <=? 70) then Some (n - 55)
  else if (97 <=? n) && (n <=? 102) then Some (n - 87)
  else None.

(** The code unit of [\uXXXX]; one above [00FF] has no 8-bit code unit
    and is read as ["?"]. *)
Definition unicode_escape (h1 h2 h3 h4 : ascii) : option ascii :=
  match hex_value h1, hex_value h2, hex_value h3, hex_value h4 with
  | Some a, Some b, Some c, Some d =>
      if (a =? 0) && (b =? 0) then Some (ascii_of_N (16 * c + d))
      else Some "?"%char
  | _, _, _, _ => None
  end.

Definition simple_escape (e : ascii) : option ascii :=
  if Ascii.eqb e dquote then Some dquote
  else if Ascii.eqb e backslash then Some backslash
  else if Ascii.eqb e "/" then Some "/"%char
  else if Ascii.eqb e "b" then Some "008"%char
  else if Ascii.eqb e "f" then Some "012"%char
  else if Ascii.eqb e "n" then Some "010"%char
  else if Ascii.eqb e "r" then Some "013"%char
  else if Ascii.eqb e "t" then Some "009"%char
  else None.

(** The characters of a string literal after its opening quote, up to
    the closing quote. *)
Fixpoint parse_chars (s : string) : option (string * string) :=
  match s with
  | EmptyString => None
  | String c r =>
      if Ascii.eqb c dquote then Some (EmptyString, r)
      else if Ascii.eqb c backslash then
        match r with
        | String "u" (String h1 (String h2 (String h3 (String h4 r')))) =>
            match unicode_escape h1 h2 h3 h4, parse_chars r' with
            | Some u, Some (t, rest) => Some (String u t, rest)
            | _, _ => None
            end
        | String e r' =>
            match simple_escape e, parse_chars r' with
            | Some x, Some (t, rest) => Some (String x t, rest)
            | _, _ => None
            end
        | EmptyString => None
        end
      else if N_of_ascii c <? 32 then None
      else match parse_chars r with
           | Some (t, rest) => Some (String c t, rest)
           | None => None
           end
  end.

(** The array index a key writes, if it writes one: an integer below
    [2^32 - 1] in its canonical form. *)
Definition array_index (k : string) : option Z :=
  match k with
  | EmptyString => None
  | String "0" EmptyString => Some 0%Z
  | String "0" _ => None
  | _ =>
      match span_digits k with
      | (d, EmptyString) =>
          let n := digits_value d 0 in
          if (n <=? 4294967294)%Z then Some n else None
      | _ => None
      end
  end.

(** Defining a property of an object under construction.  A key that is
    already there keeps its place and takes the new value.  A new key
    that is an array index goes among the array indices, which come
    first and in ascending order; another new key goes last.  This is
    the order in which the keys of the object are enumerated. *)
Fixpoint obj_set (fields : list (string * JSON)) (k : string) (v : JSON)
  : list (string * JSON) :=
  match fields with
  | [] => [(k, v)]
  | (k', v') :: fs =>
      if String.eqb k' k then (k', v) :: fs
      else
        match array_index k, array_index k' with
        | Some n, Some n' =>
            if (n <? n')%Z then (k, v) :: fields else (k', v') :: obj_set fs k v
        | Some _, None => (k, v) :: fields
        | None, _ => (k', v') :: obj_set fs k v
        end
  end.

Definition literal (word : string) (v : JSON) (s : string)
  : option (JSON * string) :=
  if String.prefix word s
  then Some (v, substring_from (String.length word) s)
  else None.

Fixpoint parse_value (fuel : nat) (s : string) : option (JSON * string) :=
  match fuel with
  | O => None
  | S fuel' =>
      match skip_ws s with
      | EmptyString => None
      | String c r =>
          if Ascii.eqb c "{" then
            match skip_ws r with
            | String "}" r' => Some (JObj [], r')
            | r' => parse_members fuel' r' []
            end
          else if Ascii.eqb c "[" then
            match skip_ws r with
            | String "]" r' => Some (JArr [], r')
            | r' => parse_elements fuel' r' []
            end
          else if Ascii.eqb c dquote then
            match parse_chars r with
            | Some (str, r') => Some (JStr str, r')
            | None => None
            end
          else if Ascii.eqb c "t" then literal "true" (JBool true) (String c r)
          else if Ascii.eqb c "f" then literal "false" (JBool false) (String c r)
          else if Ascii.eqb c "n" then literal "null" JNull (String c r)
          else
            match parse_number (String c r) with
            | Some (lexeme, r') => Some (JNum lexeme, r')
            | None => None
            end
      end
  end
with parse_elements (fuel : nat) (s : string) (acc : list JSON)
  : option (JSON * string) :=
  match fuel with
  | O => None
  | S fuel' =>
      match parse_value fuel' s with
      | Some (v, r) =>
          match skip_ws r with
          | String "," r' => parse_elements fuel' r' (v :: acc)
          | String "]" r' => Some (JArr (rev (v :: acc)), r')
          | _ => None
          end
      | None => None
      end
  end
with parse_members (fuel : nat) (s : string) (acc : list (string * JSON))
  : option (JSON * string) :=
  match fuel with
  | O => None
  | S fuel' =>
      match skip_ws s with
      | String "034"%char r =>
          match parse_chars r with
          | Some (k, r1) =>
              match skip_ws r1 with
              | String ":" r2 =>
                  match parse_value fuel' r2 with
                  | Some (v, r3) =>
                      match skip_ws r3 with
                      | String "," r4 => parse_members fuel' r4 (obj_set acc k v)
                      | String "}" r4 => Some (JObj (obj_set acc k v), r4)
                      | _ => None
                      end
                  | None => None
                  end
              | _ => None
              end
          | None => None
          end
      | _ => None
      end
  end.

(** [JSON.parse(text)]: [None] when it raises a [SyntaxError].  The
    depth of the recursion is at most the number of characters. *)
Definition parse (text : string) : option JSON :=
  match parse_value (2 * String.length text + 2) text with
  | Some (v, rest) =>
      match skip_ws rest with
      | EmptyString => Some v
      | _ => None
      end
  | None => None
  end.

Definition hex_digit (n : N) : ascii :=
  if n <? 10 then ascii_of_N (48 + n) else ascii_of_N (87 + n).

(** The characters of a string between the quotes of its literal. *)
Fixpoint escape (s : string) : string :=
  match s with
  | EmptyString => EmptyString
  | String c r =>
      let n := N_of_ascii c in
      (if Ascii.eqb c dquote then String backslash (String dquote EmptyString)
       else if Ascii.eqb c backslash then "\\"
       else if n =? 8 then "\b"
       else if n =? 12 then "\f"
       else if n =? 10 then "\n"
       else if n =? 13 then "\r"
       else if n =? 9 then "\t"
       else if n <? 32 then
         "\u00" +:+ String (hex_digit (n / 16)) (String (hex_digit (n mod 16)) EmptyString)
       else String c EmptyString) +:+ escape r
  end.

Definition quote (s : string) : string :=
  String dquote (escape s +:+ String dquote EmptyString).

Fixpoint join (sep : string) (l : list string) : string :=
  match l with
  | [] => EmptyString
  | [x] => x
  | x :: xs => x +:+ sep +:+ join sep xs
  end.

(** [JSON.stringify(v)] *)
Fixpoint stringify (v : JSON) : string :=
  match v with
  | JNull => "null"
  | JBool true => "true"
  | JBool false => "false"
  | JNum lexeme => number_to_json lexeme
  | JStr s => quote s
  | JArr items => "[" +:+ join "," (map stringify items) +:+ "]"
  | JObj fields =>
      "{" +:+ join "," (map (fun kv => quote (fst kv) +:+ ":" +:+ stringify (snd kv)) fields)
          +:+ "}"
  end.

(** [ToBoolean]: what [if (v)] and [v || w] test. *)
Definition truthy (v : JSON) : bool :=
  match v with
  | JNull => false
  | JBool b => b
  | JNum lexeme => negb (zero_lexeme lexeme)
  | JStr s => JsString.truthy s
  | JArr _ | JObj _ => true
  end.

(** [v.k] on a value other than [null]: [None] is [undefined]. *)
Definition get (v : JSON) (k : string) : option JSON :=
  match v with
  | JObj fields => snd <$> find (fun kv => String.eqb (fst kv) k) fields
  | _ => None
  end.

(** [String(v)], the message of [new Error(v)]. *)
Fixpoint to_string (v : JSON) : string :=
  match v with
  | JNull => "null"
  | JBool true => "true"
  | JBool false => "false"
  | JNum lexeme => number_to_string lexeme
  | JStr s => s
  | JArr items =>
      join "," (map (fun x => match x with JNull => EmptyString | _ => to_string x end) items)
  | JObj _ => "[object Object]"
  end.

End Json.

Import Json.

(* ================================================================== *)
(** * Data model                                                        *)
(* ================================================================== *)

Module Tool.
(** Modelled from the spec: the declaration [types/Tool.ts] is not among
    the sources.  A tool has a [name], an optional [description] and an
    [inputSchema], which [mcpToolsToOpenAIFunctions] reads. *)
Record t : Type := mk
  { name : string;
    description : option string;
    inputSchema : option JSON }.

(** A tool read from a server result at its declared type. *)
Definition of_JSON (v : JSON) : t :=
  {| name := match Json.get v "name" with Some (JStr s) => s | _ => EmptyString end;
     description := match Json.get v "description" with Some (JStr s) => Some s | _ => None end;
     inputSchema := Json.get v "inputSchema" |}.
End Tool.

Module ListToolsResult.
(** Modelled from the spec: the declaration [types/ListToolsResult.ts] is
    not among the sources.  The result of [listTools] is [{ tools }], as
    its empty result [{ tools: [] }] and [loadTools] have it. *)
Record t : Type := mk { tools : option (list Tool.t) }.

Definition of_JSON (v : JSON) : t :=
  {| tools := match Json.get v "tools" with
              | Some (JArr items) => Some (map Tool.of_JSON items)
              | _ => None
              end |}.
End ListToolsResult.

Module ListResourcesResult.
(** Modelled from the spec: the declaration
    [types/ListResourcesResult.ts] is not among the sources.  The result
    of [listResources] is [{ resources }], as its empty result has it. *)
Record t : Type := mk { resources : option (list JSON) }.

Definition of_JSON (v : JSON) : t :=
  {| resources := match Json.get v "resources" with
                  | Some (JArr items) => Some items
                  | _ => None
                  end |}.
End ListResourcesResult.

Module MCPRequest.
(** Modelled from the spec: the declaration [types/MCPRequest.ts] is not
    among the sources.  The JSON-RPC 2.0 envelope of a request carries
    [jsonrpc], an integer [id], [method] and [params], as the object
    [request] builds has them. *)
Record t : Type := mk
  { jsonrpc : string;
    id : N;
    method : string;
    params : JSON }.

Definition to_JSON (r : t) : JSON :=
  JObj [("jsonrpc", JStr (jsonrpc r)); ("id", JNum (JsString.of_N (id r)));
        ("method", JStr (method r)); ("params", params r)].
End MCPRequest.

(** [lib/openai/types]: one turn of a conversation. *)
Inductive Role : Type := user | assistant | system.

Definition Role_eqb (a b : Role) : bool :=
  match a, b with
  | user, user | assistant, assistant | system, system => true
  | _, _ => false
  end.

Module ToolCall.
Record t : Type := mk
  { id : string;
    name : string;
    arguments : JSON }.
End ToolCall.

Module ToolCallResult.
Record t : Type := mk
  { toolCallId : string;
    result : JSON }.
End ToolCallResult.

Module ChatMessage.
Record t : Type := mk
  { role : Role;
    content : string;
    toolCalls : option (list ToolCall.t);
    toolCallResults : option (list ToolCallResult.t) }.
End ChatMessage.

(** The chat-completion endpoint, as [AIService.chat] uses it. *)
Module OpenAI.

(** [ChatCompletionMessageToolCall], in a request. *)
Record FunctionCall : Type := mkFunctionCall
  { fc_id : string;
    fc_name : string;
    fc_arguments : string }.

(** [ChatCompletionMessageParam] *)
Inductive MessageParam : Type :=
| Plain (role : Role) (content : string)
| Assistant (content : string) (tool_calls : option (list FunctionCall))
| ToolMessage (tool_call_id : string) (content : string).

(** [ChatCompletionTool]: [{ type: 'function', function: {...} }] *)
Record ChatCompletionTool : Type := mkTool
  { fn_name : string;
    fn_description : string;
    fn_parameters : JSON }.

(** The argument of [chat.completions.create]; [None] is a field that
    is [undefined], which is left out of the request. *)
Record CreateParams : Type := mkParams
  { model : string;
    messages : list MessageParam;
    tools : option (list ChatCompletionTool);
    tool_choice : option string }.

(** A tool call of a reply; only those of type ['function'] are run. *)
Inductive ReplyToolCall : Type :=
| ReplyFunction (id name arguments : string)
| ReplyCustom (id : string).

(** [response.choices[0].message] *)
Record ReplyMessage : Type := mkReply
  { reply_content : option string;
    reply_tool_calls : option (list ReplyToolCall) }.

(** The client object: it only holds its key. *)
Record Client : Type := mkClient { apiKey : string }.

End OpenAI.

(* ================================================================== *)
(** * Thrown values and the environment                                 *)
(* ================================================================== *)

(** Where a value was thrown.  Every throw of the source raises a plain
    [Error]; the site is what the error taxonomy of the specification
    calls its kind. *)
Inductive Site : Type :=
| TransportError   (** a non-2xx status, [MCPClient.request] *)
| ParseError       (** a body that is not JSON, [MCPClient.request] *)
| ProtocolError    (** an [error] member, or no [result], [MCPClient.request] *)
| NetworkFailure   (** [fetch] or [response.text()] rejected *)
| EngineTypeError  (** a property read on [null] *)
| NotInitialized   (** a client that is [null], [AIService] *)
| ModelFailure.    (** the completion call rejected or had no message *)

Definition Site_eqb (a b : Site) : bool :=
  match a, b with
  | TransportError, TransportError | ParseError, ParseError
  | ProtocolError, ProtocolError | NetworkFailure, NetworkFailure
  | EngineTypeError, EngineTypeError | NotInitialized, NotInitialized
  | ModelFailure, ModelFailure => true
  | _, _ => false
  end.

(** A thrown value: [instanceofError] is [error instanceof Error], and
    [message] is [error.message] when it holds, [String(error)] otherwise. *)
Record Thrown : Type := mkThrown
  { site : Site;
    instanceofError : bool;
    message : string }.

(** [new Error(msg)], thrown at [s]. *)
Definition newError (s : Site) (msg : string) : Thrown :=
  {| site := s; instanceofError := true; message := msg |}.

(** What a promise of the environment rejects with. *)
Record Rejection : Type := mkRejection
  { rejected_with_Error : bool;
    rejection_text : string }.

Definition rejected (s : Site) (r : Rejection) : Thrown :=
  {| site := s; instanceofError := rejected_with_Error r; message := rejection_text r |}.

(** The argument of [fetch]; the body is what [JSON.stringify] is
    applied to. *)
Record FetchInit : Type := mkFetchInit
  { url : string;
    http_method : string;
    headers : list (string * string);
    body : MCPRequest.t }.

Definition body_text (i : FetchInit) : string :=
  Json.stringify (MCPRequest.to_JSON (body i)).

(** A [Response]: its status, its [content-type] header and what
    [response.text()] settles to. *)
Record Response : Type := mkResponse
  { status : N;
    content_type : option string;
    text : Rejection + string }.

(** [response.ok] *)
Definition ok (r : Response) : bool := (200 <=? status r) && (status r <=? 299).

(** A reading of the clock, as [getSystemContextMessage] formats it. *)
Record Moment : Type := mkMoment
  { toISOString : string;
    toLocaleDateString : string;
    toLocaleTimeString : string }.

(** The environment.  The [n]-th call of [fetch], of
    [completions.create] and of [new Date()] is answered by the [n]-th
    answer; [syntax_error] and [null_read_error] are the messages of the
    errors the engine raises. *)
Record Env : Type := mkEnv
  { fetch : nat -> FetchInit -> Rejection + Response;
    completions_create : nat -> OpenAI.CreateParams
                         -> Rejection + option OpenAI.ReplyMessage;
    Date_now : nat -> Moment;
    syntax_error : string -> string;
    null_read_error : string -> string }.

(* ================================================================== *)
(** * Objects and the world                                             *)
(* ================================================================== *)

(** The session has one [MCPClient] object and one [AIService] object;
    a reference to either is a handle, and [None] is [null]. *)
Inductive MCPClientRef : Type := the_client.
Inductive AIServiceRef : Type := the_service.

(** The fields of an [MCPClient]. *)
Module MCPClient.
Record t : Type := mk
  { serverUrl : string;
    requestId : N;
    apiKey : option string }.

(** [new MCPClient(serverUrl, apiKey)] *)
Definition new (serverUrl : string) (apiKey : option string) : t :=
  {| serverUrl := serverUrl; requestId := 0; apiKey := apiKey |}.
End MCPClient.

(** The fields of an [AIService]. *)
Module AIService.
Record t : Type := mk
  { openai : option OpenAI.Client;
    mcpClient : option MCPClientRef;
    tools : list Tool.t }.

(** [new AIService(openaiApiKey, mcpClient)] *)
Definition new (openaiApiKey : string) (mcpClient : MCPClientRef) : t :=
  {| openai := Some (OpenAI.mkClient openaiApiKey);
     mcpClient := Some mcpClient;
     tools := [] |}.
End AIService.

(** The state of the session store of [services/mcpSession.ts]. *)
Module Store.
Record t : Type := mk
  { openaiApiKey : string;
    aiService : option AIServiceRef;
    mcpApiKey : string;
    serverUrl : string;
    mcpClient : option MCPClientRef;
    connected : bool;
    tools : list Tool.t;
    isLoading : bool;
    error : option string }.
End Store.

(** A [ChatMessage[]] array is an address in [arrays]. *)
Abbreviation ArrayRef := nat (only parsing).

Record World : Type := mkWorld
  { client : MCPClient.t;
    service : AIService.t;
    store : Store.t;
    arrays : list (list ChatMessage.t);
    fetch_log : list FetchInit;
    create_log : list OpenAI.CreateParams;
    dates_read : nat }.

Definition set_client (c : MCPClient.t) (w : World) : World :=
  mkWorld c (service w) (store w) (arrays w) (fetch_log w) (create_log w) (dates_read w).
Definition set_service (s : AIService.t) (w : World) : World :=
  mkWorld (client w) s (store w) (arrays w) (fetch_log w) (create_log w) (dates_read w).
Definition set_store (s : Store.t) (w : World) : World :=
  mkWorld (client w) (service w) s (arrays w) (fetch_log w) (create_log w) (dates_read w).
Definition set_arrays (a : list (list ChatMessage.t)) (w : World) : World :=
  mkWorld (client w) (service w) (store w) a (fetch_log w) (create_log w) (dates_read w).
Definition set_fetch_log (l : list FetchInit) (w : World) : World :=
  mkWorld (client w) (service w) (store w) (arrays w) l (create_log w) (dates_read w).
Definition set_create_log (l : list OpenAI.CreateParams) (w : World) : World :=
  mkWorld (client w) (service w) (store w) (arrays w) (fetch_log w) l (dates_read w).
Definition set_dates_read (n : nat) (w : World) : World :=
  mkWorld (client w) (service w) (store w) (arrays w) (fetch_log w) (create_log w) n.

(* ================================================================== *)
(** * Computations                                                      *)
(* ================================================================== *)

(** How a call ends: it returns, it throws, or the bound on the number
    of rounds of [chat] was reached. *)
Inductive Result (A : Type) : Type :=
| Return (a : A)
| Throw (e : Thrown)
| OutOfFuel.
Arguments Return {A} a.
Arguments Throw {A} e.
Arguments OutOfFuel {A}.

Definition M (A : Type) : Type := World -> Result A * World.

Definition ret {A} (a : A) : M A := fun w => (Return a, w).

Definition throw {A} (e : Thrown) : M A := fun w => (Throw e, w).

Definition bind {A B} (m : M A) (k : A -> M B) : M B :=
  fun w =>
    match m w with
    | (Return a, w') => k a w'
    | (Throw e, w') => (Throw e, w')
    | (OutOfFuel, w') => (OutOfFuel, w')
    end.

(** [try { m } catch (error) { handler(error) }] *)
Definition try_catch {A} (m : M A) (handler : Thrown -> M A) : M A :=
  fun w =>
    match m w with
    | (Throw e, w') => handler e w'
    | r => r
    end.

Definition gets {A} (f : World -> A) : M A := fun w => (Return (f w), w).

Definition modify (f : World -> World) : M unit := fun w => (Return tt, f w).

Declare Scope comp_scope.
Delimit Scope comp_scope with comp.
Bind Scope comp_scope with M.
Notation "'let*' x ':=' m 'in' k" := (bind m (fun x => k))
  (at level 10, x name, m at level 100, k at level 200) : comp_scope.
Notation "'let*' '_' ':=' m 'in' k" := (bind m (fun _ => k))
  (at level 10, m at level 100, k at level 200) : comp_scope.
Local Open Scope comp_scope.

(** [await p], for a promise of the environment. *)
Definition await {A} (s : Site) (p : Rejection + A) : M A :=
  match p with
  | inl r => throw (rejected s r)
  | inr a => ret a
  end.

(** [new Array()], [a.push(...xs)] and the contents of [a]. *)
Definition new_array (xs : list ChatMessage.t) : M ArrayRef :=
  fun w => (Return (length (arrays w)), set_arrays (arrays w ++ [xs]) w).

Definition read_array (a : ArrayRef) : M (list ChatMessage.t) :=
  gets (fun w => default [] (arrays w !! a)).

Definition push (a : ArrayRef) (xs : list ChatMessage.t) : M unit :=
  modify (fun w => set_arrays (alter (fun old => old ++ xs) a (arrays w)) w).

(* ================================================================== *)
(** * Transport client: [lib/mcp/MCPClient.ts]                          *)
(* ================================================================== *)

Module Transport.
Section WithEnv.

Variable env : Env.

(** [this.apiKey = apiKey] *)
Definition setApiKey (apiKey : option string) : M unit :=
  modify (fun w =>
            let c := client w in
            set_client (MCPClient.mk (MCPClient.serverUrl c) (MCPClient.requestId c) apiKey) w).

(** [++this.requestId] *)
Definition getNextRequestId : M N :=
  fun w =>
    let c := client w in
    let n := MCPClient.requestId c + 1 in
    (Return n,
     set_client (MCPClient.mk (MCPClient.serverUrl c) n (MCPClient.apiKey c)) w).

(** [fetch(url, init)]: the call is logged and answered by the
    environment. *)
Definition do_fetch (init : FetchInit) : M Response :=
  fun w =>
    await NetworkFailure (fetch env (length (fetch_log w)) init)
          (set_fetch_log (fetch_log w ++ [init]) w).

(** The body of the loop of [parseSSEResponse]. *)
Definition sse_line (jsonData line : string) : string :=
  if negb (JsString.truthy (trim line)) || startsWith ":" line then jsonData
  else if startsWith "data: " line then jsonData +:+ substring_from 6 line
  else if startsWith "event: " line then jsonData
  else if JsString.truthy (trim line) && negb (startsWith "id:" line)
          && negb (startsWith "retry:" line)
       then jsonData +:+ line
       else jsonData.

(** The SSE branch of [parseSSEResponse], on the text of the body. *)
Definition sse_decode (text : string) : string :=
  let lines := split_lines text in
  let jsonData := fold_left sse_line lines EmptyString in
  if JsString.truthy jsonData then jsonData else text.

(** [contentType.includes('text/event-stream') ||
     contentType.includes('text/plain')] *)
Definition isSSE (response : Response) : bool :=
  let contentType := default EmptyString (content_type response) in
  includes "text/event-stream" contentType || includes "text/plain" contentType.

Definition parseSSEResponse (response : Response) : M string :=
  if negb (isSSE response) then await NetworkFailure (text response)
  else
    let* text := await NetworkFailure (text response) in
    ret (sse_decode text).

(** [responseText.match(/\{[\s\S]*\}/)]: from the first ["{"] to the
    last ["}"] after it. *)
Fixpoint from_first_brace (s : string) : option string :=
  match s with
  | EmptyString => None
  | String c r => if Ascii.eqb c "{" then Some s else from_first_brace r
  end.

Fixpoint to_last_brace (s : string) : option string :=
  match s with
  | EmptyString => None
  | String c r =>
      match to_last_brace r with
      | Some t => Some (String c t)
      | None => if Ascii.eqb c "}" then Some (String c EmptyString) else None
      end
  end.

Definition brace_match (s : string) : option string :=
  match from_first_brace s with
  | Some t => to_last_brace t
  | None => None
  end.

(** [data.error.message || 'MCP server error'], as the message of the
    [Error] made of it. *)
Definition server_message (error : JSON) : string :=
  match Json.get error "message" with
  | Some m => if Json.truthy m then Json.to_string m else "MCP server error"
  | None => "MCP server error"
  end.

(** The statements of [request] after the response was parsed. *)
Definition read_result (data : JSON) : M JSON :=
  match Json.get data "result" with
  | None => throw (newError ProtocolError "No result in MCP response")
  | Some result => ret result
  end.

Definition read_envelope (data : JSON) : M JSON :=
  match data with
  | JNull => throw (newError EngineTypeError (null_read_error env "error"))
  | _ =>
      match Json.get data "error" with
      | Some error =>
          if Json.truthy error
          then throw (newError ProtocolError (server_message error))
          else read_result data
      | None => read_result data
      end
  end.

(** The headers of a request. *)
Definition request_headers (c : MCPClient.t) : list (string * string) :=
  ("Content-Type", "application/json")
    :: match MCPClient.apiKey c with
       | Some k => if JsString.truthy k then [("X-API-KEY", k)] else []
       | None => []
       end.

Definition request (method : string) (params : JSON) : M JSON :=
  let* id := getNextRequestId in
  let requestBody := MCPRequest.mk "2.0" id method params in
  try_catch
    (let* c := gets client in
     let* response :=
       do_fetch {| url := MCPClient.serverUrl c;
                   http_method := "POST";
                   headers := request_headers c;
                   body := requestBody |} in
     if negb (ok response)
     then throw (newError TransportError
                   ("HTTP error! status: " +:+ JsString.of_N (status response)))
     else
       let* responseText := parseSSEResponse response in
       let* data :=
         match Json.parse responseText with
         | Some data => ret data
         | None =>
             match brace_match responseText with
             | Some jsonMatch =>
                 match Json.parse jsonMatch with
                 | Some data => ret data
                 | None => throw (newError ParseError (syntax_error env jsonMatch))
                 end
             | None =>
                 throw (newError ParseError
                          ("Failed to parse response as JSON: "
                             +:+ substring_to 100 responseText))
             end
         end in
       read_envelope data)
    (fun error => throw error).

(** [if (server) { params.server = server }] *)
Definition with_server (params : list (string * JSON)) (server : option string)
  : JSON :=
  match server with
  | Some s =>
      if JsString.truthy s then JObj (params ++ [("server", JStr s)]) else JObj params
  | None => JObj params
  end.

Definition initialize : M JSON :=
  try_catch
    (request "initialize"
       (JObj [("protocolVersion", JStr "2024-11-05");
              ("capabilities", JObj []);
              ("clientInfo", JObj [("name", JStr "mcp-example-react");
                                   ("version", JStr "1.0.0")])]))
    (fun error => throw error).

(** The test of the [catch] of [listTools] and [listResources]. *)
Definition method_not_available (errorMessage : string) : bool :=
  includes "not available" errorMessage
  || includes "Method" errorMessage
  || includes "-32601" errorMessage.

Definition listResources (server : option string) : M ListResourcesResult.t :=
  try_catch
    (let params := with_server [] server in
     let* result := request "resources/list" params in
     ret (ListResourcesResult.of_JSON result))
    (fun error =>
       let errorMessage := message error in
       if method_not_available errorMessage
       then ret {| ListResourcesResult.resources := Some [] |}
       else throw error).

Definition fetchResource (uri : string) (server : option string) : M JSON :=
  try_catch
    (let params := with_server [("uri", JStr uri)] server in
     request "resources/read" params)
    (fun error => throw error).

Definition listTools (server : option string) : M ListToolsResult.t :=
  try_catch
    (let params := with_server [] server in
     let* result := request "tools/list" params in
     ret (ListToolsResult.of_JSON result))
    (fun error =>
       let errorMessage := message error in
       if method_not_available errorMessage
       then ret {| ListToolsResult.tools := Some [] |}
       else throw error).

Definition callTool (name : string) (arguments_ : JSON) (server : option string)
  : M JSON :=
  try_catch
    (let params := with_server [("name", JStr name); ("arguments", arguments_)] server in
     request "tools/call" params)
    (fun error => throw error).

End WithEnv.
End Transport.

(* ================================================================== *)
(** * Orchestrator: [lib/openai/AIService.ts]                           *)
(* ================================================================== *)

Module Orchestrator.
Section WithEnv.

Variable env : Env.

(** [this.tools = tools] *)
Definition setTools (tools : list Tool.t) : M unit :=
  modify (fun w =>
            let s := service w in
            set_service (AIService.mk (AIService.openai s) (AIService.mcpClient s) tools) w).

(** The element of [mcpToolsToOpenAIFunctions] made of one tool. *)
Definition function_of_tool (tool : Tool.t) : OpenAI.ChatCompletionTool :=
  {| OpenAI.fn_name := Tool.name tool;
     OpenAI.fn_description :=
       match Tool.description tool with
       | Some d => if JsString.truthy d then d else "Tool: " +:+ Tool.name tool
       | None => "Tool: " +:+ Tool.name tool
       end;
     OpenAI.fn_parameters :=
       let fallback := JObj [("type", JStr "object"); ("properties", JObj [])] in
       match Tool.inputSchema tool with
       | Some schema => if Json.truthy schema then schema else fallback
       | None => fallback
       end |}.

Definition mcpToolsToOpenAIFunctions : M (list OpenAI.ChatCompletionTool) :=
  gets (fun w => map function_of_tool (AIService.tools (service w))).

Definition executeToolCall (toolName : string) (arguments_ : JSON) : M JSON :=
  let* s := gets service in
  match AIService.mcpClient s with
  | None => throw (newError NotInitialized "MCP client not initialized")
  | Some the_client =>
      try_catch (Transport.callTool env toolName arguments_ None)
                (fun error => throw error)
  end.

Definition fetchResource (uri : string) : M JSON :=
  let* s := gets service in
  match AIService.mcpClient s with
  | None => throw (newError NotInitialized "MCP client not initialized")
  | Some the_client =>
      try_catch (Transport.fetchResource env uri None)
                (fun error => throw error)
  end.

(** The text of the system message, for a reading of the clock. *)
Definition system_context (now : Moment) : string :=
  "You are an AI assistant integrated with the Dime.Scheduler MCP (Model Context Protocol) server.

Current Date and Time:
- ISO DateTime: " +:+ toISOString now +:+ "
- Date: " +:+ toLocaleDateString now +:+ "
- Time: " +:+ toLocaleTimeString now +:+ "

You have access to tools and resources from the Dime.Scheduler MCP server. When users ask questions about scheduling, resources, or related topics, you can use the available MCP tools to fetch real-time information and perform actions.

Always be helpful, accurate, and provide clear explanations. When using tools, explain what you're doing to help the user understand the process.".

(** The message [getSystemContextMessage] returns, for a reading of
    the clock. *)
Definition system_message (now : Moment) : ChatMessage.t :=
  {| ChatMessage.role := system;
     ChatMessage.content := system_context now;
     ChatMessage.toolCalls := None;
     ChatMessage.toolCallResults := None |}.

Definition getSystemContextMessage : M ChatMessage.t :=
  fun w =>
    let now := Date_now env (dates_read w) in
    (Return (system_message now), set_dates_read (S (dates_read w)) w).

(** [messages.length > 0 && messages[0].role === 'system'] *)
Definition hasSystemMessage (messages : list ChatMessage.t) : bool :=
  match messages with
  | m :: _ => Role_eqb (ChatMessage.role m) system
  | [] => false
  end.

(** The wire messages made of one entry of the history. *)
Definition wire_of_message (msg : ChatMessage.t) : list OpenAI.MessageParam :=
  match ChatMessage.role msg with
  | system | user => [OpenAI.Plain (ChatMessage.role msg) (ChatMessage.content msg)]
  | assistant =>
      let tool_calls :=
        match ChatMessage.toolCalls msg with
        | Some ((_ :: _) as toolCalls) =>
            Some (map (fun tc =>
                         {| OpenAI.fc_id := ToolCall.id tc;
                            OpenAI.fc_name := ToolCall.name tc;
                            OpenAI.fc_arguments := Json.stringify (ToolCall.arguments tc) |})
                      toolCalls)
        | _ => None
        end in
      OpenAI.Assistant (ChatMessage.content msg) tool_calls
        :: match ChatMessage.toolCallResults msg with
           | Some toolCallResults =>
               map (fun tcr =>
                      OpenAI.ToolMessage (ToolCallResult.toolCallId tcr)
                                         (Json.stringify (ToolCallResult.result tcr)))
                   toolCallResults
           | None => []
           end
  end.

(** [this.openai.chat.completions.create(params)], reduced to
    [response.choices[0]?.message]: the call is logged and answered by
    the environment. *)
Definition do_create (params : OpenAI.CreateParams) : M (option OpenAI.ReplyMessage) :=
  fun w =>
    await ModelFailure (completions_create env (length (create_log w)) params)
          (set_create_log (create_log w ++ [params]) w).

(** The argument of the completion call. *)
Definition create_params (openAIMessages : list OpenAI.MessageParam)
           (tools : list OpenAI.ChatCompletionTool) : OpenAI.CreateParams :=
  {| OpenAI.model := "gpt-4-turbo-preview";
     OpenAI.messages := openAIMessages;
     OpenAI.tools := if (0 <? length tools)%nat then Some tools else None;
     OpenAI.tool_choice := if (0 <? length tools)%nat then Some "auto" else None |}.

(** [error instanceof Error ? error.message : 'Unknown error'] *)
Definition tool_error_message (error : Thrown) : string :=
  if instanceofError error then message error else "Unknown error".

(** The body of the loop over [assistantMessage.tool_calls]; the two
    arrays it pushes on are its accumulator. *)
Definition run_tool_call
           (acc : list ToolCall.t * list ToolCallResult.t)
           (toolCall : OpenAI.ReplyToolCall)
  : M (list ToolCall.t * list ToolCallResult.t) :=
  match toolCall with
  | OpenAI.ReplyCustom _ => ret acc
  | OpenAI.ReplyFunction id name arguments =>
      let toolName := name in
      let toolArguments :=
        match Json.parse arguments with
        | Some v => v
        | None => Json.empty_object
        end in
      let toolCalls := fst acc ++ [ToolCall.mk id toolName toolArguments] in
      try_catch
        (let* result := executeToolCall toolName toolArguments in
         ret (toolCalls, snd acc ++ [ToolCallResult.mk id result]))
        (fun error =>
           let errorMessage := tool_error_message error in
           ret (toolCalls,
                snd acc ++ [ToolCallResult.mk id (JObj [("error", JStr errorMessage)])]))
  end.

Fixpoint run_tool_calls
         (acc : list ToolCall.t * list ToolCallResult.t)
         (tool_calls : list OpenAI.ReplyToolCall)
  : M (list ToolCall.t * list ToolCallResult.t) :=
  match tool_calls with
  | [] => ret acc
  | toolCall :: rest =>
      let* acc' := run_tool_call acc toolCall in
      run_tool_calls acc' rest
  end.

(** [assistantMessage.content || ''] *)
Definition reply_text (assistantMessage : OpenAI.ReplyMessage) : string :=
  default EmptyString (OpenAI.reply_content assistantMessage).

(** [l.length > 0 ? l : undefined] *)
Definition if_nonempty {A} (l : list A) : option (list A) :=
  if (0 <? length l)%nat then Some l else None.

(** The first half of [chat]: the history with its system context, the
    wire messages, the completion call and its message. *)
Definition ask_model (messages : ArrayRef) : M OpenAI.ReplyMessage :=
  let* messagesWithSystemContext := new_array [] in
  let* history := read_array messages in
  let* _ :=
    if negb (hasSystemMessage history)
    then let* context := getSystemContextMessage in
         push messagesWithSystemContext [context]
    else ret tt in
  let* _ := push messagesWithSystemContext history in
  let* withContext := read_array messagesWithSystemContext in
  let openAIMessages := flat_map wire_of_message withContext in
  let* tools := mcpToolsToOpenAIFunctions in
  let* response := do_create (create_params openAIMessages tools) in
  match response with
  | None => throw (newError ModelFailure "No response from OpenAI")
  | Some assistantMessage => ret assistantMessage
  end.

(** The message [chat] recurses on. *)
Definition assistantMsgWithToolCalls (assistantMessage : OpenAI.ReplyMessage)
           (toolCalls : list ToolCall.t) (toolCallResults : list ToolCallResult.t)
  : ChatMessage.t :=
  {| ChatMessage.role := assistant;
     ChatMessage.content := reply_text assistantMessage;
     ChatMessage.toolCalls := Some toolCalls;
     ChatMessage.toolCallResults := Some toolCallResults |}.

(** The message [chat] returns. *)
Definition final_message (assistantMessage : OpenAI.ReplyMessage)
           (toolCalls : list ToolCall.t) (toolCallResults : list ToolCallResult.t)
  : ChatMessage.t :=
  {| ChatMessage.role := assistant;
     ChatMessage.content := reply_text assistantMessage;
     ChatMessage.toolCalls := if_nonempty toolCalls;
     ChatMessage.toolCallResults := if_nonempty toolCallResults |}.

(** [chat(messages)]; [fuel] bounds the number of rounds. *)
Fixpoint chat (fuel : nat) (messages : ArrayRef) : M ChatMessage.t :=
  match fuel with
  | O => fun w => (OutOfFuel, w)
  | S fuel' =>
      let* s := gets service in
      match AIService.openai s with
      | None => throw (newError NotInitialized "OpenAI client not initialized")
      | Some _ =>
          let* assistantMessage := ask_model messages in
          let* calls :=
            run_tool_calls ([], []) (default [] (OpenAI.reply_tool_calls assistantMessage)) in
          let toolCalls := fst calls in
          let toolCallResults := snd calls in
          if (0 <? length toolCalls)%nat then
            let* history := read_array messages in
            let* updatedMessages :=
              new_array (history ++ [assistantMsgWithToolCalls assistantMessage
                                       toolCalls toolCallResults]) in
            chat fuel' updatedMessages
          else
            ret (final_message assistantMessage toolCalls toolCallResults)
      end
  end.

End WithEnv.
End Orchestrator.

(* ================================================================== *)
(** * Session store: [services/mcpSession.ts]                           *)
(* ================================================================== *)

Module Session.
Section WithEnv.

Variable env : Env.

(** [set({ tools })] *)
Definition set_tools (tools : list Tool.t) : M unit :=
  modify (fun w =>
            let s := store w in
            set_store (Store.mk (Store.openaiApiKey s) (Store.aiService s)
                                (Store.mcpApiKey s) (Store.serverUrl s)
                                (Store.mcpClient s) (Store.connected s)
                                tools (Store.isLoading s) (Store.error s)) w).

Definition loadTools : M unit :=
  let* state := gets store in
  let mcpClient := Store.mcpClient state in
  let aiService := Store.aiService state in
  match mcpClient with
  | None => ret tt
  | Some the_client =>
      try_catch
        (let* result := Transport.listTools env None in
         let tools := default [] (ListToolsResult.tools result) in
         let* _ := set_tools tools in
         match aiService with
         | Some the_service =>
             if (0 <? length tools)%nat then Orchestrator.setTools tools else ret tt
         | None => ret tt
         end)
        (fun err => set_tools [])
  end.

(** [set({ isLoading: true, error: null })] and the other partial
    updates of [connect]. *)
Definition set_loading (isLoading : bool) : M unit :=
  modify (fun w =>
            let s := store w in
            set_store (Store.mk (Store.openaiApiKey s) (Store.aiService s)
                                (Store.mcpApiKey s) (Store.serverUrl s)
                                (Store.mcpClient s) (Store.connected s)
                                (Store.tools s) isLoading (Store.error s)) w).

Definition set_error (error : option string) : M unit :=
  modify (fun w =>
            let s := store w in
            set_store (Store.mk (Store.openaiApiKey s) (Store.aiService s)
                                (Store.mcpApiKey s) (Store.serverUrl s)
                                (Store.mcpClient s) (Store.connected s)
                                (Store.tools s) (Store.isLoading s) error) w).

Definition set_connected (connected : bool) : M unit :=
  modify (fun w =>
            let s := store w in
            set_store (Store.mk (Store.openaiApiKey s) (Store.aiService s)
                                (Store.mcpApiKey s) (Store.serverUrl s)
                                (Store.mcpClient s) connected
                                (Store.tools s) (Store.isLoading s) (Store.error s)) w).

(** [err instanceof Error ? err.message : fallback] *)
Definition message_or (fallback : string) (err : Thrown) : string :=
  if instanceofError err then message err else fallback.

Definition connect : M unit :=
  let* state := gets store in
  let mcpClient := Store.mcpClient state in
  let mcpApiKey := Store.mcpApiKey state in
  match mcpClient with
  | None => ret tt
  | Some the_client =>
      if negb (JsString.truthy (trim mcpApiKey)) then ret tt
      else
        let* _ := set_loading true in
        let* _ := set_error None in
        let* _ :=
          try_catch
            (let* _ := Transport.initialize env in
             let* _ := set_connected true in
             loadTools)
            (fun err =>
               let errorMessage := message_or "Failed to connect to MCP server" err in
               let* _ := set_error (Some errorMessage) in
               set_connected false) in
        set_loading false
  end.

End WithEnv.

Definition DEFAULT_SERVER_URL : string := "https://sandbox.api.dimescheduler.com/mcp".

(** [new AIService(openaiApiKey, mcpClient)] where [new OpenAI(...)],
    which is not of this program, is [new_OpenAI]: it returns the client
    or throws. *)
Definition new_AIService (new_OpenAI : string -> Rejection + OpenAI.Client)
           (openaiApiKey : string) (mcpClient : MCPClientRef) : Rejection + AIService.t :=
  match new_OpenAI openaiApiKey with
  | inl r => inl r
  | inr c => inr (AIService.mk (Some c) (Some mcpClient) [])
  end.

(** The action [initialize] of the store.  The objects it makes become
    the client and the service of the session when the store takes
    them. *)
Definition initialize (new_OpenAI : string -> Rejection + OpenAI.Client)
           (openaiApiKey mcpApiKey : string) (serverUrl : option string) : M unit :=
  fun w =>
    let server :=
      match serverUrl with
      | Some u => if JsString.truthy u then u else DEFAULT_SERVER_URL
      | None => DEFAULT_SERVER_URL
      end in
    let mcpClient :=
      MCPClient.new server (if JsString.truthy mcpApiKey then Some mcpApiKey else None) in
    let s := store w in
    if JsString.truthy (trim openaiApiKey) then
      match new_AIService new_OpenAI openaiApiKey the_client with
      | inl r =>
          let errorMessage :=
            message_or "Failed to initialize OpenAI service" (rejected NotInitialized r) in
          (Return tt,
           set_store (Store.mk (Store.openaiApiKey s) None
                               (Store.mcpApiKey s) (Store.serverUrl s)
                               (Store.mcpClient s) (Store.connected s)
                               (Store.tools s) (Store.isLoading s) (Some errorMessage)) w)
      | inr aiService =>
          (Return tt,
           set_store (Store.mk openaiApiKey (Some the_service) mcpApiKey server
                               (Some the_client) false
                               (Store.tools s) (Store.isLoading s) (Store.error s))
                     (set_service aiService (set_client mcpClient w)))
      end
    else
      (Return tt,
       set_store (Store.mk openaiApiKey None mcpApiKey server
                           (Some the_client) false
                           (Store.tools s) (Store.isLoading s) (Store.error s))
                 (set_client mcpClient w)).

End Session.

(* ================================================================== *)
(** * The chat view: [App.tsx] and its components                       *)
(* ================================================================== *)

(** [components/ApiKeysWarning.tsx]: the message of the banner, [None]
    when the component renders nothing. *)
Module ApiKeysWarning.

Definition getMessage (openaiApiKey mcpApiKey : string) : string :=
  if negb (JsString.truthy openaiApiKey) && negb (JsString.truthy mcpApiKey)
  then "Both API keys are missing. Please configure VITE_OPENAI_API_KEY and VITE_DIME_SCHEDULER_API_KEY in your .env file."
  else if negb (JsString.truthy openaiApiKey)
  then "OpenAI API key is missing. Please configure VITE_OPENAI_API_KEY in your .env file."
  else "Dime.Scheduler API key is missing. Please configure VITE_DIME_SCHEDULER_API_KEY in your .env file.".

Definition render (openaiApiKey mcpApiKey : string) : option string :=
  if JsString.truthy openaiApiKey && JsString.truthy mcpApiKey then None
  else Some (getMessage openaiApiKey mcpApiKey).

End ApiKeysWarning.

Module App.
Section WithEnv.

Variable env : Env.

(** The state of the component: [chatMessages] and [chatLoading]. *)
Record State : Type := mkState
  { chatMessages : list ChatMessage.t;
    chatLoading : bool }.

(** [setChatMessages((prev) => [...prev, message])] *)
Definition append_message (message : ChatMessage.t) (app : State) : State :=
  {| chatMessages := chatMessages app ++ [message]; chatLoading := chatLoading app |}.

Definition setChatLoading (loading : bool) (app : State) : State :=
  {| chatMessages := chatMessages app; chatLoading := loading |}.

(** The effect that connects the session: it calls [connect] when both
    keys are not blank and the session is neither connected nor
    connecting. *)
Definition auto_connect : M unit :=
  let* state := gets store in
  if JsString.truthy (trim (Store.openaiApiKey state))
     && JsString.truthy (trim (Store.mcpApiKey state))
     && negb (Store.connected state) && negb (Store.isLoading state)
  then Session.connect env
  else ret tt.

(** [handleSendMessage(message)], for the state the component was
    rendered with; [fuel] bounds the rounds of [chat]. *)
Definition handleSendMessage (fuel : nat) (message : string) (app : State) : M State :=
  let* state := gets store in
  match Store.aiService state with
  | None => ret app
  | Some the_service =>
      let userMessage := ChatMessage.mk user message None None in
      let app1 := setChatLoading true (append_message userMessage app) in
      let* app2 :=
        try_catch
          (let* history := new_array (chatMessages app ++ [userMessage]) in
           let* response := Orchestrator.chat env fuel history in
           ret (append_message response app1))
          (fun err =>
             let errorMessage := Session.message_or "Failed to send message" err in
             let errorChatMessage :=
               ChatMessage.mk assistant ("Error: " +:+ errorMessage) None None in
             ret (append_message errorChatMessage app1)) in
      ret (setChatLoading false app2)
  end.

(** [handleSubmit] of [components/ChatInterface.tsx], [onSendMessage]
    being [handleSendMessage]: the new text of the input and the new
    state. *)
Definition handleSubmit (fuel : nat) (input : string) (app : State) : M (string * State) :=
  if negb (JsString.truthy (trim input)) || chatLoading app then ret (input, app)
  else
    let message := trim input in
    let* app' := handleSendMessage fuel message app in
    ret (EmptyString, app').

End WithEnv.
End App.

(* ================================================================== *)
(** * Definitions used to state the properties                          *)
(* ================================================================== *)

(** The contents of the array at [a]. *)
Definition history_of (w : World) (a : ArrayRef) : list ChatMessage.t :=
  default [] (arrays w !! a).

(** The id of the request a call of [fetch] carried. *)
Definition request_id (i : FetchInit) : N := MCPRequest.id (body i).

(** The calls of [fetch] made between two worlds. *)
Definition fetched_since (w w' : World) : list FetchInit :=
  drop (length (fetch_log w)) (fetch_log w').

(** The completion calls made between two worlds. *)
Definition created_since (w w' : World) : list OpenAI.CreateParams :=
  drop (length (create_log w)) (create_log w').

Module Sse.

(** A line that carries data, and its content. *)
Definition is_data (line : string) : bool := startsWith "data: " line.
Definition data_content (line : string) : string := substring_from 6 line.

(** The decode as the specification words it: the contents of the
    [data: ] lines, in order. *)
Definition data_concat (body : string) : string :=
  JsString.concat (map data_content (List.filter is_data (split_lines body))).

(** A line of one of the kinds the specification lists: blank, comment,
    [event: ], [id:], [retry:] or [data: ]. *)
Definition is_field_line (line : string) : bool :=
  negb (JsString.truthy (trim line))
  || startsWith ":" line
  || startsWith "data: " line
  || startsWith "event: " line
  || startsWith "id:" line
  || startsWith "retry:" line.

End Sse.

(** The world a request leaves, whatever its outcome: the counter of the
    client went up by one and one call of [fetch] was made. *)
Definition after_request (method : string) (params : JSON) (w : World) : World :=
  let c := client w in
  let id := MCPClient.requestId c + 1 in
  let c' := MCPClient.mk (MCPClient.serverUrl c) id (MCPClient.apiKey c) in
  set_fetch_log
    (fetch_log w ++ [{| url := MCPClient.serverUrl c;
                        http_method := "POST";
                        headers := Transport.request_headers c';
                        body := MCPRequest.mk "2.0" id method params |}])
    (set_client c' w).

(** A sequence of [request] invocations on the client, each outcome
    being observed by its caller. *)
Fixpoint requests (env : Env) (calls : list (string * JSON)) : M (list (Result JSON)) :=
  match calls with
  | [] => ret []
  | (method, params) :: rest =>
      fun w =>
        let '(r, w') := Transport.request env method params w in
        bind (requests env rest) (fun rs => ret (r :: rs)) w'
  end.

(** The history [ask_model] sends: the given one, after a system
    message for the current reading of the clock when it does not start
    with one. *)
Definition with_system_context (env : Env) (w : World) (history : list ChatMessage.t)
  : list ChatMessage.t :=
  if Orchestrator.hasSystemMessage history then history
  else Orchestrator.system_message (Date_now env (dates_read w)) :: history.

(** The data-model invariant of a message: every [toolCallId] of its
    results is the [id] of one of its calls. *)
Definition results_reference_calls (msg : ChatMessage.t) : Prop :=
  forall r, In r (default [] (ChatMessage.toolCallResults msg)) ->
            exists c, In c (default [] (ChatMessage.toolCalls msg))
                      /\ ToolCall.id c = ToolCallResult.toolCallId r.

(** Calls and results are paired one to one, in call order. *)
Definition paired_in_order (msg : ChatMessage.t) : Prop :=
  map ToolCallResult.toolCallId (default [] (ChatMessage.toolCallResults msg))
  = map ToolCall.id (default [] (ChatMessage.toolCalls msg)).

(** The result recorded for a call that failed with [error]. *)
Definition error_result (id : string) (error : Thrown) : ToolCallResult.t :=
  ToolCallResult.mk id (JObj [("error", JStr (Orchestrator.tool_error_message error))]).

(** The result recorded for a call, given the outcome of its execution. *)
Definition recorded (id : string) (outcome : Result JSON) : option ToolCallResult.t :=
  match outcome with
  | Return result => Some (ToolCallResult.mk id result)
  | Throw error => Some (error_result id error)
  | OutOfFuel => None
  end.

(** ** Predicates on computations and worlds *)

(** A computation that leaves the world as it found it. *)
Definition quiet {A} (m : M A) : Prop := forall w, snd (m w) = w.

(** A computation that only throws values that satisfy [P]. *)
Definition throws_only {A} (P : Thrown -> Prop) (m : M A) : Prop :=
  forall w e w', m w = (Throw e, w') -> P e.

(** The character [c] is one of the characters of [s]. *)
Fixpoint occurs (c : ascii) (s : string) : bool :=
  match s with
  | EmptyString => false
  | String b s' => Ascii.eqb c b || occurs c s'
  end.

(** A transport error of [request] has that message. *)
Definition transport_shaped (e : Thrown) : Prop :=
  site e = TransportError ->
  exists st, message e = "HTTP error! status: " +:+ JsString.of_N st.

(** The ids of [n] requests in a row, the counter being at [first]. *)
Definition ids_from (first : N) (n : nat) : list N :=
  map (fun k => first + N.of_nat k) (seq 1 n).

(** A computation that needs no fuel. *)
Definition finishes {A} (m : M A) : Prop := forall w, fst (m w) <> OutOfFuel.

(** The argument of the completion call of [ask_model]. *)
Definition ask_params (env : Env) (messages : ArrayRef) (w : World) : OpenAI.CreateParams :=
  Orchestrator.create_params
    (flat_map Orchestrator.wire_of_message
              (with_system_context env w (history_of w messages)))
    (map Orchestrator.function_of_tool (AIService.tools (service w))).

(** The world [ask_model] leaves, whatever the model answers: one more
    array, that of the history with its system context, and one more
    completion call; the clock was read when a system message was made. *)
Definition after_ask (env : Env) (messages : ArrayRef) (w : World) : World :=
  let history := history_of w messages in
  set_create_log (create_log w ++ [ask_params env messages w])
    (set_arrays (arrays w ++ [with_system_context env w history])
       (set_dates_read
          (if Orchestrator.hasSystemMessage history then dates_read w else S (dates_read w))
          w)).

(** The outcome of [ask_model]: the answer of the environment to its
    completion call. *)
Definition model_answer (env : Env) (messages : ArrayRef) (w : World)
  : Result OpenAI.ReplyMessage :=
  match completions_create env (length (create_log w)) (ask_params env messages w) with
  | inl r => Throw (rejected ModelFailure r)
  | inr None => Throw (newError ModelFailure "No response from OpenAI")
  | inr (Some assistantMessage) => Return assistantMessage
  end.

(** Worlds that differ at most by the client and the log of [fetch]. *)
Definition transport_only (w w' : World) : Prop :=
  service w' = service w /\ store w' = store w /\ arrays w' = arrays w
  /\ create_log w' = create_log w /\ dates_read w' = dates_read w.

(** The accumulator of the loop: as many results as calls, with the
    same ids in the same order. *)
Definition paired (acc : list ToolCall.t * list ToolCallResult.t) : Prop :=
  map ToolCallResult.toolCallId (snd acc) = map ToolCall.id (fst acc).

(** One accumulator extends another. *)
Definition extends (acc acc' : list ToolCall.t * list ToolCallResult.t) : Prop :=
  exists calls results, acc' = (fst acc ++ calls, snd acc ++ results).

(** The world in which [chat] recurses: the history and the message of
    the round are in a new array. *)
Definition next_round (w : World) (history : list ChatMessage.t)
           (reply : OpenAI.ReplyMessage) (calls : list ToolCall.t * list ToolCallResult.t)
  : World :=
  set_arrays
    (arrays w ++ [history ++ [Orchestrator.assistantMsgWithToolCalls reply (fst calls) (snd calls)]])
    w.

(** What [chat] throws: the failure of a tool is not among it. *)
Definition fatal_to_chat (e : Thrown) : Prop :=
  site e = ModelFailure \/ e = newError NotInitialized "OpenAI client not initialized".

(** The sites of the transport client. *)
Definition transport_site (s : Site) : bool :=
  match s with
  | TransportError | ParseError | ProtocolError | NetworkFailure | EngineTypeError => true
  | NotInitialized | ModelFailure => false
  end.

(** What the execution of a tool call throws. *)
Definition thrown_by_tool (e : Thrown) : Prop :=
  transport_site (site e) = true
  \/ e = newError NotInitialized "MCP client not initialized".

(** The tool fields of a completion call, for the tools the service
    knows. *)
Definition tools_field_ok (known : list Tool.t) (p : OpenAI.CreateParams) : Prop :=
  match known with
  | [] => OpenAI.tools p = None /\ OpenAI.tool_choice p = None
  | _ :: _ =>
      OpenAI.tools p = Some (map Orchestrator.function_of_tool known)
      /\ OpenAI.tool_choice p = Some "auto"
  end.

(** Both forms of the pairing of the results of a message with its
    calls. *)
Definition well_paired (msg : ChatMessage.t) : Prop :=
  paired_in_order msg /\ results_reference_calls msg.

(** A message that was in an array of [w], or that is well paired. *)
Definition given_or_paired (w : World) (msg : ChatMessage.t) : Prop :=
  In msg (List.concat (arrays w)) \/ well_paired msg.

(** The argument of the call of [fetch] that [request] makes from [w]. *)
Definition sent_by_request (method : string) (params : JSON) (w : World) : FetchInit :=
  {| url := MCPClient.serverUrl (client w);
     http_method := "POST";
     headers := Transport.request_headers (client w);
     body := MCPRequest.mk "2.0" (MCPClient.requestId (client w) + 1) method params |}.

(** The statements of [request] that follow the call of [fetch]. *)
Definition after_fetch (env : Env) (response : Response) : M JSON :=
  if negb (ok response)
  then throw (newError TransportError
                ("HTTP error! status: " +:+ JsString.of_N (status response)))
  else
    bind (Transport.parseSSEResponse response)
         (fun responseText =>
            bind (match Json.parse responseText with
                  | Some data => ret data
                  | None =>
                      match Transport.brace_match responseText with
                      | Some jsonMatch =>
                          match Json.parse jsonMatch with
                          | Some data => ret data
                          | None => throw (newError ParseError (syntax_error env jsonMatch))
                          end
                      | None =>
                          throw (newError ParseError
                                   ("Failed to parse response as JSON: "
                                      +:+ substring_to 100 responseText))
                      end
                  end)
                 (Transport.read_envelope env)).

(** The value [request] makes of the text of a response: the text parsed
    as JSON or, when it is not JSON, what lies between its first ["{"]
    and its last ["}"], parsed as JSON; [None] when [request] throws. *)
Definition decode_json (responseText : string) : option JSON :=
  match Json.parse responseText with
  | Some data => Some data
  | None =>
      match Transport.brace_match responseText with
      | Some jsonMatch => Json.parse jsonMatch
      | None => None
      end
  end.

(** An envelope without an [error] member that is truthy. *)
Definition no_error (data : JSON) : bool :=
  match Json.get data "error" with
  | Some error => negb (Json.truthy error)
  | None => true
  end.

(** The text [parseSSEResponse] makes of a response whose body was read. *)
Definition response_text (response : Response) : option string :=
  match text response with
  | inl _ => None
  | inr body => Some (if Transport.isSSE response then Transport.sse_decode body else body)
  end.

(** The operation [m] makes one call of [fetch], that of a request of
    [method] with [params], moves the counter of the client by one and
    changes nothing else. *)
Definition makes_one_request {A} (m : M A) (method : string) (params : JSON) : Prop :=
  forall w,
    let w' := snd (m w) in
    fetched_since w w' = [sent_by_request method params w]
    /\ client w'
       = MCPClient.mk (MCPClient.serverUrl (client w))
                      (MCPClient.requestId (client w) + 1)
                      (MCPClient.apiKey (client w))
    /\ transport_only w w'.

(** The call [chat] records for a tool call of a reply: none when the
    call is not of type ['function']. *)
Definition requested_call (toolCall : OpenAI.ReplyToolCall) : option ToolCall.t :=
  match toolCall with
  | OpenAI.ReplyFunction id name arguments =>
      Some (ToolCall.mk id name (default Json.empty_object (Json.parse arguments)))
  | OpenAI.ReplyCustom _ => None
  end.

Definition requested_calls (tool_calls : list OpenAI.ReplyToolCall) : list ToolCall.t :=
  omap requested_call tool_calls.

(** The parameters of the request that executes a call. *)
Definition call_params (call : ToolCall.t) : JSON :=
  JObj [("name", JStr (ToolCall.name call)); ("arguments", ToolCall.arguments call)].

(** The world after the requests that execute [calls], when the
    service has a client. *)
Definition after_calls (calls : list ToolCall.t) (w : World) : World :=
  match AIService.mcpClient (service w) with
  | Some _ => fold_left (fun w c => after_request "tools/call" (call_params c) w) calls w
  | None => w
  end.

(** The results the loop records for the calls of a reply. *)
Definition tool_results (env : Env) (tool_calls : list OpenAI.ReplyToolCall) (w : World)
  : list ToolCallResult.t :=
  match fst (Orchestrator.run_tool_calls env ([], []) tool_calls w) with
  | Return calls => snd calls
  | _ => []
  end.

(** The requests made between two worlds are executions of tools by the
    client of the first: posted to its URL with its headers, numbered
    from its counter on, the counter having moved by as many. *)
Definition tool_traffic (w w' : World) : Prop :=
  let c := client w in
  let new := fetched_since w w' in
  fetch_log w' = fetch_log w ++ new
  /\ Forall (fun i => url i = MCPClient.serverUrl c
                      /\ http_method i = "POST"
                      /\ headers i = Transport.request_headers c
                      /\ MCPRequest.jsonrpc (body i) = "2.0"
                      /\ MCPRequest.method (body i) = "tools/call") new
  /\ map request_id new = ids_from (MCPClient.requestId c) (length new)
  /\ client w'
     = MCPClient.mk (MCPClient.serverUrl c)
                    (MCPClient.requestId c + N.of_nat (length new))
                    (MCPClient.apiKey c).

(** The id a tool message answers. *)
Definition answered_id (m : OpenAI.MessageParam) : option string :=
  match m with
  | OpenAI.ToolMessage tool_call_id _ => Some tool_call_id
  | _ => None
  end.

(** A computation that neither reads nor changes the world. *)
Definition pure_outcome {A} (m : M A) : Prop := exists r, forall w, m w = (r, w).

(** The world after a listing that returned [tools]. *)
Definition tools_listed (tools : list Tool.t) (w : World) : World :=
  let w1 := snd (Session.set_tools tools w) in
  match Store.aiService (store w) with
  | Some _ => if (0 <? length tools)%nat then snd (Orchestrator.setTools tools w1) else w1
  | None => w1
  end.

(** The world in which [connect] calls [initialize] on the client. *)
Definition connecting (w : World) : World :=
  snd (Session.set_error None (snd (Session.set_loading true w))).

(** The world [connect] leaves, given what [initialize] did. *)
Definition connect_settled (env : Env) (outcome : Result JSON * World) : World :=
  snd (Session.set_loading false
         match outcome with
         | (Return _, w1) => snd (Session.loadTools env (snd (Session.set_connected true w1)))
         | (Throw err, w1) =>
             snd (Session.set_connected false
                    (snd (Session.set_error
                            (Some (Session.message_or "Failed to connect to MCP server" err))
                            w1)))
         | (OutOfFuel, w1) => w1
         end).

(** The parameters of the request of [initialize]. *)
Definition initialize_params : JSON :=
  JObj [("protocolVersion", JStr "2024-11-05");
        ("capabilities", JObj []);
        ("clientInfo", JObj [("name", JStr "mcp-example-react");
                             ("version", JStr "1.0.0")])].

(** The message of the user, as [handleSendMessage] makes it. *)
Definition question (message : string) : ChatMessage.t :=
  ChatMessage.mk user message None None.

(** The message shown for a turn that failed with [err]. *)
Definition shown_error (err : Thrown) : ChatMessage.t :=
  ChatMessage.mk assistant
    ("Error: " +:+ (if instanceofError err then message err else "Failed to send message"))
    None None.

(** The world in which [handleSendMessage] calls [chat]: the messages
    shown and the question are in a new array. *)
Definition question_asked (message : string) (app : App.State) (w : World) : World :=
  set_arrays (arrays w ++ [App.chatMessages app ++ [question message]]) w.

(** ** Scenarios *)

Module Scenario.

Definition nl : string := String "010"%char EmptyString.

(** A text in which each apostrophe stands for a double quote. *)
Fixpoint dq (s : string) : string :=
  match s with
  | EmptyString => EmptyString
  | String c r => String (if Ascii.eqb c "'" then Json.dquote else c) (dq r)
  end.

Definition server : string := "https://sandbox.api.dimescheduler.com/mcp".

(** A session right after [initialize(openaiApiKey, mcpApiKey)]. *)
Definition fresh : World :=
  {| client := MCPClient.new server (Some "mcp-key");
     service := AIService.new "openai-key" the_client;
     store := Store.mk "openai-key" (Some the_service) "mcp-key" server
                       (Some the_client) false [] false None;
     arrays := [];
     fetch_log := [];
     create_log := [];
     dates_read := 0 |}.

Definition noon : Moment :=
  mkMoment "2026-01-01T12:00:00.000Z" "Thursday, January 1, 2026" "12:00:00 PM UTC".

(** An environment made of a server and a model. *)
Definition environment
           (answers : nat -> FetchInit -> Rejection + Response)
           (model : nat -> OpenAI.CreateParams -> Rejection + option OpenAI.ReplyMessage)
  : Env :=
  {| fetch := answers;
     completions_create := model;
     Date_now := fun _ => noon;
     syntax_error := fun _ => "Unexpected token in JSON";
     null_read_error := fun _ => "Cannot read properties of null" |}.

Definition silent_model (n : nat) (p : OpenAI.CreateParams)
  : Rejection + option OpenAI.ReplyMessage :=
  inr (Some (OpenAI.mkReply (Some "Hello.") None)).

(** A server that answers every request with the same response. *)
Definition always (r : Response) (n : nat) (i : FetchInit) : Rejection + Response :=
  inr r.

Definition json_response (body : string) : Response :=
  mkResponse 200 (Some "application/json") (inr body).

(** A gateway that answers [200] with a page that is not JSON. *)
Definition html_gateway : Env :=
  environment (always (mkResponse 200 (Some "text/html") (inr "Method Not Allowed")))
              silent_model.

(** A server that fails with a JSON-RPC internal error. *)
Definition internal_error : Env :=
  environment
    (always (json_response
               (dq "{'jsonrpc':'2.0','id':1,'error':{'code':-32603,'message':'Internal error'}}")))
    silent_model.

(** A server without the method. *)
Definition method_not_found : Env :=
  environment
    (always (json_response
               (dq "{'jsonrpc':'2.0','id':1,'error':{'code':-32601,'message':'-32601'}}")))
    silent_model.

(** The SSE body of the specification. *)
Definition sse_body : string :=
  "event: message" +:+ nl +:+ dq "data: {'a':" +:+ nl +:+ "data: 1}" +:+ nl +:+ nl.

Definition sse_response (body : string) : Response :=
  mkResponse 200 (Some "text/event-stream") (inr body).

Definition schedule_tool : Tool.t :=
  Tool.mk "getResourceSchedule" (Some "Schedule of a resource")
          (Some (JObj [("type", JStr "object")])).

(** A server whose catalog is empty. *)
Definition empty_catalog : Env :=
  environment (always (json_response (dq "{'jsonrpc':'2.0','id':1,'result':{'tools':[]}}")))
              silent_model.

(** A server with one tool. *)
Definition one_tool_catalog : Env :=
  environment
    (always (json_response
               (dq "{'jsonrpc':'2.0','id':1,'result':{'tools':[{'name':'getResourceSchedule','description':'Schedule of a resource','inputSchema':{'type':'object'}}]}}")))
    silent_model.

(** A session whose orchestrator already holds one tool. *)
Definition with_one_tool : World :=
  set_service (AIService.mk (Some (OpenAI.mkClient "openai-key")) (Some the_client)
                            [schedule_tool]) fresh.

(** A model that asks once for a tool, with arguments that are not
    JSON, and then answers. *)
Definition asks_once (n : nat) (p : OpenAI.CreateParams)
  : Rejection + option OpenAI.ReplyMessage :=
  match n with
  | O => inr (Some (OpenAI.mkReply None
                      (Some [OpenAI.ReplyFunction "call_1" "getResourceSchedule" "{resourceId"])))
  | S _ => inr (Some (OpenAI.mkReply (Some "The schedule is not available.") None))
  end.

(** A server that is down, behind such a model. *)
Definition failing_tool : Env :=
  environment (always (mkResponse 500 (Some "application/json") (inr "oops"))) asks_once.

(** A session whose history holds one question of the user. *)
Definition asked : World :=
  set_arrays [[ChatMessage.mk user "What is the schedule of X?" None None]] fresh.

End Scenario.

(** Further scenarios. *)
Module Case.

(** A model that answers every completion call with a call of the same
    tool. *)
Definition insistent (n : nat) (p : OpenAI.CreateParams)
  : Rejection + option OpenAI.ReplyMessage :=
  inr (Some (OpenAI.mkReply None
               (Some [OpenAI.ReplyFunction "call_1" "getResourceSchedule" "{}"]))).

(** A model whose reply holds no call of type ['function']. *)
Definition custom_only (n : nat) (p : OpenAI.CreateParams)
  : Rejection + option OpenAI.ReplyMessage :=
  inr (Some (OpenAI.mkReply (Some "Done.") (Some [OpenAI.ReplyCustom "call_1"]))).

(** A model that is out of quota. *)
Definition out_of_quota (n : nat) (p : OpenAI.CreateParams)
  : Rejection + option OpenAI.ReplyMessage :=
  inl (mkRejection true "429 You exceeded your current quota").

(** A server that executes every tool. *)
Definition tool_server : nat -> FetchInit -> Rejection + Response :=
  Scenario.always
    (Scenario.json_response (Scenario.dq "{'jsonrpc':'2.0','id':1,'result':{'ok':true}}")).

(** A server that cannot be reached. *)
Definition unreachable (n : nat) (i : FetchInit) : Rejection + Response :=
  inl (mkRejection true "Failed to fetch").

(** A session whose service has no client. *)
Definition no_client : World :=
  set_service (AIService.mk (Some (OpenAI.mkClient "openai-key")) None []) Scenario.asked.

(** A session that was initialized without an OpenAI key: it has a
    client and no service. *)
Definition no_service : World :=
  set_store (Store.mk EmptyString None "mcp-key" Scenario.server
                      (Some the_client) false [] false None) Scenario.fresh.

(** A session whose history starts with a system message of the
    caller. *)
Definition briefed : World :=
  set_arrays [[ChatMessage.mk system "Be brief." None None;
               ChatMessage.mk user "What is the schedule of X?" None None]]
             Scenario.fresh.

End Case.
(* ================================================================== *)
(** * Lemmas on strings                                                 *)
(* ================================================================== *)

Lemma append_cons (c : ascii) (s t : string) :
  String c s +:+ t = String c (s +:+ t).
Proof. reflexivity. Qed.

Lemma append_nil_r (s : string) : s +:+ EmptyString = s.
Proof. induction s as [|c s IH]; [reflexivity | now rewrite append_cons, IH]. Qed.

Lemma append_assoc (a b c : string) : (a +:+ b) +:+ c = a +:+ (b +:+ c).
Proof. induction a as [|x a IH]; [reflexivity | now rewrite !append_cons, IH]. Qed.

Lemma trimEnd_head (c : ascii) (s : string) :
  is_space c = false -> JsString.truthy (trimEnd (String c s)) = true.
Proof. intros Hc. simpl. destruct (trimEnd s); [rewrite Hc |]; reflexivity. Qed.

(** The first character of a pattern is one of the characters of any
    string that starts with it. *)
Lemma prefix_head (c : ascii) (p s : string) :
  String.prefix (String c p) s = true -> exists s', s = String c s'.
Proof.
  destruct s as [|b s]; simpl; [discriminate |].
  destruct (ascii_dec c b) as [->|]; [eauto | discriminate].
Qed.

(** ** Server-sent events *)

Lemma data_line_is_kept (line : string) :
  Sse.is_data line = true ->
  JsString.truthy (trim line) = true /\ startsWith ":" line = false.
Proof.
  intros H. destruct (prefix_head _ _ _ H) as [s ->]. split.
  - unfold trim. change (trimStart (String "d" s)) with (String "d" s).
    now apply trimEnd_head.
  - reflexivity.
Qed.

Lemma sse_line_field (jsonData line : string) :
  Sse.is_field_line line = true ->
  Transport.sse_line jsonData line
  = if Sse.is_data line then jsonData +:+ Sse.data_content line else jsonData.
Proof.
  unfold Sse.is_field_line, Transport.sse_line, Sse.data_content.
  destruct (Sse.is_data line) eqn:Hd.
  - destruct (data_line_is_kept _ Hd) as [-> ->].
    unfold Sse.is_data in Hd. now rewrite Hd.
  - unfold Sse.is_data in Hd. rewrite Hd.
    destruct (JsString.truthy (trim line)), (startsWith ":" line),
      (startsWith "event: " line), (startsWith "id:" line),
      (startsWith "retry:" line); simpl; intros; reflexivity || discriminate.
Qed.

Lemma sse_fold_field (lines : list string) (jsonData : string) :
  Forall (fun l => Sse.is_field_line l = true) lines ->
  fold_left Transport.sse_line lines jsonData
  = jsonData +:+ JsString.concat (map Sse.data_content (List.filter Sse.is_data lines)).
Proof.
  intros H. revert jsonData.
  induction H as [|line lines Hl _ IH]; intros jsonData; simpl.
  - now rewrite append_nil_r.
  - rewrite IH, (sse_line_field _ _ Hl).
    destruct (Sse.is_data line); simpl; [now rewrite append_assoc | reflexivity].
Qed.

(* ================================================================== *)
(** * Lemmas on computations                                            *)
(* ================================================================== *)

Ltac run :=
  unfold bind, ret, throw, try_catch, gets, modify, await in *.

Lemma quiet_ret {A} (a : A) : quiet (ret a).
Proof. intros w; reflexivity. Qed.

Lemma quiet_throw {A} (e : Thrown) : quiet (@throw A e).
Proof. intros w; reflexivity. Qed.

Lemma quiet_gets {A} (f : World -> A) : quiet (gets f).
Proof. intros w; reflexivity. Qed.

Lemma quiet_await {A} (s : Site) (p : Rejection + A) : quiet (await s p).
Proof. intros w; destruct p; reflexivity. Qed.

Lemma quiet_bind {A B} (m : M A) (k : A -> M B) :
  quiet m -> (forall a, quiet (k a)) -> quiet (bind m k).
Proof.
  intros Hm Hk w. unfold bind. specialize (Hm w).
  destruct (m w) as [[a| |] w']; simpl in *; subst; [apply Hk | reflexivity..].
Qed.

Lemma quiet_try_catch {A} (m : M A) (h : Thrown -> M A) :
  quiet m -> (forall e, quiet (h e)) -> quiet (try_catch m h).
Proof.
  intros Hm Hh w. unfold try_catch. specialize (Hm w).
  destruct (m w) as [[a| |] w']; simpl in *; subst; [reflexivity | apply Hh | reflexivity].
Qed.

Create HintDb quiet.
#[local] Hint Resolve quiet_ret quiet_throw quiet_gets quiet_await : quiet.

(** A [catch] that only throws the error again changes nothing. *)
Lemma try_catch_rethrow {A} (m : M A) (w : World) :
  try_catch m (fun error => throw error) w = m w.
Proof. unfold try_catch, throw. destruct (m w) as [[a| |] w']; reflexivity. Qed.

(** The world after a computation that is followed by another. *)
Lemma bind_world {A B} (m : M A) (k : A -> M B) (w : World) :
  (forall a, quiet (k a)) -> snd (bind m k w) = snd (m w).
Proof.
  intros Hk. unfold bind. destruct (m w) as [[a| |] w']; simpl; [apply Hk | reflexivity..].
Qed.

Lemma try_catch_world {A} (m : M A) (h : Thrown -> M A) (w : World) :
  (forall e, quiet (h e)) -> snd (try_catch m h w) = snd (m w).
Proof.
  intros Hh. unfold try_catch. destruct (m w) as [[a| |] w']; simpl; [|apply Hh|]; reflexivity.
Qed.

Lemma throws_only_ret {A} P (a : A) : throws_only P (ret a).
Proof. intros w e w'; discriminate. Qed.

Lemma throws_only_throw {A} (P : Thrown -> Prop) (e : Thrown) :
  P e -> throws_only P (@throw A e).
Proof. intros H w e' w' [= <- _]; exact H. Qed.

Lemma throws_only_await {A} (P : Thrown -> Prop) (s : Site) (p : Rejection + A) :
  (forall r, P (rejected s r)) -> throws_only P (await s p).
Proof. intros H w e w'. destruct p; simpl; [intros [= <- _]; apply H | discriminate]. Qed.

Lemma throws_only_bind {A B} P (m : M A) (k : A -> M B) :
  throws_only P m -> (forall a, throws_only P (k a)) -> throws_only P (bind m k).
Proof.
  intros Hm Hk w e w'. unfold bind. specialize (Hm w).
  destruct (m w) as [[a|e0|] w0]; [apply Hk | | discriminate].
  intros [= <- <-]. eapply Hm; reflexivity.
Qed.

Lemma throws_only_rethrow {A} P (m : M A) :
  throws_only P m -> throws_only P (try_catch m (fun error => throw error)).
Proof. intros Hm w e w'. rewrite try_catch_rethrow. apply Hm. Qed.

Lemma finishes_ret {A} (a : A) : finishes (ret a).
Proof. intros w; discriminate. Qed.

Lemma finishes_throw {A} (e : Thrown) : finishes (@throw A e).
Proof. intros w; discriminate. Qed.

Lemma finishes_gets {A} (f : World -> A) : finishes (gets f).
Proof. intros w; discriminate. Qed.

Lemma finishes_modify (f : World -> World) : finishes (modify f).
Proof. intros w; discriminate. Qed.

Lemma finishes_await {A} (s : Site) (p : Rejection + A) : finishes (await s p).
Proof. intros w; destruct p; discriminate. Qed.

Lemma finishes_bind {A B} (m : M A) (k : A -> M B) :
  finishes m -> (forall a, finishes (k a)) -> finishes (bind m k).
Proof.
  intros Hm Hk w. unfold bind. specialize (Hm w).
  destruct (m w) as [[a|e|] w']; [apply Hk | discriminate | now elim Hm].
Qed.

Lemma finishes_try_catch {A} (m : M A) (h : Thrown -> M A) :
  finishes m -> (forall e, finishes (h e)) -> finishes (try_catch m h).
Proof.
  intros Hm Hh w. unfold try_catch. specialize (Hm w).
  destruct (m w) as [[a|e|] w']; [discriminate | apply Hh | exact Hm].
Qed.

Create HintDb finishes.
#[local] Hint Resolve finishes_ret finishes_throw finishes_gets finishes_modify
  finishes_await : finishes.

Ltac finish :=
  repeat first
    [ lazymatch goal with
      | |- forall _, _ => intro
      | |- finishes (bind _ _) => apply finishes_bind
      | |- finishes (try_catch _ _) => apply finishes_try_catch
      | |- finishes (let _ := _ in _) => cbv zeta
      | |- finishes (match _ with _ => _ end) => case_match
      end
    | solve [auto with finishes] ].

(* ================================================================== *)
(** * Lemmas on the transport client                                    *)
(* ================================================================== *)

Lemma quiet_parseSSEResponse (response : Response) :
  quiet (Transport.parseSSEResponse response).
Proof.
  unfold Transport.parseSSEResponse.
  destruct (negb (Transport.isSSE response)); [auto with quiet |].
  apply quiet_bind; auto with quiet.
Qed.

Lemma quiet_read_envelope env (data : JSON) : quiet (Transport.read_envelope env data).
Proof.
  unfold Transport.read_envelope, Transport.read_result.
  repeat case_match; auto with quiet.
Qed.

(** Whatever its outcome, a request leaves the world [after_request]. *)
Lemma request_world env (method : string) (params : JSON) (w : World) :
  snd (Transport.request env method params w) = after_request method params w.
Proof.
  unfold Transport.request. unfold bind at 1. cbn [Transport.getNextRequestId].
  rewrite try_catch_rethrow. unfold bind at 1, gets at 1.
  rewrite bind_world.
  - unfold Transport.do_fetch. cbn [client set_client fetch_log].
    unfold after_request. apply quiet_await.
  - intros response. destruct (negb (ok response)); [auto with quiet |].
    apply quiet_bind; [apply quiet_parseSSEResponse | intros responseText].
    apply quiet_bind; [| intros data; apply quiet_read_envelope].
    repeat case_match; auto with quiet.
Qed.

Lemma listTools_world env (server : option string) (w : World) :
  snd (Transport.listTools env server w)
  = after_request "tools/list" (Transport.with_server [] server) w.
Proof.
  unfold Transport.listTools. rewrite try_catch_world.
  - rewrite bind_world by auto with quiet. apply request_world.
  - intros e. destruct (Transport.method_not_available (message e)); auto with quiet.
Qed.

Lemma callTool_world env (name : string) (arguments_ : JSON) (server : option string)
      (w : World) :
  snd (Transport.callTool env name arguments_ server w)
  = after_request "tools/call"
      (Transport.with_server [("name", JStr name); ("arguments", arguments_)] server) w.
Proof. unfold Transport.callTool. rewrite try_catch_rethrow. apply request_world. Qed.

(** What [listTools] does with the outcome of its request. *)
Lemma listTools_outcome env (server : option string) (w : World) :
  Transport.listTools env server w
  = match Transport.request env "tools/list" (Transport.with_server [] server) w with
    | (Return result, w') => (Return (ListToolsResult.of_JSON result), w')
    | (Throw error, w') =>
        (if Transport.method_not_available (message error)
         then Return {| ListToolsResult.tools := Some [] |}
         else Throw error, w')
    | (OutOfFuel, w') => (OutOfFuel, w')
    end.
Proof.
  unfold Transport.listTools. run.
  destruct (Transport.request env _ _ w) as [[result|error|] w']; try reflexivity.
  destruct (Transport.method_not_available (message error)); reflexivity.
Qed.

Lemma listResources_outcome env (server : option string) (w : World) :
  Transport.listResources env server w
  = match Transport.request env "resources/list" (Transport.with_server [] server) w with
    | (Return result, w') => (Return (ListResourcesResult.of_JSON result), w')
    | (Throw error, w') =>
        (if Transport.method_not_available (message error)
         then Return {| ListResourcesResult.resources := Some [] |}
         else Throw error, w')
    | (OutOfFuel, w') => (OutOfFuel, w')
    end.
Proof.
  unfold Transport.listResources. run.
  destruct (Transport.request env _ _ w) as [[result|error|] w']; try reflexivity.
  destruct (Transport.method_not_available (message error)); reflexivity.
Qed.

(** ** The message of a transport error carries no marker *)

Lemma occurs_append (c : ascii) (a b : string) :
  occurs c (a +:+ b) = occurs c a || occurs c b.
Proof.
  induction a as [|x a IH]; [reflexivity |].
  rewrite append_cons. simpl. now rewrite IH, orb_assoc.
Qed.

Lemma includes_occurs (c : ascii) (p s : string) :
  includes (String c p) s = true -> occurs c s = true.
Proof.
  induction s as [|b s IH]; simpl; [discriminate |].
  destruct (ascii_dec c b) as [->|].
  - rewrite Ascii.eqb_refl. reflexivity.
  - intros H. rewrite (IH H). apply orb_true_r.
Qed.

Lemma occurs_digits (c : ascii) (d : Decimal.uint) :
  occurs c (NilEmpty.string_of_uint d) = true -> Json.is_digit c = true.
Proof.
  induction d; simpl; try discriminate;
    intros [->%Ascii.eqb_eq|?]%orb_true_iff; auto.
Qed.

Lemma occurs_of_N (c : ascii) (n : N) :
  occurs c (JsString.of_N n) = true -> Json.is_digit c = true.
Proof.
  unfold JsString.of_N, NilZero.string_of_uint.
  destruct (N.to_uint n) as [|d|d|d|d|d|d|d|d|d|d].
  - simpl. intros [->%Ascii.eqb_eq|?]%orb_true_iff; [reflexivity | discriminate].
  - apply (occurs_digits c (Decimal.D0 d)).
  - apply (occurs_digits c (Decimal.D1 d)).
  - apply (occurs_digits c (Decimal.D2 d)).
  - apply (occurs_digits c (Decimal.D3 d)).
  - apply (occurs_digits c (Decimal.D4 d)).
  - apply (occurs_digits c (Decimal.D5 d)).
  - apply (occurs_digits c (Decimal.D6 d)).
  - apply (occurs_digits c (Decimal.D7 d)).
  - apply (occurs_digits c (Decimal.D8 d)).
  - apply (occurs_digits c (Decimal.D9 d)).
Qed.

(** No status makes the message of a transport error look like a
    method that is not available. *)
Lemma transport_message_unmarked (st : N) :
  Transport.method_not_available ("HTTP error! status: " +:+ JsString.of_N st) = false.
Proof.
  unfold Transport.method_not_available.
  assert (H : forall c p, Json.is_digit c = false ->
                          occurs c "HTTP error! status: " = false ->
                          includes (String c p) ("HTTP error! status: " +:+ JsString.of_N st)
                          = false).
  { intros c p Hd Ho. apply not_true_is_false. intros Hi%includes_occurs.
    rewrite occurs_append, Ho in Hi. simpl in Hi.
    apply occurs_of_N in Hi. congruence. }
  rewrite !H by reflexivity. reflexivity.
Qed.

Lemma request_transport_error env (method : string) (params : JSON) :
  throws_only transport_shaped (Transport.request env method params).
Proof.
  assert (Hother : forall s msg, s <> TransportError -> transport_shaped (newError s msg))
    by (intros s msg Hs Hsite; contradiction).
  unfold Transport.request.
  apply throws_only_bind; [intros w e w'; discriminate | intros id].
  apply throws_only_rethrow.
  apply throws_only_bind; [intros w e w'; discriminate | intros c].
  apply throws_only_bind.
  { intros w e w'. unfold Transport.do_fetch.
    apply throws_only_await. intros r Hs. discriminate. }
  intros response. destruct (negb (ok response)).
  { apply throws_only_throw. intros _. eauto. }
  apply throws_only_bind.
  { unfold Transport.parseSSEResponse.
    destruct (negb (Transport.isSSE response)).
    - apply throws_only_await. intros r Hs. discriminate.
    - apply throws_only_bind; [| intros; apply throws_only_ret].
      apply throws_only_await. intros r Hs. discriminate. }
  intros responseText. apply throws_only_bind.
  { repeat case_match; auto using throws_only_ret, throws_only_throw. }
  intros data. unfold Transport.read_envelope, Transport.read_result.
  repeat case_match; auto using throws_only_ret, throws_only_throw.
Qed.

(** ** Sequences of requests *)

Lemma requests_world env (calls : list (string * JSON)) (w : World) :
  snd (requests env calls w)
  = fold_left (fun w c => after_request (fst c) (snd c) w) calls w.
Proof.
  revert w. induction calls as [|[method params] calls IH]; intros w; [reflexivity |].
  cbn [requests fold_left fst snd].
  pose proof (request_world env method params w) as Hw.
  destruct (Transport.request env method params w) as [r w1]. simpl in Hw. subst w1.
  rewrite bind_world by auto with quiet. apply IH.
Qed.

Lemma ids_from_S (first : N) (n : nat) :
  ids_from first (S n) = (first + 1) :: ids_from (first + 1) n.
Proof.
  unfold ids_from. cbn [seq map]. f_equal.
  rewrite <- seq_shift, map_map. apply map_ext. intros k. lia.
Qed.

Lemma ids_from_lower (first : N) (n : nat) :
  Forall (fun x => first < x) (ids_from first n).
Proof.
  unfold ids_from. apply List.Forall_forall. intros x (k & <- & Hk%in_seq)%in_map_iff. lia.
Qed.

Lemma ids_from_sorted (first : N) (n : nat) : StronglySorted N.lt (ids_from first n).
Proof.
  revert first. induction n as [|n IH]; intros first; [constructor |].
  rewrite ids_from_S. constructor; [apply IH | apply ids_from_lower].
Qed.

Lemma sorted_lt_NoDup (l : list N) : StronglySorted N.lt l -> NoDup l.
Proof.
  induction 1 as [|x l _ IH Hx]; constructor; [| exact IH].
  intros Hin. rewrite Forall_forall in Hx. specialize (Hx _ Hin). lia.
Qed.

Lemma requests_log env (calls : list (string * JSON)) (w : World) :
  exists new,
    fetch_log (snd (requests env calls w)) = fetch_log w ++ new
    /\ map request_id new = ids_from (MCPClient.requestId (client w)) (length calls)
    /\ MCPClient.requestId (client (snd (requests env calls w)))
       = MCPClient.requestId (client w) + N.of_nat (length calls).
Proof.
  rewrite requests_world. revert w.
  induction calls as [|[method params] calls IH]; intros w.
  - exists []. cbn. rewrite app_nil_r. split; [reflexivity | split; [reflexivity | lia]].
  - cbn [fold_left fst snd length]. destruct (IH (after_request method params w))
      as (new & Hlog & Hids & Hcount).
    eexists (_ :: new). rewrite Hlog, Hcount, ids_from_S. cbn [after_request].
    cbn. rewrite <- app_assoc. split; [reflexivity |]. split.
    + cbn. f_equal. exact Hids.
    + lia.
Qed.

(** ** Operations that need no fuel *)

Lemma finishes_request env (method : string) (params : JSON) :
  finishes (Transport.request env method params).
Proof.
  unfold Transport.request, Transport.parseSSEResponse, Transport.read_envelope,
    Transport.read_result.
  finish; intros w; try discriminate.
  unfold Transport.do_fetch. apply finishes_await.
Qed.

#[local] Hint Resolve finishes_request : finishes.

Lemma finishes_callTool env (name : string) (arguments_ : JSON) (server : option string) :
  finishes (Transport.callTool env name arguments_ server).
Proof. unfold Transport.callTool. finish. Qed.

#[local] Hint Resolve finishes_callTool : finishes.

Lemma finishes_executeToolCall env (toolName : string) (arguments_ : JSON) :
  finishes (Orchestrator.executeToolCall env toolName arguments_).
Proof. unfold Orchestrator.executeToolCall. finish. Qed.

#[local] Hint Resolve finishes_executeToolCall : finishes.

(* ================================================================== *)
(** * Lemmas on the orchestrator                                        *)
(* ================================================================== *)

(** ** The array heap *)

Lemma lookup_fresh_cell (l : list (list ChatMessage.t)) (a : nat) :
  default [] ((l ++ [[]]) !! a) = default [] (l !! a).
Proof.
  destruct (decide (a < length l)%nat) as [Hlt|Hge].
  - now rewrite lookup_app_l.
  - rewrite (lookup_ge_None_2 l a) by lia.
    destruct (decide (a = length l)) as [->|Hne].
    + now rewrite list_lookup_middle.
    + rewrite lookup_ge_None_2; [reflexivity |]. rewrite length_app. simpl. lia.
Qed.

Lemma alter_last_cell {A} (f : A -> A) (l : list A) (x : A) :
  alter f (length l) (l ++ [x]) = l ++ [f x].
Proof. induction l as [|y l IH]; simpl; [reflexivity | f_equal; exact IH]. Qed.

Lemma lookup_last_cell {A} (l : list A) (x : A) : (l ++ [x]) !! length l = Some x.
Proof. now apply list_lookup_middle. Qed.

Lemma ask_model_eq env (messages : ArrayRef) (w : World) :
  Orchestrator.ask_model env messages w
  = (model_answer env messages w, after_ask env messages w).
Proof.
  unfold Orchestrator.ask_model, model_answer, after_ask, ask_params,
    with_system_context, history_of.
  unfold new_array, read_array, push, Orchestrator.mcpToolsToOpenAIFunctions,
    Orchestrator.getSystemContextMessage, Orchestrator.do_create.
  run. cbn [arrays set_arrays]. rewrite lookup_fresh_cell.
  destruct (Orchestrator.hasSystemMessage (default [] (arrays w !! messages))) eqn:Hs;
    cbn [negb arrays set_arrays set_dates_read dates_read service create_log set_create_log].
  all: rewrite ?alter_last_cell, ?lookup_last_cell; cbn [default].
  all: rewrite ?alter_last_cell, ?lookup_last_cell; cbn [default app].
  all: destruct (completions_create env _ _) as [r|[m|]]; reflexivity.
Qed.

(** ** Tool calls *)

Lemma transport_only_refl (w : World) : transport_only w w.
Proof. repeat split. Qed.

Lemma transport_only_trans (w1 w2 w3 : World) :
  transport_only w1 w2 -> transport_only w2 w3 -> transport_only w1 w3.
Proof. unfold transport_only. intros (?&?&?&?&?) (?&?&?&?&?). repeat split; congruence. Qed.

Lemma transport_only_request (method : string) (params : JSON) (w : World) :
  transport_only w (after_request method params w).
Proof. repeat split. Qed.

(** What the body of the loop does with the outcome of the call. *)
Lemma run_tool_call_function env acc (id name arguments : string) (w : World) :
  Orchestrator.run_tool_call env acc (OpenAI.ReplyFunction id name arguments) w
  = let toolArguments := default Json.empty_object (Json.parse arguments) in
    let call := ToolCall.mk id name toolArguments in
    match Orchestrator.executeToolCall env name toolArguments w with
    | (Return result, w') =>
        (Return (fst acc ++ [call], snd acc ++ [ToolCallResult.mk id result]), w')
    | (Throw error, w') =>
        (Return (fst acc ++ [call], snd acc ++ [error_result id error]), w')
    | (OutOfFuel, w') => (OutOfFuel, w')
    end.
Proof.
  unfold Orchestrator.run_tool_call. run. cbv zeta.
  replace (match Json.parse arguments with Some v => v | None => Json.empty_object end)
    with (default Json.empty_object (Json.parse arguments))
    by (destruct (Json.parse arguments); reflexivity).
  destruct (Orchestrator.executeToolCall env name _ w) as [[result|error|] w']; reflexivity.
Qed.

Lemma executeToolCall_world env (toolName : string) (arguments_ : JSON) (w : World) :
  transport_only w (snd (Orchestrator.executeToolCall env toolName arguments_ w)).
Proof.
  unfold Orchestrator.executeToolCall. run.
  destruct (AIService.mcpClient (service w)) as [[]|]; [| apply transport_only_refl].
  pose proof (callTool_world env toolName arguments_ None w) as Hw.
  destruct (Transport.callTool env toolName arguments_ None w) as [[r|e|] w'];
    simpl in *; subst w'; apply transport_only_request.
Qed.

Lemma extends_refl acc : extends acc acc.
Proof. exists [], []. rewrite !app_nil_r. now destruct acc. Qed.

Lemma extends_trans a b c : extends a b -> extends b c -> extends a c.
Proof.
  intros (c1 & r1 & ->) (c2 & r2 & ->). exists (c1 ++ c2), (r1 ++ r2).
  simpl. now rewrite !app_assoc.
Qed.

(** The body of the loop always returns: no failure of a tool leaves it. *)
Lemma run_tool_call_returns env acc (toolCall : OpenAI.ReplyToolCall) (w : World) :
  exists acc',
    fst (Orchestrator.run_tool_call env acc toolCall w) = Return acc'
    /\ extends acc acc' /\ (paired acc -> paired acc')
    /\ transport_only w (snd (Orchestrator.run_tool_call env acc toolCall w)).
Proof.
  destruct toolCall as [id name arguments|id].
  - rewrite run_tool_call_function. cbv zeta.
    pose proof (finishes_executeToolCall env name
                  (default Json.empty_object (Json.parse arguments)) w) as Hf.
    pose proof (executeToolCall_world env name
                  (default Json.empty_object (Json.parse arguments)) w) as Hw.
    destruct (Orchestrator.executeToolCall env name _ w) as [[result|error|] w'];
      [| | now elim Hf]; eexists; (split; [reflexivity |]);
      (split; [eexists _, _; reflexivity |]); (split; [| exact Hw]);
      unfold paired; simpl; rewrite !map_app; intros ->; reflexivity.
  - exists acc. split; [reflexivity |]. split; [apply extends_refl |].
    split; [auto | apply transport_only_refl].
Qed.

Lemma run_tool_calls_returns env (tool_calls : list OpenAI.ReplyToolCall) acc (w : World) :
  exists acc',
    fst (Orchestrator.run_tool_calls env acc tool_calls w) = Return acc'
    /\ extends acc acc' /\ (paired acc -> paired acc')
    /\ transport_only w (snd (Orchestrator.run_tool_calls env acc tool_calls w)).
Proof.
  revert acc w. induction tool_calls as [|toolCall rest IH]; intros acc w.
  - exists acc. split; [reflexivity |]. split; [apply extends_refl |].
    split; [auto | apply transport_only_refl].
  - cbn [Orchestrator.run_tool_calls]. unfold bind.
    destruct (run_tool_call_returns env acc toolCall w) as (acc1 & H1 & He1 & Hp1 & Hw1).
    destruct (Orchestrator.run_tool_call env acc toolCall w) as [r1 w1].
    simpl in H1, Hw1. subst r1.
    destruct (IH acc1 w1) as (acc2 & H2 & He2 & Hp2 & Hw2).
    exists acc2. split; [exact H2 |]. split; [eapply extends_trans; eauto |].
    split; [auto | eapply transport_only_trans; eauto].
Qed.

Lemma run_tool_calls_app env (l1 l2 : list OpenAI.ReplyToolCall) acc (w : World) :
  Orchestrator.run_tool_calls env acc (l1 ++ l2) w
  = bind (Orchestrator.run_tool_calls env acc l1)
         (fun acc' => Orchestrator.run_tool_calls env acc' l2) w.
Proof.
  revert acc w. induction l1 as [|c l1 IH]; intros acc w; [reflexivity |].
  cbn [app Orchestrator.run_tool_calls]. unfold bind.
  destruct (Orchestrator.run_tool_call env acc c w) as [[acc1|e|] w1]; try reflexivity.
  rewrite IH. reflexivity.
Qed.

(** ** One round of [chat] *)

Lemma chat_unfold env (fuel : nat) (messages : ArrayRef) (w : World) :
  Orchestrator.chat env (S fuel) messages w
  = match AIService.openai (service w) with
    | None => (Throw (newError NotInitialized "OpenAI client not initialized"), w)
    | Some _ =>
        match Orchestrator.ask_model env messages w with
        | (Return reply, w1) =>
            match Orchestrator.run_tool_calls env ([], [])
                    (default [] (OpenAI.reply_tool_calls reply)) w1 with
            | (Return calls, w2) =>
                if (0 <? length (fst calls))%nat
                then Orchestrator.chat env fuel (length (arrays w2))
                       (next_round w2 (history_of w2 messages) reply calls)
                else (Return (Orchestrator.final_message reply (fst calls) (snd calls)), w2)
            | (Throw e, w2) => (Throw e, w2)
            | (OutOfFuel, w2) => (OutOfFuel, w2)
            end
        | (Throw e, w1) => (Throw e, w1)
        | (OutOfFuel, w1) => (OutOfFuel, w1)
        end
    end.
Proof.
  cbn [Orchestrator.chat]. unfold bind at 1, gets at 1.
  destruct (AIService.openai (service w)); [| reflexivity].
  unfold bind at 1.
  destruct (Orchestrator.ask_model env messages w) as [[reply|e|] w1]; try reflexivity.
  unfold bind at 1.
  destruct (Orchestrator.run_tool_calls env _ _ w1) as [[calls|e|] w2]; try reflexivity.
  destruct (0 <? length (fst calls))%nat; reflexivity.
Qed.

Lemma paired_nil : paired ([], []).
Proof. reflexivity. Qed.

Lemma paired_length acc : paired acc -> length (snd acc) = length (fst acc).
Proof. unfold paired. intros H. apply (f_equal (@length _)) in H. now rewrite !length_map in H. Qed.

(** The message [chat] returns carries no tool call and no result. *)
Lemma chat_result env (fuel : nat) :
  forall (messages : ArrayRef) (w w' : World) (msg : ChatMessage.t),
    Orchestrator.chat env fuel messages w = (Return msg, w') ->
    ChatMessage.role msg = assistant
    /\ ChatMessage.toolCalls msg = None /\ ChatMessage.toolCallResults msg = None.
Proof.
  induction fuel as [|fuel IH]; intros messages w w' msg; [discriminate |].
  rewrite chat_unfold.
  destruct (AIService.openai (service w)); [| discriminate].
  destruct (Orchestrator.ask_model env messages w) as [[reply|e|] w1]; try discriminate.
  destruct (run_tool_calls_returns env (default [] (OpenAI.reply_tool_calls reply)) ([], []) w1)
    as (calls & Hr & _ & Hp & _).
  destruct (Orchestrator.run_tool_calls env _ _ w1) as [r w2]. simpl in Hr. subst r.
  specialize (Hp paired_nil). apply paired_length in Hp.
  destruct (0 <? length (fst calls))%nat eqn:Hn; [apply IH |].
  intros [= <- <-]. apply Nat.ltb_ge in Hn.
  unfold Orchestrator.final_message, Orchestrator.if_nonempty. cbn.
  replace (length (fst calls)) with 0%nat by lia.
  replace (length (snd calls)) with 0%nat by lia. auto.
Qed.

Lemma chat_throws env (fuel : nat) (messages : ArrayRef) :
  throws_only fatal_to_chat (Orchestrator.chat env fuel messages).
Proof.
  revert messages. induction fuel as [|fuel IH]; intros messages w e w'; [discriminate |].
  rewrite chat_unfold.
  destruct (AIService.openai (service w)); [| intros [= <- _]; now right].
  rewrite ask_model_eq. unfold model_answer.
  destruct (completions_create env _ _) as [r|[reply|]];
    [intros [= <- _]; now left | | intros [= <- _]; now left].
  destruct (run_tool_calls_returns env (default [] (OpenAI.reply_tool_calls reply)) ([], [])
              (after_ask env messages w)) as (calls & Hr & _).
  destruct (Orchestrator.run_tool_calls env _ _ _) as [r w2]. simpl in Hr. subst r.
  destruct (0 <? length (fst calls))%nat; [apply IH | discriminate].
Qed.

(** The outcome of [chat] does not depend on the fuel it is given, once
    there is enough of it. *)
Lemma chat_more_fuel env (fuel : nat) :
  forall (messages : ArrayRef) (w : World),
    fst (Orchestrator.chat env fuel messages w) <> OutOfFuel ->
    Orchestrator.chat env (S fuel) messages w = Orchestrator.chat env fuel messages w.
Proof.
  induction fuel as [|fuel IH]; intros messages w; [intros H; now elim H |].
  rewrite (chat_unfold env (S fuel)), (chat_unfold env fuel).
  destruct (AIService.openai (service w)); [| reflexivity].
  destruct (Orchestrator.ask_model env messages w) as [[reply|e|] w1]; try reflexivity.
  destruct (Orchestrator.run_tool_calls env _ _ w1) as [[calls|e|] w2]; try reflexivity.
  destruct (0 <? length (fst calls))%nat; [apply IH | reflexivity].
Qed.

(** ** What a tool throws *)

Ltac thrower :=
  repeat first
    [ lazymatch goal with
      | |- forall _, _ => intro
      | |- throws_only _ (bind _ _) => apply throws_only_bind
      | |- throws_only _ (try_catch _ (fun error => throw error)) => apply throws_only_rethrow
      | |- throws_only _ (let _ := _ in _) => cbv zeta
      | |- throws_only _ (ret _) => apply throws_only_ret
      | |- throws_only _ (throw _) => apply throws_only_throw
      | |- throws_only _ (await _ _) => apply throws_only_await
      | |- throws_only _ (gets _) => intros ? ? ?; discriminate
      | |- throws_only _ (match _ with _ => _ end) => case_match
      end ].

Lemma request_throws env (method : string) (params : JSON) :
  throws_only (fun e => transport_site (site e) = true) (Transport.request env method params).
Proof.
  unfold Transport.request, Transport.parseSSEResponse, Transport.read_envelope,
    Transport.read_result.
  thrower; try reflexivity.
  - intros w e w'. discriminate.
  - unfold Transport.do_fetch. intros w. apply throws_only_await. reflexivity.
Qed.

Lemma executeToolCall_throws env (toolName : string) (arguments_ : JSON) :
  throws_only thrown_by_tool (Orchestrator.executeToolCall env toolName arguments_).
Proof.
  unfold Orchestrator.executeToolCall, Transport.callTool.
  thrower; [| now right].
  intros w e w' Hreq. left. exact (request_throws env _ _ w e w' Hreq).
Qed.

(** Nothing a tool throws is among what [chat] throws. *)
Lemma thrown_by_tool_not_fatal (e : Thrown) : thrown_by_tool e -> ~ fatal_to_chat e.
Proof.
  intros [Ht| ->] [Hf|Hf].
  - rewrite Hf in Ht. discriminate.
  - subst e. discriminate.
  - discriminate.
  - discriminate.
Qed.

(** ** The effect of [chat] on the world *)

Lemma paired_in_order_references (msg : ChatMessage.t) :
  paired_in_order msg -> results_reference_calls msg.
Proof.
  unfold paired_in_order, results_reference_calls.
  generalize (default [] (ChatMessage.toolCallResults msg)) as results.
  generalize (default [] (ChatMessage.toolCalls msg)) as calls.
  intros calls results H r Hr.
  assert (Hin : In (ToolCallResult.toolCallId r) (map ToolCall.id calls))
    by (rewrite <- H; now apply in_map).
  apply in_map_iff in Hin as (c & Hc & Hin). eauto.
Qed.

Lemma well_paired_system (now : Moment) : well_paired (Orchestrator.system_message now).
Proof. split; [reflexivity | intros r []]. Qed.

Lemma well_paired_round (reply : OpenAI.ReplyMessage) acc :
  paired acc ->
  well_paired (Orchestrator.assistantMsgWithToolCalls reply (fst acc) (snd acc)).
Proof. intros H. split; [exact H | apply paired_in_order_references; exact H]. Qed.

Lemma history_given (w : World) (a : ArrayRef) (msg : ChatMessage.t) :
  In msg (history_of w a) -> In msg (List.concat (arrays w)).
Proof.
  unfold history_of. destruct (arrays w !! a) as [h|] eqn:E; [| intros []].
  intros Hin. apply in_concat. exists h. split; [| exact Hin].
  apply list_elem_of_In. now apply list_elem_of_lookup_2 in E.
Qed.

Lemma with_system_context_given env (w : World) (a : ArrayRef) :
  Forall (given_or_paired w) (with_system_context env w (history_of w a)).
Proof.
  assert (H : Forall (given_or_paired w) (history_of w a)).
  { apply List.Forall_forall. intros m Hm. left. now apply history_given in Hm. }
  unfold with_system_context. destruct (Orchestrator.hasSystemMessage _); [exact H |].
  constructor; [right; apply well_paired_system | exact H].
Qed.

Lemma ask_params_tools env (messages : ArrayRef) (w : World) :
  tools_field_ok (AIService.tools (service w)) (ask_params env messages w).
Proof.
  unfold ask_params, Orchestrator.create_params, tools_field_ok. cbn.
  destruct (AIService.tools (service w)); cbn; auto.
Qed.

Lemma given_or_paired_mono (w w' : World) (msg : ChatMessage.t) :
  (forall m, In m (List.concat (arrays w')) -> given_or_paired w m) ->
  given_or_paired w' msg -> given_or_paired w msg.
Proof. intros H [Hin|Hp]; [now apply H | now right]. Qed.

Lemma chat_effect env (fuel : nat) :
  forall (messages : ArrayRef) (w : World),
    let w' := snd (Orchestrator.chat env fuel messages w) in
    service w' = service w /\ store w' = store w
    /\ (exists more, arrays w' = arrays w ++ more
                     /\ Forall (Forall (given_or_paired w)) more)
    /\ (exists new, create_log w' = create_log w ++ new
                    /\ Forall (tools_field_ok (AIService.tools (service w))) new).
Proof.
  assert (Hnone : forall w : World,
             service w = service w /\ store w = store w
             /\ (exists more, arrays w = arrays w ++ more
                              /\ Forall (Forall (given_or_paired w)) more)
             /\ (exists new, create_log w = create_log w ++ new
                             /\ Forall (tools_field_ok (AIService.tools (service w))) new)).
  { intros w. repeat split; exists []; rewrite app_nil_r; auto. }
  assert (Hask : forall messages (w : World),
             service (after_ask env messages w) = service w
             /\ store (after_ask env messages w) = store w
             /\ (exists more, arrays (after_ask env messages w) = arrays w ++ more
                              /\ Forall (Forall (given_or_paired w)) more)
             /\ (exists new, create_log (after_ask env messages w) = create_log w ++ new
                             /\ Forall (tools_field_ok (AIService.tools (service w))) new)).
  { intros messages w. split; [reflexivity |]. split; [reflexivity |]. split.
    - eexists. split; [reflexivity |]. constructor; [| constructor].
      apply with_system_context_given.
    - eexists. split; [reflexivity |]. constructor; [| constructor].
      apply ask_params_tools. }
  induction fuel as [|fuel IH]; intros messages w; [apply Hnone |].
  cbv zeta. rewrite chat_unfold.
  destruct (AIService.openai (service w)); [| apply Hnone].
  rewrite ask_model_eq.
  destruct (model_answer env messages w) as [reply|e|]; [| apply Hask..].
  destruct (run_tool_calls_returns env (default [] (OpenAI.reply_tool_calls reply)) ([], [])
              (after_ask env messages w)) as (calls & Hr & _ & Hp & Hs & Hst & Ha & Hc & Hd).
  destruct (Orchestrator.run_tool_calls env _ _ _) as [r w2].
  cbn [fst snd] in Hr, Hs, Hst, Ha, Hc, Hd. subst r. specialize (Hp paired_nil).
  destruct (Hask messages w) as (Hs1 & Hst1 & (more1 & Ha1 & Hm1) & (new1 & Hc1 & Hn1)).
  destruct (0 <? length (fst calls))%nat.
  - specialize (IH (length (arrays w2)) (next_round w2 (history_of w2 messages) reply calls)).
    cbv zeta in IH.
    destruct IH as (Hs3 & Hst3 & (more3 & Ha3 & Hm3) & (new3 & Hc3 & Hn3)).
    cbn [next_round service store arrays create_log set_arrays] in Hs3, Hst3, Ha3, Hc3, Hn3.
    assert (Hgiven : forall m,
               In m (List.concat (arrays (next_round w2 (history_of w2 messages) reply calls))) ->
               given_or_paired w m).
    { intros m. cbn [next_round arrays set_arrays]. rewrite concat_app, in_app_iff.
      cbn [List.concat]. rewrite app_nil_r, in_app_iff.
      assert (Hw2 : In m (List.concat (arrays w2)) -> given_or_paired w m).
      { rewrite Ha, Ha1, concat_app, in_app_iff. intros [Hin|Hin]; [now left |].
        apply in_concat in Hin as (h & Hh & Hin).
        rewrite List.Forall_forall in Hm1. specialize (Hm1 h Hh).
        rewrite List.Forall_forall in Hm1. now apply Hm1. }
      intros [Hin|[Hin|[<-|[]]]]; [now apply Hw2 | | right; now apply well_paired_round].
      apply Hw2. now apply history_given in Hin. }
    split; [congruence |]. split; [congruence |]. split.
    + exists (more1 ++ [history_of w2 messages
                          ++ [Orchestrator.assistantMsgWithToolCalls reply (fst calls) (snd calls)]]
                    ++ more3).
      split; [rewrite Ha3, Ha, Ha1, <- !app_assoc; reflexivity |].
      apply Forall_app. split; [exact Hm1 |]. apply Forall_app. split.
      * constructor; [| constructor]. apply List.Forall_forall. intros m Hm.
        apply Hgiven. cbn [next_round arrays set_arrays]. rewrite concat_app, in_app_iff.
        right. cbn [List.concat]. now rewrite app_nil_r.
      * eapply Forall_impl; [exact Hm3 |]. intros h Hh.
        eapply Forall_impl; [exact Hh |]. intros m Hm.
        eapply given_or_paired_mono; [exact Hgiven | exact Hm].
    + exists (new1 ++ new3). split; [rewrite Hc3, Hc, Hc1, <- app_assoc; reflexivity |].
      apply Forall_app. split; [exact Hn1 |]. rewrite Hs, Hs1 in Hn3. exact Hn3.
  - cbn [snd]. split; [congruence |]. split; [congruence |]. split.
    + exists more1. split; [congruence | exact Hm1].
    + exists new1. split; [congruence | exact Hn1].
Qed.

Lemma ask_model_arrays env (messages : ArrayRef) (w w1 : World) r :
  Orchestrator.ask_model env messages w = (r, w1) ->
  arrays w1 = arrays w ++ [with_system_context env w (history_of w messages)].
Proof. rewrite ask_model_eq. intros [= _ <-]. reflexivity. Qed.

Lemma history_of_prefix (w w' : World) (more : list (list ChatMessage.t)) (a : ArrayRef) :
  (a < length (arrays w))%nat -> arrays w' = arrays w ++ more ->
  history_of w' a = history_of w a.
Proof. intros Ha Hw. unfold history_of. now rewrite Hw, lookup_app_l. Qed.

(** A round that called tools recurses on the history followed by the
    message of the round. *)
Lemma chat_round env (fuel : nat) (messages : ArrayRef) (w w1 w2 : World)
      (reply : OpenAI.ReplyMessage) calls :
  AIService.openai (service w) <> None ->
  (messages < length (arrays w))%nat ->
  Orchestrator.ask_model env messages w = (Return reply, w1) ->
  Orchestrator.run_tool_calls env ([], []) (default [] (OpenAI.reply_tool_calls reply)) w1
  = (Return calls, w2) ->
  fst calls <> [] ->
  Orchestrator.chat env (S fuel) messages w
  = Orchestrator.chat env fuel (length (arrays w2))
      (next_round w2 (history_of w messages) reply calls).
Proof.
  intros Ho Hv Hask Hrun Hne. rewrite chat_unfold.
  destruct (AIService.openai (service w)); [| contradiction].
  rewrite Hask, Hrun.
  destruct (fst calls) eqn:Hc; [contradiction |]. cbn [length Nat.ltb Nat.leb].
  destruct (run_tool_calls_returns env (default [] (OpenAI.reply_tool_calls reply)) ([], []) w1)
    as (_ & _ & _ & _ & _ & _ & Ha & _).
  rewrite Hrun in Ha. cbn [snd] in Ha.
  rewrite (history_of_prefix w w2 [with_system_context env w (history_of w messages)]);
    [reflexivity | exact Hv |].
  rewrite Ha. eapply ask_model_arrays. exact Hask.
Qed.

(** A round without a tool call returns the text of the model. *)
Lemma chat_answer env (fuel : nat) (messages : ArrayRef) (w w1 : World)
      (reply : OpenAI.ReplyMessage) :
  AIService.openai (service w) <> None ->
  Orchestrator.ask_model env messages w = (Return reply, w1) ->
  default [] (OpenAI.reply_tool_calls reply) = [] ->
  Orchestrator.chat env (S fuel) messages w
  = (Return (Orchestrator.final_message reply [] []), w1).
Proof.
  intros Ho Hask Hnone. rewrite chat_unfold.
  destruct (AIService.openai (service w)); [| contradiction].
  rewrite Hask, Hnone. reflexivity.
Qed.

Lemma hasSystemMessage_snoc (history : list ChatMessage.t) (reply : OpenAI.ReplyMessage)
      calls results :
  Orchestrator.hasSystemMessage
    (history ++ [Orchestrator.assistantMsgWithToolCalls reply calls results])
  = Orchestrator.hasSystemMessage history.
Proof. destruct history; reflexivity. Qed.

(** The first completion call of [chat]. *)
Lemma chat_first_request env (fuel : nat) (messages : ArrayRef) (w : World) :
  AIService.openai (service w) <> None ->
  exists rest,
    create_log (snd (Orchestrator.chat env (S fuel) messages w))
    = create_log w ++ ask_params env messages w :: rest.
Proof.
  intros Ho. rewrite chat_unfold.
  destruct (AIService.openai (service w)); [| contradiction].
  rewrite ask_model_eq.
  destruct (model_answer env messages w) as [reply|e|];
    [| exists []; reflexivity | exists []; reflexivity].
  destruct (run_tool_calls_returns env (default [] (OpenAI.reply_tool_calls reply)) ([], [])
              (after_ask env messages w)) as (calls & Hr & _ & _ & _ & _ & _ & Hc & _).
  destruct (Orchestrator.run_tool_calls env _ _ _) as [r w2].
  cbn [fst snd] in Hr, Hc. subst r.
  destruct (0 <? length (fst calls))%nat.
  - destruct (chat_effect env fuel (length (arrays w2))
                (next_round w2 (history_of w2 messages) reply calls))
      as (_ & _ & _ & (new & Hn & _)).
    exists new. rewrite Hn. cbn [next_round create_log set_arrays]. rewrite Hc.
    cbn [after_ask create_log set_create_log]. now rewrite <- app_assoc.
  - exists []. cbn [snd]. rewrite Hc. reflexivity.
Qed.

Lemma default_if_nonempty {A} (l : list A) : default [] (Orchestrator.if_nonempty l) = l.
Proof. destruct l; reflexivity. Qed.

Lemma drop_log {A} (l new : list A) : drop (length l) (l ++ new) = new.
Proof. now rewrite drop_app_length. Qed.

(** ** The session store *)

Lemma listTools_frame env (server : option string) (w : World) :
  transport_only w (snd (Transport.listTools env server w)).
Proof. rewrite listTools_world. apply transport_only_request. Qed.

(* ================================================================== *)
(** * Properties of the transport client                                *)
(* ================================================================== *)

(** C1, as amended.  When the request of [listTools] (symmetrically, of
    [listResources]) fails, the operation returns the empty result
    exactly when the message of the error contains one of the markers
    ["not available"], ["Method"] or ["-32601"], whatever the kind of the
    error, and throws the same error otherwise; the message of a
    transport error contains no marker, so that it always propagates. *)
Theorem listing_degrades_exactly_on_marked_message
        env (server : option string) (w w' : World) (error : Thrown) :
  (Transport.request env "tools/list" (Transport.with_server [] server) w = (Throw error, w') ->
   Transport.listTools env server w
   = (if Transport.method_not_available (message error)
      then Return {| ListToolsResult.tools := Some [] |}
      else Throw error, w'))
  /\ (Transport.request env "resources/list" (Transport.with_server [] server) w
      = (Throw error, w') ->
      Transport.listResources env server w
      = (if Transport.method_not_available (message error)
         then Return {| ListResourcesResult.resources := Some [] |}
         else Throw error, w'))
  /\ (forall method params,
         Transport.request env method params w = (Throw error, w') ->
         site error = TransportError ->
         Transport.method_not_available (message error) = false).
Proof.
  split; [| split].
  - intros H. rewrite listTools_outcome, H. reflexivity.
  - intros H. rewrite listResources_outcome, H. reflexivity.
  - intros method params H Hs.
    destruct (request_transport_error env method params w error w' H Hs) as [st ->].
    apply transport_message_unmarked.
Qed.

(** An internal error of the server is thrown by [listTools] as it is. *)
Lemma listing_degrades_witness :
  Transport.request Scenario.internal_error "tools/list" (Transport.with_server [] None)
                    Scenario.fresh
  = (Throw (newError ProtocolError "Internal error"),
     after_request "tools/list" (JObj []) Scenario.fresh)
  /\ Transport.listTools Scenario.internal_error None Scenario.fresh
     = (Throw (newError ProtocolError "Internal error"),
        after_request "tools/list" (JObj []) Scenario.fresh).
Proof.
  assert (H : Transport.request Scenario.internal_error "tools/list"
                                (Transport.with_server [] None) Scenario.fresh
              = (Throw (newError ProtocolError "Internal error"),
                 after_request "tools/list" (JObj []) Scenario.fresh))
    by (vm_compute; reflexivity).
  split; [exact H |].
  exact (proj1 (listing_degrades_exactly_on_marked_message
                  Scenario.internal_error None Scenario.fresh _ _) H).
Defined.

(** C1, as stated, fails: a body that is not JSON makes the request fail
    with a parse error, not a protocol error, and [listTools] returns the
    empty list all the same, because the excerpt of the body in the
    message contains ["Method"]. *)
Lemma listTools_swallows_a_parse_error :
  Transport.request Scenario.html_gateway "tools/list" (Transport.with_server [] None)
                    Scenario.fresh
  = (Throw (newError ParseError "Failed to parse response as JSON: Method Not Allowed"),
     after_request "tools/list" (JObj []) Scenario.fresh)
  /\ ParseError <> ProtocolError
  /\ Transport.listTools Scenario.html_gateway None Scenario.fresh
     = (Return {| ListToolsResult.tools := Some [] |},
        after_request "tools/list" (JObj []) Scenario.fresh).
Proof.
  split; [vm_compute; reflexivity |]. split; [discriminate | vm_compute; reflexivity].
Qed.

(** A server without the method: the list is empty. *)
Example listTools_method_not_found :
  fst (Transport.listTools Scenario.method_not_found None Scenario.fresh)
  = Return {| ListToolsResult.tools := Some [] |}.
Proof. vm_compute. reflexivity. Qed.

(** C3, as amended.  For a response whose content type contains
    [text/event-stream] or [text/plain] and whose body is made of blank
    lines, comment lines, [event: ], [id:] and [retry:] lines and
    [data: ] lines whose contents are not all empty, [parseSSEResponse]
    returns the contents of the [data: ] lines, prefix stripped, in
    order: the string that [request] parses as JSON. *)
Theorem sse_decode_concatenates_data (response : Response) (body : string) (w : World) :
  Transport.isSSE response = true ->
  text response = inr body ->
  Forall (fun line => Sse.is_field_line line = true) (split_lines body) ->
  JsString.truthy (Sse.data_concat body) = true ->
  Transport.parseSSEResponse response w = (Return (Sse.data_concat body), w).
Proof.
  intros Hsse Htext Hlines Hdata.
  unfold Transport.parseSSEResponse. rewrite Hsse, Htext. cbn [negb].
  unfold await, bind, ret, Transport.sse_decode. cbv zeta.
  rewrite (sse_fold_field _ _ Hlines).
  change (EmptyString +:+ ?s) with s. fold (Sse.data_concat body).
  now rewrite Hdata.
Qed.

(** The body of the specification: two [data: ] lines give [{"a":1}]. *)
Lemma sse_decode_witness :
  Transport.isSSE (Scenario.sse_response Scenario.sse_body) = true
  /\ Forall (fun line => Sse.is_field_line line = true) (split_lines Scenario.sse_body)
  /\ Sse.data_concat Scenario.sse_body = Scenario.dq "{'a':1}"
  /\ Transport.parseSSEResponse (Scenario.sse_response Scenario.sse_body) Scenario.fresh
     = (Return (Scenario.dq "{'a':1}"), Scenario.fresh).
Proof.
  assert (Hl : Forall (fun line => Sse.is_field_line line = true)
                      (split_lines Scenario.sse_body))
    by (vm_compute; repeat constructor).
  split; [reflexivity |]. split; [exact Hl |]. split; [reflexivity |].
  exact (sse_decode_concatenates_data (Scenario.sse_response Scenario.sse_body)
           Scenario.sse_body Scenario.fresh eq_refl eq_refl Hl eq_refl).
Defined.

(** C3, as stated, fails: a line that is not a field line is kept, and a
    body without data is returned whole. *)
Lemma sse_decode_keeps_other_lines :
  Transport.parseSSEResponse (mkResponse 200 (Some "text/plain") (inr "hello")) Scenario.fresh
  = (Return "hello", Scenario.fresh)
  /\ Sse.data_concat "hello" = EmptyString
  /\ Transport.sse_decode ("data: [1," +:+ Scenario.nl +:+ "2]") = "[1,2]"
  /\ Sse.data_concat ("data: [1," +:+ Scenario.nl +:+ "2]") = "[1,".
Proof. repeat split. Qed.

(** The string of the example is parsed as the object it denotes. *)
Example sse_example_parsed :
  Json.parse (Sse.data_concat Scenario.sse_body) = Some (JObj [("a", JNum "1")]).
Proof. reflexivity. Qed.

(** C4.  For every sequence of requests on a client, whatever the
    environment answers: the ids of the requests are the successors of
    the counter, in order, so they are strictly increasing and without
    repetition; each request moves the counter by one, whether it
    returns or throws; and the counter of a new client is 0, so the
    first id is 1. *)
Theorem request_ids_strictly_increase env (calls : list (string * JSON)) (w : World) :
  let w' := snd (requests env calls w) in
  let ids := map request_id (fetched_since w w') in
  ids = ids_from (MCPClient.requestId (client w)) (length calls)
  /\ StronglySorted N.lt ids
  /\ NoDup ids
  /\ MCPClient.requestId (client w')
     = MCPClient.requestId (client w) + N.of_nat (length calls)
  /\ (forall method params,
         MCPClient.requestId (client (snd (Transport.request env method params w)))
         = MCPClient.requestId (client w) + 1)
  /\ (forall serverUrl apiKey, MCPClient.requestId (MCPClient.new serverUrl apiKey) = 0)
  /\ ids_from 0 (length calls) = map N.of_nat (seq 1 (length calls)).
Proof.
  cbv zeta. destruct (requests_log env calls w) as (new & Hlog & Hids & Hcount).
  unfold fetched_since. rewrite Hlog, drop_log, Hids.
  split; [reflexivity |]. split; [apply ids_from_sorted |].
  split; [apply sorted_lt_NoDup, ids_from_sorted |]. split; [exact Hcount |].
  split; [intros method params; now rewrite request_world |].
  split; [reflexivity |]. unfold ids_from. apply map_ext. intros k. lia.
Qed.

(** Three requests on a new client, of which the server fails each. *)
Example three_failed_requests :
  map request_id
      (fetch_log (snd (requests Scenario.failing_tool
                                [("initialize", JObj []); ("tools/list", JObj []);
                                 ("tools/call", JObj [])]
                                Scenario.fresh)))
  = [1; 2; 3].
Proof. vm_compute. reflexivity. Qed.

(* ================================================================== *)
(** * Properties of the orchestrator                                    *)
(* ================================================================== *)

(** C6.  For a function invocation of a reply whose argument string
    is not valid JSON, on a service that has its MCP client: the body of
    the loop does not fail; it records the call with the empty object
    for arguments and runs [callTool] with the name of the tool and the
    empty object, whose outcome, result or error, it records under the
    id of the call; the request sent carries the name and the empty
    object. *)
Theorem malformed_arguments_become_empty
        env acc (id name arguments : string) (w : World) :
  Json.parse arguments = None ->
  AIService.mcpClient (service w) = Some the_client ->
  let executed := Transport.callTool env name Json.empty_object None w in
  (exists r,
      recorded id (fst executed) = Some r
      /\ Orchestrator.run_tool_call env acc (OpenAI.ReplyFunction id name arguments) w
         = (Return (fst acc ++ [ToolCall.mk id name Json.empty_object], snd acc ++ [r]),
            snd executed))
  /\ fetched_since w (snd executed)
     = [{| url := MCPClient.serverUrl (client w);
           http_method := "POST";
           headers := Transport.request_headers (client w);
           body := MCPRequest.mk "2.0" (MCPClient.requestId (client w) + 1) "tools/call"
                     (JObj [("name", JStr name); ("arguments", Json.empty_object)]) |}].
Proof.
  intros Hparse Hclient. cbv zeta. split.
  - rewrite run_tool_call_function. cbv zeta. rewrite Hparse. cbn [default].
    unfold Orchestrator.executeToolCall. unfold bind at 1, gets at 1. rewrite Hclient.
    rewrite try_catch_rethrow.
    pose proof (finishes_callTool env name Json.empty_object None w) as Hf.
    destruct (Transport.callTool env name Json.empty_object None w) as [[result|error|] w'];
      [eexists; split; reflexivity | eexists; split; reflexivity | now elim Hf].
  - rewrite callTool_world. unfold fetched_since, after_request.
    cbn [fetch_log set_fetch_log Transport.with_server]. rewrite drop_log. reflexivity.
Qed.

(** Arguments cut short: the call is recorded with [{}] and sent. *)
Lemma malformed_arguments_witness :
  Json.parse "{resourceId" = None
  /\ AIService.mcpClient (service Scenario.fresh) = Some the_client
  /\ Orchestrator.run_tool_call Scenario.failing_tool ([], [])
       (OpenAI.ReplyFunction "call_1" "getResourceSchedule" "{resourceId") Scenario.fresh
     = (Return ([ToolCall.mk "call_1" "getResourceSchedule" (JObj [])],
                [ToolCallResult.mk "call_1"
                   (JObj [("error", JStr "HTTP error! status: 500")])]),
        after_request "tools/call"
          (JObj [("name", JStr "getResourceSchedule"); ("arguments", JObj [])])
          Scenario.fresh).
Proof.
  split; [reflexivity |]. split; [reflexivity |].
  destruct (proj1 (malformed_arguments_become_empty Scenario.failing_tool ([], [])
                     "call_1" "getResourceSchedule" "{resourceId" Scenario.fresh
                     eq_refl eq_refl)) as (r & Hr & Hrun).
  injection Hr as <-. exact Hrun.
Defined.

(** C7.  Every completion call that [chat] makes, in any round,
    carries neither [tools] nor [tool_choice] when the tool list of the
    service is empty, and carries the function schemas of the tools with
    the choice ["auto"] when it is not; and [chat] makes such a call as
    soon as its client is initialized. *)
Theorem tools_are_sent_only_when_known env (fuel : nat) (messages : ArrayRef) (w : World) :
  let known := AIService.tools (service w) in
  Forall (fun p =>
            match known with
            | [] => OpenAI.tools p = None /\ OpenAI.tool_choice p = None
            | _ :: _ =>
                OpenAI.tools p = Some (map Orchestrator.function_of_tool known)
                /\ OpenAI.tool_choice p = Some "auto"
            end)
         (created_since w (snd (Orchestrator.chat env fuel messages w)))
  /\ match AIService.openai (service w) with
     | Some _ =>
         exists first rest,
           created_since w (snd (Orchestrator.chat env (S fuel) messages w)) = first :: rest
     | None => True
     end.
Proof.
  cbv zeta. split.
  - destruct (chat_effect env fuel messages w) as (_ & _ & _ & (new & Hlog & Hnew)).
    unfold created_since. rewrite Hlog, drop_log. exact Hnew.
  - destruct (AIService.openai (service w)) eqn:Ho; [| exact I].
    destruct (chat_first_request env fuel messages w) as [rest Hlog]; [congruence |].
    eexists _, rest. unfold created_since. rewrite Hlog, drop_log. reflexivity.
Qed.

(** No tool is registered: the call has no [tools] and no [tool_choice]. *)
Example no_tools_no_tool_fields :
  created_since Scenario.asked
                (snd (Orchestrator.chat Scenario.method_not_found 1 0 Scenario.asked))
  = [Orchestrator.create_params
       [OpenAI.Plain system (Orchestrator.system_context Scenario.noon);
        OpenAI.Plain user "What is the schedule of X?"] []]
  /\ OpenAI.tools (Orchestrator.create_params [] []) = None
  /\ OpenAI.tool_choice (Orchestrator.create_params [] []) = None.
Proof. repeat split. Qed.

(** One tool is registered: its schema is sent, with the choice [auto]. *)
Example one_tool_is_sent :
  map (fun p => (OpenAI.tools p, OpenAI.tool_choice p))
      (created_since Scenario.with_one_tool
         (snd (Orchestrator.chat Scenario.method_not_found 1 0
                 (set_arrays (arrays Scenario.asked) Scenario.with_one_tool))))
  = [(Some [OpenAI.mkTool "getResourceSchedule" "Schedule of a resource"
                          (JObj [("type", JStr "object")])],
      Some "auto")].
Proof. vm_compute. reflexivity. Qed.

(** C8.  The two messages [chat] makes of the outcome of the loop over
    the calls of a reply, the one it recurses on and the one it returns,
    have as many results as calls, with the same ids in the same order,
    so that every [toolCallId] is the [id] of one of the calls; after a
    call of [chat] every message of the heap was there before the call
    or is so paired, and so is the message returned. *)
Theorem results_are_paired_with_calls
        env (fuel : nat) (messages : ArrayRef) (w w1 w2 : World)
        (reply : OpenAI.ReplyMessage) calls :
  Orchestrator.run_tool_calls env ([], []) (default [] (OpenAI.reply_tool_calls reply)) w1
  = (Return calls, w2) ->
  (let made := Orchestrator.assistantMsgWithToolCalls reply (fst calls) (snd calls) in
   paired_in_order made /\ results_reference_calls made)
  /\ (let made := Orchestrator.final_message reply (fst calls) (snd calls) in
      paired_in_order made /\ results_reference_calls made)
  /\ Forall (Forall (fun msg => In msg (List.concat (arrays w))
                                \/ (paired_in_order msg /\ results_reference_calls msg)))
            (arrays (snd (Orchestrator.chat env fuel messages w)))
  /\ match fst (Orchestrator.chat env fuel messages w) with
     | Return msg => paired_in_order msg /\ results_reference_calls msg
     | _ => True
     end.
Proof.
  intros Hrun.
  destruct (run_tool_calls_returns env (default [] (OpenAI.reply_tool_calls reply)) ([], []) w1)
    as (calls' & Hr & _ & Hp & _).
  rewrite Hrun in Hr. injection Hr as <-. specialize (Hp paired_nil).
  split; [apply well_paired_round, Hp |]. split.
  { assert (H : paired_in_order (Orchestrator.final_message reply (fst calls) (snd calls))).
    { unfold paired_in_order, Orchestrator.final_message.
      cbn [ChatMessage.toolCalls ChatMessage.toolCallResults].
      rewrite !default_if_nonempty. exact Hp. }
    split; [exact H | now apply paired_in_order_references]. }
  split.
  - destruct (chat_effect env fuel messages w) as (_ & _ & (more & Hmore & Hm) & _).
    rewrite Hmore. apply Forall_app. split; [| exact Hm].
    apply List.Forall_forall. intros h Hh. apply List.Forall_forall. intros m Hm'.
    left. apply in_concat. eauto.
  - destruct (Orchestrator.chat env fuel messages w) as [[msg|e|] w'] eqn:Hchat; try exact I.
    cbn [fst]. destruct (chat_result env fuel messages w w' msg Hchat) as (_ & Hc & Hres).
    assert (H : paired_in_order msg) by (unfold paired_in_order; now rewrite Hc, Hres).
    split; [exact H | now apply paired_in_order_references].
Qed.

(** The round of the scenario: one call, one result, under the same id. *)
Lemma results_are_paired_witness :
  let env := Scenario.failing_tool in
  let reply :=
    OpenAI.mkReply None
      (Some [OpenAI.ReplyFunction "call_1" "getResourceSchedule" "{resourceId"]) in
  let calls :=
    ([ToolCall.mk "call_1" "getResourceSchedule" (JObj [])],
     [ToolCallResult.mk "call_1" (JObj [("error", JStr "HTTP error! status: 500")])]) in
  Orchestrator.run_tool_calls env ([], []) (default [] (OpenAI.reply_tool_calls reply))
                              Scenario.asked
  = (Return calls,
     after_request "tools/call"
       (JObj [("name", JStr "getResourceSchedule"); ("arguments", JObj [])]) Scenario.asked)
  /\ paired_in_order (Orchestrator.assistantMsgWithToolCalls reply (fst calls) (snd calls))
  /\ results_reference_calls
       (Orchestrator.assistantMsgWithToolCalls reply (fst calls) (snd calls)).
Proof.
  cbv zeta.
  assert (H : Orchestrator.run_tool_calls Scenario.failing_tool ([], [])
                [OpenAI.ReplyFunction "call_1" "getResourceSchedule" "{resourceId"]
                Scenario.asked
              = (Return ([ToolCall.mk "call_1" "getResourceSchedule" (JObj [])],
                         [ToolCallResult.mk "call_1"
                            (JObj [("error", JStr "HTTP error! status: 500")])]),
                 after_request "tools/call"
                   (JObj [("name", JStr "getResourceSchedule"); ("arguments", JObj [])])
                   Scenario.asked))
    by (vm_compute; reflexivity).
  split; [exact H |].
  exact (proj1 (results_are_paired_with_calls Scenario.failing_tool 0 0 Scenario.asked
                  Scenario.asked _
                  (OpenAI.mkReply None
                     (Some [OpenAI.ReplyFunction "call_1" "getResourceSchedule"
                                                 "{resourceId"])) _ H)).
Defined.

(** C10.  The message a call of [chat] returns is an assistant
    message whose [toolCalls] and [toolCallResults] are both absent. *)
Theorem returned_message_is_text_only
        env (fuel : nat) (messages : ArrayRef) (w w' : World) (msg : ChatMessage.t) :
  Orchestrator.chat env fuel messages w = (Return msg, w') ->
  ChatMessage.role msg = assistant
  /\ ChatMessage.toolCalls msg = None
  /\ ChatMessage.toolCallResults msg = None.
Proof. apply chat_result. Qed.

(** The turn of the scenario ends, after a round of tools, with text. *)
Lemma returned_message_witness :
  let msg := ChatMessage.mk assistant "The schedule is not available." None None in
  let w' := snd (Orchestrator.chat Scenario.failing_tool 2 0 Scenario.asked) in
  Orchestrator.chat Scenario.failing_tool 2 0 Scenario.asked = (Return msg, w')
  /\ ChatMessage.toolCalls msg = None
  /\ ChatMessage.toolCallResults msg = None.
Proof.
  cbv zeta.
  assert (H : Orchestrator.chat Scenario.failing_tool 2 0 Scenario.asked
              = (Return (ChatMessage.mk assistant "The schedule is not available." None None),
                 snd (Orchestrator.chat Scenario.failing_tool 2 0 Scenario.asked)))
    by (vm_compute; reflexivity).
  split; [exact H |].
  exact (proj2 (returned_message_is_text_only Scenario.failing_tool 2 0 Scenario.asked _ _ H)).
Defined.

(* ================================================================== *)
(** * Properties of the session store                                   *)
(* ================================================================== *)

(** C9, as amended.  [setTools] replaces the tool list of the
    orchestrator by the list it is given.  After a listing call of
    [loadTools] that succeeds, the tool list of the store is the list
    returned; the tool list of the orchestrator is the list returned
    when that list is not empty, and is left as it was when it is
    empty. *)
Theorem tool_list_is_replaced_by_a_nonempty_listing
        env (w w1 : World) (result : ListToolsResult.t) :
  Store.mcpClient (store w) = Some the_client ->
  Store.aiService (store w) = Some the_service ->
  Transport.listTools env None w = (Return result, w1) ->
  let listed := default [] (ListToolsResult.tools result) in
  let w' := snd (Session.loadTools env w) in
  fst (Session.loadTools env w) = Return tt
  /\ Store.tools (store w') = listed
  /\ AIService.tools (service w')
     = (if (0 <? length listed)%nat then listed else AIService.tools (service w))
  /\ (forall tools w0,
         AIService.tools (service (snd (Orchestrator.setTools tools w0))) = tools).
Proof.
  intros Hc Hs Hlist. cbv zeta.
  destruct (listTools_frame env None w) as (Hservice & _).
  rewrite Hlist in Hservice. cbn [snd] in Hservice.
  assert (Hload : Session.loadTools env w
                  = let listed := default [] (ListToolsResult.tools result) in
                    (if (0 <? length listed)%nat then Orchestrator.setTools listed else ret tt)
                      (snd (Session.set_tools listed w1))).
  { unfold Session.loadTools, bind, gets, try_catch. rewrite Hc, Hs, Hlist.
    unfold Session.set_tools, Orchestrator.setTools, modify, ret. cbv zeta.
    destruct (0 <? length (default [] (ListToolsResult.tools result)))%nat; reflexivity. }
  rewrite Hload. cbv zeta.
  unfold Session.set_tools, Orchestrator.setTools, modify, ret.
  destruct (0 <? length (default [] (ListToolsResult.tools result)))%nat;
    cbn; rewrite ?Hservice; auto.
Qed.

(** A server with one tool, a session without any: both lists are the
    list of the server. *)
Lemma tool_list_witness :
  let w' := snd (Session.loadTools Scenario.one_tool_catalog Scenario.fresh) in
  (Store.mcpClient (store Scenario.fresh) = Some the_client
   /\ Store.aiService (store Scenario.fresh) = Some the_service
   /\ fst (Transport.listTools Scenario.one_tool_catalog None Scenario.fresh)
      = Return {| ListToolsResult.tools := Some [Scenario.schedule_tool] |})
  /\ Store.tools (store w') = [Scenario.schedule_tool]
  /\ AIService.tools (service w') = [Scenario.schedule_tool].
Proof.
  cbv zeta.
  assert (H : Transport.listTools Scenario.one_tool_catalog None Scenario.fresh
              = (Return {| ListToolsResult.tools := Some [Scenario.schedule_tool] |},
                 snd (Transport.listTools Scenario.one_tool_catalog None Scenario.fresh)))
    by (vm_compute; reflexivity).
  split; [repeat split; now rewrite H |].
  destruct (tool_list_is_replaced_by_a_nonempty_listing
              Scenario.one_tool_catalog Scenario.fresh _ _ eq_refl eq_refl H)
    as (_ & Hstore & Hservice & _).
  split; [exact Hstore | exact Hservice].
Defined.

(** C9, as stated, fails: the orchestrator holds one tool, the server
    lists none, and after [loadTools] the orchestrator still holds the
    tool, while the store holds none. *)
Lemma stale_tools_after_an_empty_listing :
  fst (Transport.listTools Scenario.empty_catalog None Scenario.with_one_tool)
  = Return {| ListToolsResult.tools := Some [] |}
  /\ AIService.tools
       (service (snd (Session.loadTools Scenario.empty_catalog Scenario.with_one_tool)))
     = [Scenario.schedule_tool]
  /\ Store.tools (store (snd (Session.loadTools Scenario.empty_catalog Scenario.with_one_tool)))
     = []
  /\ [Scenario.schedule_tool] <> @nil Tool.t.
Proof.
  split; [vm_compute; reflexivity |]. split; [vm_compute; reflexivity |].
  split; [vm_compute; reflexivity | discriminate].
Qed.

(* ================================================================== *)
(** * Numbers and keys of JSON values                                   *)
(* ================================================================== *)

(** A number that is too small for a double is read as zero, and is
    falsy; the smallest double is not. *)
Example tiny_number_is_zero :
  Json.truthy (JNum "1e-400") = false
  /\ Json.truthy (JNum "2.4703282292062327e-324") = false
  /\ Json.truthy (JNum "2.4703282292062328e-324") = true
  /\ Json.truthy (JNum "5e-324") = true
  /\ Json.truthy (JNum "-0.0") = false.
Proof. repeat split; vm_compute; reflexivity. Qed.

(** A number is printed as the double it was read as, not as it was
    written. *)
Example numbers_are_printed_as_doubles :
  map Json.to_string
      [JNum "1.50"; JNum "1.0"; JNum "100"; JNum "1e21"; JNum "1e-7"; JNum "0.000001";
       JNum "-0"; JNum "0.1e1"; JNum "9007199254740993"; JNum "1e400"; JNum "-1e400";
       JNum "0.30000000000000004"; JNum "123456789012345678901234567890"]
  = ["1.5"; "1"; "100"; "1e+21"; "1e-7"; "0.000001";
     "0"; "1"; "9007199254740992"; "Infinity"; "-Infinity";
     "0.30000000000000004"; "1.2345678901234568e+29"]
  /\ Json.stringify (JArr [JNum "1.0"; JNum "1.50"; JNum "1e400"; JNum "-0"; JNum "2E3"])
     = "[1,1.5,null,0,2000]".
Proof. split; vm_compute; reflexivity. Qed.

(** The keys of a parsed object that are array indices come first, in
    ascending order; the other keys follow in the order of the text; a
    key that is repeated keeps its first place and its last value. *)
Example keys_are_enumerated_in_order :
  Json.parse (Scenario.dq "{'b':1,'2':2,'a':3,'1':4,'b':5,'01':6,'4294967295':7}")
  = Some (JObj [("1", JNum "4"); ("2", JNum "2"); ("b", JNum "5"); ("a", JNum "3");
                ("01", JNum "6"); ("4294967295", JNum "7")])
  /\ Json.stringify (JObj [("1", JNum "4"); ("2", JNum "2"); ("b", JNum "5")])
     = Scenario.dq "{'1':4,'2':2,'b':5}".
Proof. split; vm_compute; reflexivity. Qed.

(* ================================================================== *)
(** * Further properties of the transport client                        *)
(* ================================================================== *)

Lemma quiet_after_fetch env (response : Response) : quiet (after_fetch env response).
Proof.
  unfold after_fetch. destruct (negb (ok response)); [auto with quiet |].
  apply quiet_bind; [apply quiet_parseSSEResponse | intros responseText].
  apply quiet_bind; [| intros data; apply quiet_read_envelope].
  repeat case_match; auto with quiet.
Qed.

(** [request], split at its call of [fetch]. *)
Lemma request_unfold env (method : string) (params : JSON) (w : World) :
  Transport.request env method params w
  = (match fetch env (length (fetch_log w)) (sent_by_request method params w) with
     | inl r => Throw (rejected NetworkFailure r)
     | inr response => fst (after_fetch env response (after_request method params w))
     end,
     after_request method params w).
Proof.
  unfold Transport.request. unfold bind at 1. cbn [Transport.getNextRequestId].
  rewrite try_catch_rethrow. unfold bind at 1, gets at 1. unfold bind at 1.
  unfold Transport.do_fetch. cbn [client set_client fetch_log].
  match goal with
  | |- context [fetch env ?n ?i] =>
      change (fetch env n i)
        with (fetch env (length (fetch_log w)) (sent_by_request method params w))
  end.
  destruct (fetch env (length (fetch_log w)) (sent_by_request method params w))
    as [r|response]; [reflexivity |].
  cbn [await ret].
  match goal with
  | |- ?m ?w0 = _ =>
      change (m w0) with (after_fetch env response (after_request method params w))
  end.
  rewrite (surjective_pairing (after_fetch env response (after_request method params w))).
  now rewrite quiet_after_fetch.
Qed.

Lemma parseSSEResponse_eq (response : Response) (w : World) :
  Transport.parseSSEResponse response w
  = (match text response with
     | inl r => Throw (rejected NetworkFailure r)
     | inr body =>
         Return (if Transport.isSSE response then Transport.sse_decode body else body)
     end, w).
Proof.
  unfold Transport.parseSSEResponse.
  destruct (Transport.isSSE response), (text response); reflexivity.
Qed.

Lemma read_envelope_returns env (data : JSON) (w : World) (result : JSON) :
  fst (Transport.read_envelope env data w) = Return result
  <-> data <> JNull /\ no_error data = true /\ Json.get data "result" = Some result.
Proof.
  unfold Transport.read_envelope, Transport.read_result, no_error, throw, ret.
  destruct data; cbn [Json.get]; repeat case_match; cbn [fst negb];
    (split; [intros Hr | intros (Hn & He & Hg)]); simplify_eq; done.
Qed.

Lemma decode_returns env (responseText : string) (w : World) (result : JSON) :
  fst (bind (match Json.parse responseText with
             | Some data => ret data
             | None =>
                 match Transport.brace_match responseText with
                 | Some jsonMatch =>
                     match Json.parse jsonMatch with
                     | Some data => ret data
                     | None => throw (newError ParseError (syntax_error env jsonMatch))
                     end
                 | None =>
                     throw (newError ParseError
                              ("Failed to parse response as JSON: "
                                 +:+ substring_to 100 responseText))
                 end
             end)
            (Transport.read_envelope env) w) = Return result
  <-> exists data, decode_json responseText = Some data
                   /\ fst (Transport.read_envelope env data w) = Return result.
Proof.
  unfold decode_json, bind, ret, throw.
  destruct (Json.parse responseText) as [data|].
  - split; [eauto | intros (d & [= <-] & H); exact H].
  - destruct (Transport.brace_match responseText) as [m|].
    + destruct (Json.parse m) as [data|].
      * split; [eauto | intros (d & [= <-] & H); exact H].
      * split; [discriminate | intros (d & [=] & _)].
    + split; [discriminate | intros (d & [=] & _)].
Qed.

(** X1.  [request] returns [result] exactly when [fetch] answered with
    a 2xx response whose body was read, whose text (decoded from SSE
    when the content type says so) is JSON, or holds JSON between its
    first and last brace, that is not [null], has no truthy [error]
    member and has the member [result]: never on another status, and
    never when the server reports an error, even beside a result. *)
Theorem request_returns_exactly_the_result
        env (method : string) (params : JSON) (w : World) (result : JSON) :
  fst (Transport.request env method params w) = Return result
  <-> exists response responseText data,
      fetch env (length (fetch_log w)) (sent_by_request method params w) = inr response
      /\ ok response = true
      /\ response_text response = Some responseText
      /\ decode_json responseText = Some data
      /\ data <> JNull
      /\ no_error data = true
      /\ Json.get data "result" = Some result.
Proof.
  rewrite request_unfold. cbn [fst].
  destruct (fetch env (length (fetch_log w)) (sent_by_request method params w))
    as [r|response].
  - split; [discriminate | intros (? & ? & ? & Hf & _); discriminate Hf].
  - unfold after_fetch.
    destruct (ok response) eqn:Hok; cbn [negb].
    + unfold bind at 1. rewrite parseSSEResponse_eq.
      destruct (text response) as [r|body] eqn:Hbody.
      * split; [discriminate |].
        intros (? & ? & ? & [= <-] & _ & Ht & _).
        unfold response_text in Ht. rewrite Hbody in Ht. discriminate Ht.
      * rewrite decode_returns. split.
        -- intros (data & Hd & Hr). apply read_envelope_returns in Hr.
           exists response,
             (if Transport.isSSE response then Transport.sse_decode body else body),
             data.
           unfold response_text. rewrite Hbody. repeat split; tauto.
        -- intros (? & t & data & [= <-] & _ & Ht & Hd & Hr).
           unfold response_text in Ht. rewrite Hbody in Ht. injection Ht as <-.
           exists data. split; [exact Hd |]. now apply read_envelope_returns.
    + split; [discriminate | intros (? & ? & ? & [= <-] & Hok' & _); congruence].
Qed.

(** ** The JSON recovered from a body that is not JSON *)

Lemma from_first_brace_app (pre rest : string) :
  occurs "{" pre = false ->
  Transport.from_first_brace (pre +:+ String "{" rest) = Some (String "{" rest).
Proof.
  induction pre as [|c pre IH]; [reflexivity |].
  cbn [occurs]. intros [Hc Hpre]%orb_false_iff.
  rewrite append_cons. cbn [Transport.from_first_brace].
  rewrite Ascii.eqb_sym, Hc. auto.
Qed.

Lemma from_first_brace_inv (s t : string) :
  Transport.from_first_brace s = Some t ->
  exists pre rest, s = pre +:+ String "{" rest /\ occurs "{" pre = false
                   /\ t = String "{" rest.
Proof.
  induction s as [|c s IH]; [discriminate |].
  cbn [Transport.from_first_brace]. destruct (Ascii.eqb c "{") eqn:Hc.
  - apply Ascii.eqb_eq in Hc as ->. intros [= <-]. now exists EmptyString, s.
  - intros (pre & rest & -> & Hpre & ->)%IH.
    exists (String c pre), rest. rewrite append_cons. cbn [occurs].
    rewrite Ascii.eqb_sym, Hc, Hpre. auto.
Qed.

Lemma to_last_brace_none (post : string) :
  occurs "}" post = false -> Transport.to_last_brace post = None.
Proof.
  induction post as [|c post IH]; [reflexivity |].
  cbn [occurs]. intros [Hc Hpost]%orb_false_iff.
  cbn [Transport.to_last_brace]. rewrite (IH Hpost), Ascii.eqb_sym, Hc. reflexivity.
Qed.

Lemma to_last_brace_app (body post : string) :
  occurs "}" post = false ->
  Transport.to_last_brace (body +:+ String "}" post) = Some (body +:+ "}").
Proof.
  intros Hpost. induction body as [|c body IH].
  - change (EmptyString +:+ String "}" post) with (String "}" post).
    cbn [Transport.to_last_brace]. now rewrite (to_last_brace_none _ Hpost).
  - rewrite !append_cons. cbn [Transport.to_last_brace]. now rewrite IH.
Qed.

Lemma to_last_brace_inv (t m : string) :
  Transport.to_last_brace t = Some m ->
  exists body post, t = body +:+ String "}" post /\ occurs "}" post = false
                    /\ m = body +:+ "}".
Proof.
  revert m. induction t as [|c t IH]; [discriminate |].
  intros m. cbn [Transport.to_last_brace].
  destruct (Transport.to_last_brace t) as [u|] eqn:Hu.
  - intros [= <-]. destruct (IH u eq_refl) as (body & post & -> & Hpost & ->).
    exists (String c body), post. now rewrite !append_cons.
  - destruct (Ascii.eqb c "}") eqn:Hc; [| discriminate].
    apply Ascii.eqb_eq in Hc as ->. intros [= <-].
    exists EmptyString, t. repeat split.
    clear IH. induction t as [|d t IHt]; [reflexivity |].
    cbn [Transport.to_last_brace] in Hu.
    destruct (Transport.to_last_brace t); [discriminate |].
    destruct (Ascii.eqb d "}") eqn:Hd; [discriminate |].
    cbn [occurs]. rewrite Ascii.eqb_sym, Hd. now apply IHt.
Qed.

(** X2.  The text [request] falls back on when a body is not JSON: the
    part of the body from its first opening brace to its last closing
    brace, when the one comes before the other; there is none
    otherwise. *)
Theorem brace_match_is_first_to_last_brace (s m : string) :
  Transport.brace_match s = Some m
  <-> exists pre mid post,
      s = pre +:+ "{" +:+ mid +:+ "}" +:+ post
      /\ occurs "{" pre = false
      /\ occurs "}" post = false
      /\ m = "{" +:+ mid +:+ "}".
Proof.
  unfold Transport.brace_match. split.
  - destruct (Transport.from_first_brace s) as [t|] eqn:Ht; [| discriminate].
    apply from_first_brace_inv in Ht as (pre & rest & -> & Hpre & ->).
    intros (body & post & Heq & Hpost & ->)%to_last_brace_inv.
    destruct body as [|c body]; [discriminate Heq |].
    rewrite append_cons in Heq. injection Heq as <- ->.
    exists pre, body, post. repeat split; auto.
  - intros (pre & mid & post & -> & Hpre & Hpost & ->).
    change ("{" +:+ mid +:+ "}" +:+ post) with (String "{" (mid +:+ String "}" post)).
    rewrite (from_first_brace_app _ _ Hpre).
    change (String "{" (mid +:+ String "}" post))
      with (String "{" mid +:+ String "}" post).
    now rewrite (to_last_brace_app _ _ Hpost).
Qed.

(** ** What [request] throws *)

Lemma read_envelope_throws env (data : JSON) (w : World) (e : Thrown) :
  fst (Transport.read_envelope env data w) = Throw e ->
  match site e with
  | EngineTypeError => data = JNull
  | ProtocolError =>
      data <> JNull
      /\ (no_error data = false \/ Json.get data "result" = None)
  | _ => False
  end.
Proof.
  unfold Transport.read_envelope, Transport.read_result, no_error, throw, ret.
  destruct data; cbn [Json.get]; repeat case_match; cbn [fst negb];
    intros [= <-]; cbn [site newError]; try done; split; auto; done.
Qed.

(** X3.  The cause of each kind of failure of [request].  A network
    failure is a rejection of [fetch] or of the reading of the body of
    a 2xx response, thrown as it is; a transport error is a response
    with another status, whose body is not read; a parse error is a 2xx
    body that is not JSON and holds no JSON between its braces; a
    protocol error is a decoded value with a truthy [error] member or
    without [result]; the engine's type error is the decoded value
    [null].  [request] throws nothing else. *)
Theorem request_failure_has_its_cause
        env (method : string) (params : JSON) (w : World) (e : Thrown) :
  fst (Transport.request env method params w) = Throw e ->
  let answer := fetch env (length (fetch_log w)) (sent_by_request method params w) in
  match site e with
  | NetworkFailure =>
      exists r, e = rejected NetworkFailure r
                /\ (answer = inl r
                    \/ exists response,
                        answer = inr response /\ ok response = true
                        /\ text response = inl r)
  | TransportError =>
      exists response,
        answer = inr response /\ ok response = false
        /\ e = newError TransportError
                 ("HTTP error! status: " +:+ JsString.of_N (status response))
  | ParseError =>
      exists response responseText,
        answer = inr response /\ ok response = true
        /\ response_text response = Some responseText
        /\ decode_json responseText = None
  | ProtocolError =>
      exists response responseText data,
        answer = inr response /\ ok response = true
        /\ response_text response = Some responseText
        /\ decode_json responseText = Some data
        /\ data <> JNull
        /\ (no_error data = false \/ Json.get data "result" = None)
  | EngineTypeError =>
      exists response responseText,
        answer = inr response /\ ok response = true
        /\ response_text response = Some responseText
        /\ decode_json responseText = Some JNull
  | NotInitialized | ModelFailure => False
  end.
Proof.
  rewrite request_unfold. cbn [fst]. cbv zeta.
  destruct (fetch env (length (fetch_log w)) (sent_by_request method params w))
    as [r|response].
  { intros [= <-]. cbn [site rejected]. eauto. }
  unfold after_fetch. destruct (ok response) eqn:Hok; cbn [negb].
  2:{ unfold throw. intros [= <-]. cbn [site newError]. eauto. }
  unfold bind at 1. rewrite parseSSEResponse_eq.
  destruct (text response) as [r|body] eqn:Hbody.
  { intros [= <-]. cbn [site rejected]. eauto 7. }
  set (responseText := if Transport.isSSE response then Transport.sse_decode body else body).
  assert (Ht : response_text response = Some responseText)
    by (unfold response_text; now rewrite Hbody).
  unfold bind, ret, throw.
  assert (Henv : forall data,
             decode_json responseText = Some data ->
             fst (Transport.read_envelope env data (after_request method params w))
             = Throw e ->
             match site e with
             | NetworkFailure | TransportError | ParseError
             | NotInitialized | ModelFailure => False
             | ProtocolError =>
                 exists response0 responseText0 data0,
                   @inr Rejection Response response = inr response0 /\ ok response0 = true
                   /\ response_text response0 = Some responseText0
                   /\ decode_json responseText0 = Some data0
                   /\ data0 <> JNull
                   /\ (no_error data0 = false \/ Json.get data0 "result" = None)
             | EngineTypeError =>
                 exists response0 responseText0,
                   @inr Rejection Response response = inr response0 /\ ok response0 = true
                   /\ response_text response0 = Some responseText0
                   /\ decode_json responseText0 = Some JNull
             end).
  { intros data Hd He. apply read_envelope_throws in He.
    destruct (site e); try done.
    - destruct He. exists response, responseText, data. auto 10.
    - subst data. exists response, responseText. auto. }
  unfold decode_json in Henv |- *.
  destruct (Json.parse responseText) as [data|] eqn:Hp.
  { intros He. specialize (Henv data eq_refl He). destruct (site e); solve [exact Henv | elim Henv]. }
  destruct (Transport.brace_match responseText) as [m|] eqn:Hm.
  - destruct (Json.parse m) as [data|] eqn:Hpm.
    + intros He. specialize (Henv data eq_refl He). destruct (site e); solve [exact Henv | elim Henv].
    + intros [= <-]. cbn [site newError]. exists response, responseText.
      unfold decode_json. rewrite Hp, Hm. auto.
  - intros [= <-]. cbn [site newError]. exists response, responseText.
    unfold decode_json. rewrite Hp, Hm. auto.
Qed.

Lemma request_failure_witness :
  let e := newError TransportError "HTTP error! status: 500" in
  fst (Transport.request Scenario.failing_tool "tools/list" (JObj []) Scenario.fresh)
  = Throw e
  /\ exists response,
      fetch Scenario.failing_tool 0 (sent_by_request "tools/list" (JObj []) Scenario.fresh)
      = inr response
      /\ ok response = false
      /\ e = newError TransportError
               ("HTTP error! status: " +:+ JsString.of_N (status response)).
Proof.
  assert (H : fst (Transport.request Scenario.failing_tool "tools/list" (JObj [])
                                     Scenario.fresh)
              = Throw (newError TransportError "HTTP error! status: 500"))
    by (vm_compute; reflexivity).
  split; [exact H |].
  exact (request_failure_has_its_cause Scenario.failing_tool "tools/list" (JObj [])
           Scenario.fresh _ H).
Defined.

(** ** One operation, one request *)

Lemma after_request_one (method : string) (params : JSON) (w : World) :
  fetched_since w (after_request method params w) = [sent_by_request method params w]
  /\ client (after_request method params w)
     = MCPClient.mk (MCPClient.serverUrl (client w))
                    (MCPClient.requestId (client w) + 1)
                    (MCPClient.apiKey (client w))
  /\ transport_only w (after_request method params w).
Proof.
  split; [| split; [reflexivity | apply transport_only_request]].
  unfold fetched_since, after_request. cbn [fetch_log set_fetch_log set_client].
  now rewrite drop_log.
Qed.

Lemma makes_one_request_intro {A} (m : M A) (method : string) (params : JSON) :
  (forall w, snd (m w) = after_request method params w) ->
  makes_one_request m method params.
Proof. intros H w. cbv zeta. rewrite H. apply after_request_one. Qed.

(** X4.  Each operation of the client makes exactly one HTTP request,
    whatever its outcome (a result, an error, or the empty list that
    [listTools] and [listResources] degrade to): a [POST] to the URL of
    the client with the next id, the method of the operation and its
    parameters, to which [server] is added only when it is given and
    not empty.  Nothing but the counter of the client changes. *)
Theorem every_operation_makes_one_request env :
  makes_one_request (Transport.initialize env) "initialize"
    (JObj [("protocolVersion", JStr "2024-11-05");
           ("capabilities", JObj []);
           ("clientInfo", JObj [("name", JStr "mcp-example-react");
                                ("version", JStr "1.0.0")])])
  /\ (forall server,
         makes_one_request (Transport.listTools env server) "tools/list"
           (match server with
            | Some s => if JsString.truthy s then JObj [("server", JStr s)] else JObj []
            | None => JObj []
            end))
  /\ (forall server,
         makes_one_request (Transport.listResources env server) "resources/list"
           (match server with
            | Some s => if JsString.truthy s then JObj [("server", JStr s)] else JObj []
            | None => JObj []
            end))
  /\ (forall uri server,
         makes_one_request (Transport.fetchResource env uri server) "resources/read"
           (match server with
            | Some s =>
                if JsString.truthy s
                then JObj [("uri", JStr uri); ("server", JStr s)]
                else JObj [("uri", JStr uri)]
            | None => JObj [("uri", JStr uri)]
            end))
  /\ (forall name arguments_ server,
         makes_one_request (Transport.callTool env name arguments_ server) "tools/call"
           (match server with
            | Some s =>
                if JsString.truthy s
                then JObj [("name", JStr name); ("arguments", arguments_);
                           ("server", JStr s)]
                else JObj [("name", JStr name); ("arguments", arguments_)]
            | None => JObj [("name", JStr name); ("arguments", arguments_)]
            end)).
Proof.
  refine (conj _ (conj _ (conj _ (conj _ _)))); intros;
    apply makes_one_request_intro; intros w.
  - unfold Transport.initialize. rewrite try_catch_rethrow. apply request_world.
  - rewrite listTools_world. unfold Transport.with_server.
    destruct server as [s|]; [destruct (JsString.truthy s) |]; reflexivity.
  - rewrite listResources_outcome.
    pose proof (request_world env "resources/list" (Transport.with_server [] server) w) as Hw.
    destruct (Transport.request env "resources/list" (Transport.with_server [] server) w)
      as [[result|error|] w'] eqn:Hreq; cbn [snd] in Hw |- *; rewrite Hw;
      unfold Transport.with_server;
      (destruct server as [s|]; [destruct (JsString.truthy s) |]; reflexivity).
  - unfold Transport.fetchResource. rewrite try_catch_rethrow. cbv zeta.
    rewrite request_world. unfold Transport.with_server.
    destruct server as [s|]; [destruct (JsString.truthy s) |]; reflexivity.
  - rewrite callTool_world. unfold Transport.with_server.
    destruct server as [s|]; [destruct (JsString.truthy s) |]; reflexivity.
Qed.

(** X5.  A key given with [setApiKey] is sent from the next request on:
    that request carries the header [X-API-KEY] exactly when the key is
    neither [null] nor empty, and always carries the JSON content type.
    Setting the key does not reset the counter nor change the URL. *)
Theorem api_key_is_sent_when_set
        env (apiKey : option string) (method : string) (params : JSON) (w : World) :
  let w1 := snd (Transport.setApiKey apiKey w) in
  exists sent,
    fetched_since w1 (snd (Transport.request env method params w1)) = [sent]
    /\ url sent = MCPClient.serverUrl (client w)
    /\ request_id sent = MCPClient.requestId (client w) + 1
    /\ In ("Content-Type", "application/json") (headers sent)
    /\ forall k, In ("X-API-KEY", k) (headers sent) <-> apiKey = Some k /\ k <> EmptyString.
Proof.
  cbv zeta. rewrite request_world.
  destruct (after_request_one method params (snd (Transport.setApiKey apiKey w)))
    as (-> & _ & _).
  eexists. split; [reflexivity |].
  cbn. split; [reflexivity |]. split; [reflexivity |]. split; [now left |].
  intros k. split.
  - intros [[=] | Hin]. destruct apiKey as [[|c k']|]; cbn in Hin; try done.
    destruct Hin as [[= <-] | []]. done.
  - intros [-> Hk]. right. destruct k as [|c k']; [done |]. now left.
Qed.

(** ** Bodies that are not event streams *)

Lemma sse_line_other (jsonData line : string) :
  Sse.is_field_line line = false -> Transport.sse_line jsonData line = jsonData +:+ line.
Proof.
  unfold Sse.is_field_line, Transport.sse_line.
  intros H. repeat apply orb_false_iff in H as [H ?].
  apply negb_false_iff in H.
  repeat match goal with Heq : _ = false |- _ => rewrite Heq; clear Heq end.
  now rewrite H.
Qed.

Lemma sse_fold_other (lines : list string) (jsonData : string) :
  Forall (fun l => Sse.is_field_line l = false) lines ->
  fold_left Transport.sse_line lines jsonData = jsonData +:+ JsString.concat lines.
Proof.
  intros H. revert jsonData. induction H as [|line lines Hl _ IH]; intros jsonData.
  - cbn. now rewrite append_nil_r.
  - cbn [fold_left JsString.concat fold_right]. rewrite IH, (sse_line_other _ _ Hl).
    apply append_assoc.
Qed.

Lemma split_lines_cons (s : string) : exists l ls, split_lines s = l :: ls.
Proof.
  induction s as [|c s (l & ls & IH)]; [now exists EmptyString, [] |].
  cbn [split_lines]. rewrite IH. destruct (Ascii.eqb c "010"); eauto.
Qed.

(** X6.  A body sent with an event-stream or plain-text content type
    that holds no SSE field at all (no line is blank, a comment, or
    starts with [data: ], [event: ], [id:] or [retry:]) is not lost: the
    decode returns its lines joined, that is the body without its line
    feeds. *)
Theorem sse_decode_joins_other_lines (response : Response) (body : string) (w : World) :
  Transport.isSSE response = true ->
  text response = inr body ->
  Forall (fun line => Sse.is_field_line line = false) (split_lines body) ->
  Transport.parseSSEResponse response w
  = (Return (JsString.concat (split_lines body)), w).
Proof.
  intros Hsse Hbody Hlines. rewrite parseSSEResponse_eq, Hbody, Hsse.
  unfold Transport.sse_decode. rewrite (sse_fold_other _ _ Hlines).
  change (EmptyString +:+ ?s) with s.
  destruct (split_lines_cons body) as (l & ls & Heq). rewrite Heq in Hlines |- *.
  apply Forall_cons in Hlines as [Hl _].
  destruct l as [|c l]; [discriminate Hl |]. reflexivity.
Qed.

Lemma sse_decode_joins_witness :
  let body := Scenario.dq "{'a':" +:+ Scenario.nl +:+ "1}" in
  let response := mkResponse 200 (Some "text/plain") (inr body) in
  (Transport.isSSE response = true
   /\ Forall (fun line => Sse.is_field_line line = false) (split_lines body))
  /\ Transport.parseSSEResponse response Scenario.fresh
     = (Return (Scenario.dq "{'a':1}"), Scenario.fresh).
Proof.
  assert (H1 : Transport.isSSE
                 (mkResponse 200 (Some "text/plain")
                             (inr (Scenario.dq "{'a':" +:+ Scenario.nl +:+ "1}"))) = true)
    by (vm_compute; reflexivity).
  assert (H2 : Forall (fun line => Sse.is_field_line line = false)
                      (split_lines (Scenario.dq "{'a':" +:+ Scenario.nl +:+ "1}")))
    by (vm_compute; repeat constructor).
  split; [split; assumption |].
  exact (sse_decode_joins_other_lines _ _ Scenario.fresh H1 eq_refl H2).
Defined.

(** An [error] member that is a number too small for a double is zero,
    hence no error: the result beside it is returned.  An error whose
    message is a number is thrown with that number as a double prints. *)
Example tiny_error_is_no_error :
  fst (Transport.request
         (Scenario.environment
            (Scenario.always
               (Scenario.json_response (Scenario.dq "{'error':1e-400,'result':5}")))
            Scenario.silent_model)
         "tools/list" (JObj []) Scenario.fresh)
  = Return (JNum "5")
  /\ fst (Transport.request
            (Scenario.environment
               (Scenario.always
                  (Scenario.json_response (Scenario.dq "{'error':{'message':1.50}}")))
               Scenario.silent_model)
            "tools/list" (JObj []) Scenario.fresh)
     = Throw (newError ProtocolError "1.5").
Proof. split; vm_compute; reflexivity. Qed.

(** The text of the first request of a session, as it goes on the wire. *)
Example first_request_on_the_wire :
  body_text (sent_by_request "tools/list" (JObj []) Scenario.fresh)
  = Scenario.dq "{'jsonrpc':'2.0','id':1,'method':'tools/list','params':{}}".
Proof. vm_compute. reflexivity. Qed.

(* ================================================================== *)
(** * Further properties of the orchestrator                            *)
(* ================================================================== *)

(** ** The calls of a reply *)

Lemma after_calls_nil (w : World) : after_calls [] w = w.
Proof. unfold after_calls. now destruct (AIService.mcpClient (service w)). Qed.

Lemma after_calls_service (calls : list ToolCall.t) (w : World) :
  service (after_calls calls w) = service w.
Proof.
  unfold after_calls. destruct (AIService.mcpClient (service w)); [| reflexivity].
  revert w. induction calls as [|c calls IH]; intros w; [reflexivity |].
  cbn [fold_left]. now rewrite IH.
Qed.

Lemma after_calls_cons (c : ToolCall.t) (calls : list ToolCall.t) (w : World) :
  after_calls (c :: calls) w = after_calls calls (after_calls [c] w).
Proof.
  unfold after_calls at 1 3. cbn [fold_left].
  destruct (AIService.mcpClient (service w)) eqn:Hc.
  - unfold after_calls. change (service (after_request _ _ w)) with (service w).
    now rewrite Hc.
  - unfold after_calls. now rewrite Hc.
Qed.

Lemma executeToolCall_effect env (toolName : string) (arguments_ : JSON) (w : World) :
  snd (Orchestrator.executeToolCall env toolName arguments_ w)
  = after_calls [ToolCall.mk EmptyString toolName arguments_] w.
Proof.
  unfold Orchestrator.executeToolCall, after_calls. unfold bind, gets.
  destruct (AIService.mcpClient (service w)) as [[]|]; [| reflexivity].
  rewrite try_catch_rethrow. apply callTool_world.
Qed.

Lemma after_calls_one_id (id id' name : string) (arguments_ : JSON) (w : World) :
  after_calls [ToolCall.mk id name arguments_] w
  = after_calls [ToolCall.mk id' name arguments_] w.
Proof. reflexivity. Qed.

(** The loop over the calls of a reply records the function calls, in
    order, one result each, and makes their requests. *)
Lemma run_tool_calls_trace env (tool_calls : list OpenAI.ReplyToolCall) :
  forall acc (w : World),
  exists results,
    Orchestrator.run_tool_calls env acc tool_calls w
    = (Return (fst acc ++ requested_calls tool_calls, snd acc ++ results),
       after_calls (requested_calls tool_calls) w)
    /\ map ToolCallResult.toolCallId results
       = map ToolCall.id (requested_calls tool_calls).
Proof.
  induction tool_calls as [|toolCall rest IH]; intros acc w.
  - exists []. cbn [Orchestrator.run_tool_calls requested_calls omap list_omap].
    rewrite !app_nil_r, after_calls_nil. now destruct acc.
  - cbn [Orchestrator.run_tool_calls]. unfold bind.
    destruct toolCall as [id name arguments|id].
    + rewrite run_tool_call_function. cbv zeta.
      pose proof (finishes_executeToolCall env name
                    (default Json.empty_object (Json.parse arguments)) w) as Hf.
      pose proof (executeToolCall_effect env name
                    (default Json.empty_object (Json.parse arguments)) w) as Hw.
      change (requested_calls (OpenAI.ReplyFunction id name arguments :: rest))
        with (ToolCall.mk id name (default Json.empty_object (Json.parse arguments))
                :: requested_calls rest).
      rewrite after_calls_cons.
      rewrite (after_calls_one_id id EmptyString).
      destruct (Orchestrator.executeToolCall env name _ w) as [[result|error|] w'];
        [| | now elim Hf]; cbn [snd] in Hw; subst w';
        match goal with
        | |- context [Orchestrator.run_tool_calls env ?a rest ?w0] =>
            destruct (IH a w0) as (results & -> & Hids)
        end; cbn [fst snd]; rewrite <- !app_assoc; cbn [app];
        eexists (_ :: results); (split; [reflexivity |]); cbn [map]; now rewrite Hids.
    + cbn [Orchestrator.run_tool_call ret].
      change (requested_calls (OpenAI.ReplyCustom id :: rest)) with (requested_calls rest).
      apply IH.
Qed.

Lemma after_calls_log (calls : list ToolCall.t) (w : World) :
  exists new,
    fetch_log (fold_left (fun w c => after_request "tools/call" (call_params c) w) calls w)
    = fetch_log w ++ new
    /\ map (fun i => MCPRequest.params (body i)) new = map call_params calls.
Proof.
  revert w. induction calls as [|c calls IH]; intros w.
  - exists []. now rewrite app_nil_r.
  - cbn [fold_left]. destruct (IH (after_request "tools/call" (call_params c) w))
      as (new & -> & Hnew).
    unfold after_request. cbn [fetch_log set_fetch_log]. rewrite <- app_assoc.
    eexists (_ :: new). split; [reflexivity |]. cbn [map body MCPRequest.params].
    now rewrite Hnew.
Qed.

(** X7.  The tool calls of a reply are run one after the other, in the
    order of the reply.  Each call of type ['function'] is recorded with
    the id and the name the model gave and its parsed arguments, gets
    exactly one result, and, when the service has a client, is executed
    by exactly one request, whose parameters are its name and its
    arguments.  A call of another type is skipped: it is not recorded
    and nothing is sent for it.  The loop never throws. *)
Theorem tool_calls_run_in_reply_order
        env (tool_calls : list OpenAI.ReplyToolCall) (w : World) :
  let outcome := Orchestrator.run_tool_calls env ([], []) tool_calls w in
  exists results,
    fst outcome = Return (requested_calls tool_calls, results)
    /\ map ToolCallResult.toolCallId results = map ToolCall.id (requested_calls tool_calls)
    /\ map (fun i => MCPRequest.params (body i)) (fetched_since w (snd outcome))
       = match AIService.mcpClient (service w) with
         | Some _ => map call_params (requested_calls tool_calls)
         | None => []
         end.
Proof.
  cbv zeta. destruct (run_tool_calls_trace env tool_calls ([], []) w) as (results & -> & Hids).
  exists results. cbn [fst snd app]. split; [reflexivity |]. split; [exact Hids |].
  unfold after_calls, fetched_since.
  destruct (AIService.mcpClient (service w)).
  - destruct (after_calls_log (requested_calls tool_calls) w) as (new & -> & Hnew).
    now rewrite drop_log.
  - now rewrite drop_all.
Qed.

(** ** The rounds of [chat] *)

Lemma run_tool_calls_eq env (tool_calls : list OpenAI.ReplyToolCall) (w : World) :
  Orchestrator.run_tool_calls env ([], []) tool_calls w
  = (Return (requested_calls tool_calls, tool_results env tool_calls w),
     after_calls (requested_calls tool_calls) w).
Proof.
  unfold tool_results.
  destruct (run_tool_calls_trace env tool_calls ([], []) w) as (results & -> & _).
  reflexivity.
Qed.

Lemma tool_results_ids env (tool_calls : list OpenAI.ReplyToolCall) (w : World) :
  map ToolCallResult.toolCallId (tool_results env tool_calls w)
  = map ToolCall.id (requested_calls tool_calls).
Proof.
  unfold tool_results.
  destruct (run_tool_calls_trace env tool_calls ([], []) w) as (results & -> & Hids).
  exact Hids.
Qed.

(** One round of [chat]: the completion call, then either the answer,
    or the calls of the reply and the next round. *)
Lemma chat_step env (fuel : nat) (messages : ArrayRef) (w : World) :
  Orchestrator.chat env (S fuel) messages w
  = match AIService.openai (service w) with
    | None => (Throw (newError NotInitialized "OpenAI client not initialized"), w)
    | Some _ =>
        let w1 := after_ask env messages w in
        match model_answer env messages w with
        | Return reply =>
            let tool_calls := default [] (OpenAI.reply_tool_calls reply) in
            let calls := requested_calls tool_calls in
            let w2 := after_calls calls w1 in
            match calls with
            | [] => (Return (ChatMessage.mk assistant (Orchestrator.reply_text reply)
                                            None None), w1)
            | _ :: _ =>
                Orchestrator.chat env fuel (length (arrays w2))
                  (next_round w2 (history_of w2 messages) reply
                              (calls, tool_results env tool_calls w1))
            end
        | Throw e => (Throw e, w1)
        | OutOfFuel => (OutOfFuel, w1)
        end
    end.
Proof.
  rewrite chat_unfold. destruct (AIService.openai (service w)); [| reflexivity].
  rewrite ask_model_eq. cbv zeta.
  destruct (model_answer env messages w) as [reply|e|]; try reflexivity.
  rewrite run_tool_calls_eq. cbn [fst snd].
  pose proof (tool_results_ids env (default [] (OpenAI.reply_tool_calls reply))
                (after_ask env messages w)) as Hids.
  destruct (requested_calls (default [] (OpenAI.reply_tool_calls reply))) as [|call calls];
    [| reflexivity].
  destruct (tool_results env _ _); [| discriminate Hids].
  rewrite after_calls_nil. reflexivity.
Qed.

Lemma after_calls_frame (calls : list ToolCall.t) (w : World) :
  transport_only w (after_calls calls w).
Proof.
  unfold after_calls. destruct (AIService.mcpClient (service w));
    [| apply transport_only_refl].
  revert w. induction calls as [|c calls IH]; intros w; [apply transport_only_refl |].
  cbn [fold_left]. eapply transport_only_trans; [apply transport_only_request | apply IH].
Qed.

Lemma after_calls_create_log (calls : list ToolCall.t) (w : World) :
  create_log (after_calls calls w) = create_log w.
Proof. now destruct (after_calls_frame calls w) as (_ & _ & _ & ? & _). Qed.

Lemma after_calls_arrays (calls : list ToolCall.t) (w : World) :
  arrays (after_calls calls w) = arrays w.
Proof. now destruct (after_calls_frame calls w) as (_ & _ & ? & _). Qed.

Lemma after_calls_dates (calls : list ToolCall.t) (w : World) :
  dates_read (after_calls calls w) = dates_read w.
Proof. now destruct (after_calls_frame calls w) as (_ & _ & _ & _ & ?). Qed.

Lemma chat_create_log env (fuel : nat) (messages : ArrayRef) (w : World) :
  create_log (snd (Orchestrator.chat env fuel messages w))
  = create_log w ++ created_since w (snd (Orchestrator.chat env fuel messages w)).
Proof.
  destruct (chat_effect env fuel messages w) as (_ & _ & _ & new & Hnew & _).
  unfold created_since. rewrite Hnew. now rewrite drop_log.
Qed.

(** The completion calls of [chat], split at its first round. *)
Lemma created_since_round env (fuel : nat) (messages : ArrayRef) (w w3 : World) (a : ArrayRef) :
  create_log w3 = create_log w ++ [ask_params env messages w] ->
  created_since w (snd (Orchestrator.chat env fuel a w3))
  = ask_params env messages w :: created_since w3 (snd (Orchestrator.chat env fuel a w3)).
Proof.
  intros H3. unfold created_since at 1. rewrite chat_create_log, H3, <- app_assoc.
  now rewrite drop_log.
Qed.

(** X8.  A reply without a call of type ['function'] ends the turn:
    [chat] returns the text of the reply (the empty text when it has
    none) as an assistant message without tool calls, after one
    completion call and no request to the MCP server, whatever calls of
    other types the reply holds. *)
Theorem reply_without_function_call_ends_the_turn
        env (fuel : nat) (messages : ArrayRef) (w : World) (reply : OpenAI.ReplyMessage) :
  AIService.openai (service w) <> None ->
  completions_create env (length (create_log w)) (ask_params env messages w)
  = inr (Some reply) ->
  requested_calls (default [] (OpenAI.reply_tool_calls reply)) = [] ->
  let outcome := Orchestrator.chat env (S fuel) messages w in
  fst outcome
  = Return (ChatMessage.mk assistant (default EmptyString (OpenAI.reply_content reply))
                           None None)
  /\ created_since w (snd outcome) = [ask_params env messages w]
  /\ fetched_since w (snd outcome) = [].
Proof.
  intros Hopenai Hreply Hcalls. cbv zeta. rewrite chat_step.
  destruct (AIService.openai (service w)); [| now elim Hopenai].
  cbv zeta. unfold model_answer. rewrite Hreply, Hcalls. cbn [fst snd].
  split; [reflexivity |]. unfold created_since, fetched_since, after_ask.
  cbn [create_log set_create_log fetch_log set_arrays set_dates_read].
  now rewrite drop_log, drop_all.
Qed.

Lemma reply_without_function_call_witness :
  let env := Scenario.environment Case.unreachable Case.custom_only in
  (AIService.openai (service Scenario.asked) <> None
   /\ requested_calls [OpenAI.ReplyCustom "call_1"] = [])
  /\ fst (Orchestrator.chat env 1 0 Scenario.asked)
     = Return (ChatMessage.mk assistant "Done." None None).
Proof.
  assert (H1 : AIService.openai (service Scenario.asked) <> None) by discriminate.
  split; [split; [exact H1 | reflexivity] |].
  exact (proj1 (reply_without_function_call_ends_the_turn
                  (Scenario.environment Case.unreachable Case.custom_only)
                  0 0 Scenario.asked
                  (OpenAI.mkReply (Some "Done.") (Some [OpenAI.ReplyCustom "call_1"]))
                  H1 eq_refl eq_refl)).
Defined.

(** X9.  [chat] itself puts no bound on the rounds of a turn: as long as
    the model answers every completion call with a call of a function,
    [chat] calls itself again, so that against such a model no number
    of rounds is enough for it to return, and [n] rounds make [n]
    completion calls. *)
Theorem chat_has_no_round_limit env (messages : ArrayRef) (w : World) :
  AIService.openai (service w) <> None ->
  (forall n p, exists reply,
       completions_create env n p = inr (Some reply)
       /\ requested_calls (default [] (OpenAI.reply_tool_calls reply)) <> []) ->
  forall fuel,
    let outcome := Orchestrator.chat env fuel messages w in
    fst outcome = OutOfFuel /\ length (created_since w (snd outcome)) = fuel.
Proof.
  intros Hopenai Hmodel fuel. revert messages w Hopenai.
  induction fuel as [|fuel IH]; intros messages w Hopenai; cbv zeta.
  - cbn [Orchestrator.chat fst snd]. unfold created_since. now rewrite drop_all.
  - rewrite chat_step. destruct (AIService.openai (service w)) eqn:Ho; [| now elim Hopenai].
    cbv zeta. unfold model_answer.
    destruct (Hmodel (length (create_log w)) (ask_params env messages w))
      as (reply & -> & Hcalls).
    destruct (requested_calls (default [] (OpenAI.reply_tool_calls reply)))
      as [|call calls] eqn:Hreq; [now elim Hcalls |].
    match goal with
    | |- context [Orchestrator.chat env fuel ?a ?w3] =>
        assert (H3 : create_log w3 = create_log w ++ [ask_params env messages w])
          by (unfold next_round; cbn [create_log set_arrays];
              now rewrite after_calls_create_log);
        assert (Hs : AIService.openai (service w3) <> None)
          by (unfold next_round; cbn [service set_arrays];
              rewrite after_calls_service; cbn; now rewrite Ho);
        destruct (IH a w3 Hs) as [Hout Hlen];
        rewrite (created_since_round env fuel messages w w3 a H3)
    end.
    split; [exact Hout |]. cbn [length]. now rewrite Hlen.
Qed.

Lemma chat_has_no_round_limit_witness :
  let env := Scenario.environment Case.tool_server Case.insistent in
  AIService.openai (service Scenario.asked) <> None
  /\ forall fuel,
      fst (Orchestrator.chat env fuel 0 Scenario.asked) = OutOfFuel
      /\ length (created_since Scenario.asked
                               (snd (Orchestrator.chat env fuel 0 Scenario.asked))) = fuel.
Proof.
  assert (H1 : AIService.openai (service Scenario.asked) <> None) by discriminate.
  split; [exact H1 |].
  refine (chat_has_no_round_limit
            (Scenario.environment Case.tool_server Case.insistent) 0 Scenario.asked H1 _).
  intros n p. eexists. split; [reflexivity | discriminate].
Defined.

Lemma after_ask_arrays env (messages : ArrayRef) (w : World) :
  arrays (after_ask env messages w)
  = arrays w ++ [with_system_context env w (history_of w messages)].
Proof. reflexivity. Qed.

(** The array [chat] recurses on holds the history and the message of
    the round, and is a cell of the heap. *)
Lemma next_round_history env (messages : ArrayRef) (w : World)
      (reply : OpenAI.ReplyMessage) calls :
  (messages < length (arrays w))%nat ->
  let w2 := after_calls (fst calls) (after_ask env messages w) in
  let w3 := next_round w2 (history_of w2 messages) reply calls in
  history_of w3 (length (arrays w2))
  = history_of w messages
      ++ [Orchestrator.assistantMsgWithToolCalls reply (fst calls) (snd calls)]
  /\ (length (arrays w2) < length (arrays w3))%nat.
Proof.
  intros Hlt. cbv zeta. unfold next_round. cbn [arrays set_arrays].
  rewrite after_calls_arrays, after_ask_arrays. split.
  - unfold history_of at 1. cbn [arrays set_arrays].
    rewrite lookup_last_cell. cbn [default from_option id]. f_equal.
    apply (history_of_prefix w _ [with_system_context env w (history_of w messages)]);
      [exact Hlt |].
    now rewrite after_calls_arrays, after_ask_arrays.
  - rewrite !length_app. cbn [length]. lia.
Qed.

(** X10.  The system context is made anew for every completion call of
    a turn: when the history is empty or starts with a message of
    another role than [system], the clock is read once for each
    completion call [chat] makes, all its rounds included; when the
    history starts with a system message the clock is never read,
    however many completion calls are made. *)
Theorem clock_is_read_for_every_completion
        env (fuel : nat) (messages : ArrayRef) (w : World) :
  (messages < length (arrays w))%nat ->
  let w' := snd (Orchestrator.chat env fuel messages w) in
  dates_read w'
  = match history_of w messages with
    | m :: _ =>
        match ChatMessage.role m with
        | system => dates_read w
        | _ => (dates_read w + length (created_since w w'))%nat
        end
    | [] => (dates_read w + length (created_since w w'))%nat
    end.
Proof.
  intros Hlt. cbv zeta.
  transitivity (if Orchestrator.hasSystemMessage (history_of w messages)
                then dates_read w
                else (dates_read w
                      + length (created_since w (snd (Orchestrator.chat env fuel messages w))))%nat).
  2:{ destruct (history_of w messages) as [|m history']; [reflexivity |].
      cbn [Orchestrator.hasSystemMessage]. destruct (ChatMessage.role m); reflexivity. }
  revert messages w Hlt. induction fuel as [|fuel IH]; intros messages w Hlt.
  - cbn [Orchestrator.chat snd]. unfold created_since. rewrite drop_all. cbn [length].
    destruct (Orchestrator.hasSystemMessage _); lia.
  - rewrite chat_step.
    assert (Hone : created_since w (after_ask env messages w) = [ask_params env messages w])
      by (unfold created_since, after_ask; cbn [create_log set_create_log];
          now rewrite drop_log).
    assert (Hd : dates_read (after_ask env messages w)
                 = if Orchestrator.hasSystemMessage (history_of w messages)
                   then dates_read w else S (dates_read w)) by reflexivity.
    destruct (AIService.openai (service w)).
    2:{ cbn [snd]. unfold created_since. rewrite drop_all. cbn [length].
        destruct (Orchestrator.hasSystemMessage _); lia. }
    cbv zeta.
    destruct (model_answer env messages w) as [reply|e|]; cbn [snd];
      try (rewrite Hone, Hd; destruct (Orchestrator.hasSystemMessage _); cbn [length]; lia).
    destruct (requested_calls (default [] (OpenAI.reply_tool_calls reply)))
      as [|call calls] eqn:Hreq; cbn [snd];
      [rewrite Hone, Hd; destruct (Orchestrator.hasSystemMessage _); cbn [length]; lia |].
    destruct (next_round_history env messages w reply
                (call :: calls,
                 tool_results env (default [] (OpenAI.reply_tool_calls reply))
                              (after_ask env messages w)) Hlt) as [Hhist Hlt3].
    cbn [fst snd] in Hhist, Hlt3.
    match goal with
    | |- context [Orchestrator.chat env fuel ?a ?w3] =>
        assert (H3 : create_log w3 = create_log w ++ [ask_params env messages w])
          by (unfold next_round; cbn [create_log set_arrays];
              now rewrite after_calls_create_log);
        assert (Hd3 : dates_read w3 = dates_read (after_ask env messages w))
          by (unfold next_round; cbn [dates_read set_arrays];
              now rewrite after_calls_dates);
        rewrite (IH a w3 Hlt3), (created_since_round env fuel messages w w3 a H3),
          Hhist, hasSystemMessage_snoc, Hd3, Hd
    end.
    destruct (Orchestrator.hasSystemMessage (history_of w messages)); cbn [length]; lia.
Qed.

(** Two rounds on a question read the clock twice; the same two rounds
    after a system message of the caller do not read it. *)
Lemma clock_is_read_witness :
  let env := Scenario.failing_tool in
  let w' := snd (Orchestrator.chat env 2 0 Scenario.asked) in
  let v' := snd (Orchestrator.chat env 2 0 Case.briefed) in
  ((0 < length (arrays Scenario.asked))%nat /\ (0 < length (arrays Case.briefed))%nat)
  /\ (length (created_since Scenario.asked w') = 2%nat
      /\ length (created_since Case.briefed v') = 2%nat)
  /\ (dates_read Scenario.asked = 0%nat /\ dates_read w' = 2%nat)
  /\ (dates_read Case.briefed = 0%nat /\ dates_read v' = 0%nat)
  /\ dates_read w'
     = match history_of Scenario.asked 0 with
       | m :: _ =>
           match ChatMessage.role m with
           | system => dates_read Scenario.asked
           | _ => (dates_read Scenario.asked + length (created_since Scenario.asked w'))%nat
           end
       | [] => (dates_read Scenario.asked + length (created_since Scenario.asked w'))%nat
       end
  /\ dates_read v'
     = match history_of Case.briefed 0 with
       | m :: _ =>
           match ChatMessage.role m with
           | system => dates_read Case.briefed
           | _ => (dates_read Case.briefed + length (created_since Case.briefed v'))%nat
           end
       | [] => (dates_read Case.briefed + length (created_since Case.briefed v'))%nat
       end.
Proof.
  assert (H1 : (0 < length (arrays Scenario.asked))%nat) by (cbn; lia).
  assert (H2 : (0 < length (arrays Case.briefed))%nat) by (cbn; lia).
  split; [split; assumption |].
  split; [split; vm_compute; reflexivity |].
  split; [split; vm_compute; reflexivity |].
  split; [split; vm_compute; reflexivity |].
  split.
  - exact (clock_is_read_for_every_completion Scenario.failing_tool 2 0 Scenario.asked H1).
  - exact (clock_is_read_for_every_completion Scenario.failing_tool 2 0 Case.briefed H2).
Defined.

(** ** The requests of a turn *)

Lemma tool_traffic_same (w w' : World) :
  client w' = client w -> fetch_log w' = fetch_log w -> tool_traffic w w'.
Proof.
  intros Hc Hl. unfold tool_traffic, fetched_since. cbv zeta.
  rewrite Hl, drop_all, app_nil_r, Hc. cbn [length N.of_nat].
  repeat split; [constructor |]. destruct (client w). cbn. f_equal. lia.
Qed.

Lemma ids_from_app (first : N) (n m : nat) :
  ids_from first (n + m) = ids_from first n ++ ids_from (first + N.of_nat n) m.
Proof.
  revert first. induction n as [|n IH]; intros first.
  - cbn [Nat.add N.of_nat]. now rewrite N.add_0_r.
  - cbn [Nat.add]. rewrite !ids_from_S, IH. cbn [app]. do 3 f_equal. lia.
Qed.

Lemma tool_traffic_trans (w1 w2 w3 : World) :
  tool_traffic w1 w2 -> tool_traffic w2 w3 -> tool_traffic w1 w3.
Proof.
  unfold tool_traffic. cbv zeta.
  set (new1 := fetched_since w1 w2). set (new2 := fetched_since w2 w3).
  intros (Hl1 & Hf1 & Hi1 & Hc1) (Hl2 & Hf2 & Hi2 & Hc2).
  assert (Hnew : fetched_since w1 w3 = new1 ++ new2)
    by (unfold fetched_since at 1; rewrite Hl2, Hl1, <- app_assoc; apply drop_log).
  rewrite Hnew, Hl2, Hl1, <- app_assoc. split; [reflexivity |].
  rewrite Hc1 in Hf2, Hi2, Hc2. cbn in Hf2, Hi2, Hc2.
  split; [| split].
  - apply Forall_app. split; [exact Hf1 |].
    eapply Forall_impl; [exact Hf2 |]. cbn. intros i H. exact H.
  - rewrite map_app, length_app, ids_from_app, Hi1, Hi2. reflexivity.
  - rewrite Hc2, length_app. f_equal. lia.
Qed.

Lemma tool_traffic_call (params : JSON) (w : World) :
  tool_traffic w (after_request "tools/call" params w).
Proof.
  unfold tool_traffic. cbv zeta.
  destruct (after_request_one "tools/call" params w) as (-> & Hc & _).
  split; [reflexivity |]. split; [repeat constructor |]. split; [| exact Hc].
  cbn. unfold request_id. cbn. reflexivity.
Qed.

Lemma tool_traffic_calls (calls : list ToolCall.t) (w : World) :
  tool_traffic w (after_calls calls w).
Proof.
  unfold after_calls. destruct (AIService.mcpClient (service w));
    [| now apply tool_traffic_same].
  revert w. induction calls as [|c calls IH]; intros w; [now apply tool_traffic_same |].
  cbn [fold_left]. eapply tool_traffic_trans; [apply tool_traffic_call | apply IH].
Qed.

Lemma chat_traffic env (fuel : nat) :
  forall (messages : ArrayRef) (w : World),
    tool_traffic w (snd (Orchestrator.chat env fuel messages w)).
Proof.
  induction fuel as [|fuel IH]; intros messages w; [now apply tool_traffic_same |].
  rewrite chat_step. destruct (AIService.openai (service w));
    [| now apply tool_traffic_same].
  cbv zeta.
  destruct (model_answer env messages w) as [reply|e|];
    try (now apply tool_traffic_same).
  destruct (requested_calls (default [] (OpenAI.reply_tool_calls reply)))
    as [|call calls]; [now apply tool_traffic_same |].
  eapply tool_traffic_trans; [| apply IH].
  eapply tool_traffic_trans; [apply (tool_traffic_same w (after_ask env messages w));
                              reflexivity |].
  eapply tool_traffic_trans; [apply (tool_traffic_calls (call :: calls)) |].
  now apply tool_traffic_same.
Qed.

(** X11.  A turn talks to the MCP server only to execute tools: every
    request [chat] makes, in all its rounds, is a [tools/call] posted to
    the URL of the client with its headers, the ids of these requests
    are consecutive from the counter of the client on, and [chat]
    leaves the URL and the key of the client as they were. *)
Theorem chat_only_calls_tools env (fuel : nat) (messages : ArrayRef) (w : World) :
  let w' := snd (Orchestrator.chat env fuel messages w) in
  let sent := fetched_since w w' in
  Forall (fun i => url i = MCPClient.serverUrl (client w)
                   /\ http_method i = "POST"
                   /\ headers i = Transport.request_headers (client w)
                   /\ MCPRequest.jsonrpc (body i) = "2.0"
                   /\ MCPRequest.method (body i) = "tools/call") sent
  /\ map request_id sent = ids_from (MCPClient.requestId (client w)) (length sent)
  /\ fetch_log w' = fetch_log w ++ sent
  /\ MCPClient.serverUrl (client w') = MCPClient.serverUrl (client w)
  /\ MCPClient.apiKey (client w') = MCPClient.apiKey (client w)
  /\ MCPClient.requestId (client w')
     = MCPClient.requestId (client w) + N.of_nat (length sent).
Proof.
  cbv zeta. destruct (chat_traffic env fuel messages w) as (Hl & Hf & Hi & Hc).
  rewrite Hc. cbn. auto 10.
Qed.

(** ** A service without a client *)

Lemma after_calls_no_client (calls : list ToolCall.t) (w : World) :
  AIService.mcpClient (service w) = None -> after_calls calls w = w.
Proof. unfold after_calls. now intros ->. Qed.

Lemma chat_no_client env (fuel : nat) :
  forall (messages : ArrayRef) (w : World),
    AIService.mcpClient (service w) = None ->
    fetch_log (snd (Orchestrator.chat env fuel messages w)) = fetch_log w
    /\ client (snd (Orchestrator.chat env fuel messages w)) = client w.
Proof.
  induction fuel as [|fuel IH]; intros messages w Hnone; [now split |].
  rewrite chat_step. destruct (AIService.openai (service w)); [| now split].
  cbv zeta. destruct (model_answer env messages w) as [reply|e|]; try now split.
  destruct (requested_calls (default [] (OpenAI.reply_tool_calls reply)))
    as [|call calls]; [now split |].
  rewrite (after_calls_no_client _ (after_ask env messages w) Hnone).
  match goal with
  | |- context [Orchestrator.chat env fuel ?a ?w3] =>
      destruct (IH a w3 Hnone) as [-> ->]
  end.
  now split.
Qed.

(** X12.  A service without an MCP client never reaches the network:
    every function call of a reply is recorded with the error result
    ['MCP client not initialized'] and leaves the world as it was,
    [fetchResource] throws that error, and a whole turn of [chat] makes
    no request and leaves the client untouched. *)
Theorem null_client_fails_every_call env (w : World) :
  AIService.mcpClient (service w) = None ->
  (forall acc id name arguments,
      Orchestrator.run_tool_call env acc (OpenAI.ReplyFunction id name arguments) w
      = (Return (fst acc ++ [ToolCall.mk id name
                               (default Json.empty_object (Json.parse arguments))],
                 snd acc ++ [ToolCallResult.mk id
                               (JObj [("error", JStr "MCP client not initialized")])]),
         w))
  /\ (forall uri,
         Orchestrator.fetchResource env uri w
         = (Throw (newError NotInitialized "MCP client not initialized"), w))
  /\ (forall fuel messages,
         let w' := snd (Orchestrator.chat env fuel messages w) in
         fetch_log w' = fetch_log w /\ client w' = client w).
Proof.
  intros Hnone. split; [| split].
  - intros acc id name arguments. rewrite run_tool_call_function. cbv zeta.
    unfold Orchestrator.executeToolCall, bind, gets, throw. now rewrite Hnone.
  - intros uri. unfold Orchestrator.fetchResource, bind, gets, throw. now rewrite Hnone.
  - intros fuel messages. cbv zeta. now apply chat_no_client.
Qed.

Lemma null_client_witness :
  AIService.mcpClient (service Case.no_client) = None
  /\ forall fuel,
      fetch_log (snd (Orchestrator.chat
                        (Scenario.environment Case.tool_server Case.insistent)
                        fuel 0 Case.no_client))
      = fetch_log Case.no_client.
Proof.
  assert (H : AIService.mcpClient (service Case.no_client) = None) by reflexivity.
  split; [exact H |]. intros fuel.
  exact (proj1 (proj2 (proj2 (null_client_fails_every_call
                                (Scenario.environment Case.tool_server Case.insistent)
                                Case.no_client H)) fuel 0%nat)).
Defined.

(** ** Tools on the wire *)

(** X13.  The functions offered to the model are the tools of the
    service, in order and under their names, with the defaults filled
    in: a description is never empty (a tool without one is described
    as ["Tool: <name>"]) and the parameters are never missing (a tool
    without an input schema takes an object without properties); a
    description and a schema that are given are passed on unchanged. *)
Theorem function_schemas_fill_the_defaults (w : World) :
  exists functions,
    Orchestrator.mcpToolsToOpenAIFunctions w = (Return functions, w)
    /\ map OpenAI.fn_name functions = map Tool.name (AIService.tools (service w))
    /\ Forall (fun f => JsString.truthy (OpenAI.fn_description f) = true
                        /\ Json.truthy (OpenAI.fn_parameters f) = true) functions
    /\ Forall2 (fun tool f =>
                  (forall d, Tool.description tool = Some d -> d <> EmptyString ->
                             OpenAI.fn_description f = d)
                  /\ (Tool.description tool = None ->
                      OpenAI.fn_description f = "Tool: " +:+ Tool.name tool)
                  /\ (forall schema, Tool.inputSchema tool = Some schema ->
                                     Json.truthy schema = true ->
                                     OpenAI.fn_parameters f = schema)
                  /\ (Tool.inputSchema tool = None ->
                      OpenAI.fn_parameters f
                      = JObj [("type", JStr "object"); ("properties", JObj [])]))
               (AIService.tools (service w)) functions.
Proof.
  eexists. split; [reflexivity |].
  induction (AIService.tools (service w)) as [|tool tools (IH1 & IH2 & IH3)];
    [repeat split; constructor |].
  cbn [map]. split; [now rewrite IH1 |]. split; constructor; auto.
  - unfold Orchestrator.function_of_tool. cbn. split.
    + destruct (Tool.description tool) as [[|c d]|]; reflexivity.
    + destruct (Tool.inputSchema tool) as [schema|]; [| reflexivity].
      now destruct (Json.truthy schema) eqn:Hs.
  - unfold Orchestrator.function_of_tool. cbn. repeat split.
    + intros d -> Hd. now destruct d.
    + now intros ->.
    + now intros schema -> ->.
    + now intros ->.
Qed.

Lemma with_system_context_snoc env (w : World) (history : list ChatMessage.t)
      (reply : OpenAI.ReplyMessage) calls results :
  with_system_context env w
    (history ++ [Orchestrator.assistantMsgWithToolCalls reply calls results])
  = with_system_context env w history
      ++ [Orchestrator.assistantMsgWithToolCalls reply calls results].
Proof.
  unfold with_system_context. rewrite hasSystemMessage_snoc.
  now destruct (Orchestrator.hasSystemMessage history).
Qed.

(** The wire form of the message of a round. *)
Lemma wire_of_round (reply : OpenAI.ReplyMessage) (call : ToolCall.t)
      (calls : list ToolCall.t) (results : list ToolCallResult.t) :
  Orchestrator.wire_of_message
    (Orchestrator.assistantMsgWithToolCalls reply (call :: calls) results)
  = OpenAI.Assistant (Orchestrator.reply_text reply)
      (Some (map (fun tc => OpenAI.mkFunctionCall (ToolCall.id tc) (ToolCall.name tc)
                              (Json.stringify (ToolCall.arguments tc)))
                 (call :: calls)))
      :: map (fun tcr => OpenAI.ToolMessage (ToolCallResult.toolCallId tcr)
                           (Json.stringify (ToolCallResult.result tcr)))
             results.
Proof. reflexivity. Qed.

(** X14.  What the model is sent after a round of tool calls.  When a
    reply requests function calls, the next completion call of the turn
    ends with the assistant message of the round, which carries these
    calls under the ids and names the model gave, followed by one tool
    message per call, in the order of the calls, each answering the id
    of its call. *)
Theorem tool_results_follow_their_calls
        env (fuel : nat) (messages : ArrayRef) (w : World) (reply : OpenAI.ReplyMessage) :
  AIService.openai (service w) <> None ->
  (messages < length (arrays w))%nat ->
  completions_create env (length (create_log w)) (ask_params env messages w)
  = inr (Some reply) ->
  let calls := requested_calls (default [] (OpenAI.reply_tool_calls reply)) in
  calls <> [] ->
  exists next rest context function_calls answers,
    created_since w (snd (Orchestrator.chat env (S (S fuel)) messages w))
    = ask_params env messages w :: next :: rest
    /\ OpenAI.messages next
       = context
           ++ OpenAI.Assistant (default EmptyString (OpenAI.reply_content reply))
                               (Some function_calls)
           :: answers
    /\ map OpenAI.fc_id function_calls = map ToolCall.id calls
    /\ map OpenAI.fc_name function_calls = map ToolCall.name calls
    /\ map answered_id answers = map (fun c => Some (ToolCall.id c)) calls.
Proof.
  intros Hopenai Hlt Hreply calls Hcalls. rewrite chat_step.
  destruct (AIService.openai (service w)) eqn:Ho; [| now elim Hopenai].
  cbv zeta. unfold model_answer. rewrite Hreply.
  pose proof (tool_results_ids env (default [] (OpenAI.reply_tool_calls reply))
                (after_ask env messages w)) as Hids.
  set (results := tool_results env (default [] (OpenAI.reply_tool_calls reply))
                               (after_ask env messages w)) in *.
  fold calls in Hids |- *.
  destruct calls as [|call calls'] eqn:Hreq; [now elim Hcalls |].
  destruct (next_round_history env messages w reply (call :: calls', results) Hlt)
    as [Hhist _].
  cbn [fst snd] in Hhist.
  match goal with
  | |- context [Orchestrator.chat env (S fuel) ?a ?w3] =>
      assert (H3 : create_log w3 = create_log w ++ [ask_params env messages w])
        by (unfold next_round; cbn [create_log set_arrays];
            now rewrite after_calls_create_log);
      assert (Hs : AIService.openai (service w3) <> None)
        by (unfold next_round; cbn [service set_arrays];
            rewrite after_calls_service; cbn; now rewrite Ho);
      rewrite (created_since_round env (S fuel) messages w w3 a H3);
      destruct (chat_first_request env fuel a w3 Hs) as (rest & Hlog);
      unfold created_since at 1; rewrite Hlog, drop_log;
      set (next := ask_params env a w3) in *
  end.
  exists next, rest,
    (flat_map Orchestrator.wire_of_message
       (with_system_context env
          (next_round (after_calls (call :: calls') (after_ask env messages w))
             (history_of (after_calls (call :: calls') (after_ask env messages w)) messages)
             reply (call :: calls', results))
          (history_of w messages))).
  eexists _, _. split; [reflexivity |]. split.
  - subst next. unfold ask_params at 1. cbn [OpenAI.messages Orchestrator.create_params].
    rewrite Hhist, with_system_context_snoc, flat_map_app.
    cbn [flat_map]. rewrite app_nil_r, wire_of_round. reflexivity.
  - split; [now rewrite map_map |]. split; [now rewrite map_map |].
    rewrite map_map. cbn [answered_id].
    rewrite <- (map_map ToolCall.id Some), <- Hids, map_map. reflexivity.
Qed.

Lemma tool_results_follow_witness :
  let env := Scenario.failing_tool in
  let reply :=
    OpenAI.mkReply None
      (Some [OpenAI.ReplyFunction "call_1" "getResourceSchedule" "{resourceId"]) in
  (AIService.openai (service Scenario.asked) <> None
   /\ (0 < length (arrays Scenario.asked))%nat
   /\ requested_calls (default [] (OpenAI.reply_tool_calls reply))
      = [ToolCall.mk "call_1" "getResourceSchedule" (JObj [])])
  /\ exists next rest context function_calls answers,
      created_since Scenario.asked (snd (Orchestrator.chat env 2 0 Scenario.asked))
      = ask_params env 0 Scenario.asked :: next :: rest
      /\ OpenAI.messages next
         = context
             ++ OpenAI.Assistant (default EmptyString (OpenAI.reply_content reply))
                                 (Some function_calls)
             :: answers
      /\ map OpenAI.fc_id function_calls
         = map ToolCall.id (requested_calls (default [] (OpenAI.reply_tool_calls reply)))
      /\ map OpenAI.fc_name function_calls
         = map ToolCall.name (requested_calls (default [] (OpenAI.reply_tool_calls reply)))
      /\ map answered_id answers
         = map (fun c => Some (ToolCall.id c))
               (requested_calls (default [] (OpenAI.reply_tool_calls reply))).
Proof.
  assert (H1 : AIService.openai (service Scenario.asked) <> None) by discriminate.
  assert (H2 : (0 < length (arrays Scenario.asked))%nat) by (cbn; lia).
  assert (H3 : requested_calls
                 (default [] (OpenAI.reply_tool_calls
                                (OpenAI.mkReply None
                                   (Some [OpenAI.ReplyFunction "call_1" "getResourceSchedule"
                                                               "{resourceId"]))))
               <> []) by (vm_compute; discriminate).
  split; [split; [exact H1 | split; [exact H2 | vm_compute; reflexivity]] |].
  exact (tool_results_follow_their_calls Scenario.failing_tool 0 0 Scenario.asked
           (OpenAI.mkReply None
              (Some [OpenAI.ReplyFunction "call_1" "getResourceSchedule" "{resourceId"]))
           H1 H2 eq_refl H3).
Defined.

(* ================================================================== *)
(** * The failure of a tool, and the system context                     *)
(* ================================================================== *)

(** The world a round of tool calls leaves has the completion log of
    the world [ask_model] left. *)
Lemma run_tool_calls_create_log env (tool_calls : list OpenAI.ReplyToolCall) acc
      (w w' : World) r :
  Orchestrator.run_tool_calls env acc tool_calls w = (r, w') ->
  create_log w' = create_log w /\ service w' = service w.
Proof.
  intros Hrun.
  destruct (run_tool_calls_returns env tool_calls acc w) as (_ & _ & _ & _ & Hw).
  rewrite Hrun in Hw. cbn [snd] in Hw. destruct Hw as (Hs & _ & _ & Hc & _). auto.
Qed.

(** C2.  In a call of [chat] in which the model asks for a tool whose
    execution fails with [error], the loop over the calls returns and
    the result [{toolCallId, result: {error: message}}] is among the
    results of the round, under the id of the call.  [chat] goes on
    with the history followed by one assistant message, whose
    [toolCalls] and [toolCallResults] are the calls and the results of
    the round, the failed call and its error result among them.  The
    next completion call carries them: its messages end with the
    assistant message and its tool calls, that of the failed call among
    them, followed by the tool messages, among which the one that
    answers the id of the failed call with the error.  [chat] returns
    the answer of the model when it then answers without a tool call;
    whatever [chat] throws comes from the model, never from a tool. *)
Theorem failing_tool_is_recorded_not_raised
        env (fuel : nat) (messages : ArrayRef) (w w0 w1 w2 : World)
        (reply : OpenAI.ReplyMessage) (before after : list OpenAI.ReplyToolCall)
        (id name arguments : string) acc (error : Thrown) :
  AIService.openai (service w) <> None ->
  (messages < length (arrays w))%nat ->
  Orchestrator.ask_model env messages w = (Return reply, w0) ->
  default [] (OpenAI.reply_tool_calls reply)
  = before ++ OpenAI.ReplyFunction id name arguments :: after ->
  Orchestrator.run_tool_calls env ([], []) before w0 = (Return acc, w1) ->
  Orchestrator.executeToolCall env name (default Json.empty_object (Json.parse arguments)) w1
  = (Throw error, w2) ->
  let failed_call :=
    ToolCall.mk id name (default Json.empty_object (Json.parse arguments)) in
  let failure :=
    JObj [("error", JStr (if instanceofError error then message error
                          else "Unknown error"))] in
  exists calls w3,
    Orchestrator.run_tool_calls env ([], []) (default [] (OpenAI.reply_tool_calls reply)) w0
    = (Return calls, w3)
    /\ In (error_result id error) (snd calls)
    /\ In failed_call (fst calls)
    /\ In (ToolCallResult.mk id failure) (snd calls)
    /\ (let updatedMessages := length (arrays w3) in
        let w4 := next_round w3 (history_of w messages) reply calls in
        Orchestrator.chat env (S fuel) messages w
        = Orchestrator.chat env fuel updatedMessages w4
        /\ history_of w4 updatedMessages
           = history_of w messages
               ++ [Orchestrator.assistantMsgWithToolCalls reply (fst calls) (snd calls)]
        /\ history_of w4 updatedMessages
           = history_of w messages
               ++ [ChatMessage.mk assistant
                     (default EmptyString (OpenAI.reply_content reply))
                     (Some (fst calls)) (Some (snd calls))]
        /\ (exists next rest context function_calls answers,
               created_since w (snd (Orchestrator.chat env (S (S fuel)) messages w))
               = ask_params env messages w :: next :: rest
               /\ OpenAI.messages next
                  = context
                      ++ OpenAI.Assistant (default EmptyString (OpenAI.reply_content reply))
                                          (Some function_calls)
                      :: answers
               /\ In (OpenAI.mkFunctionCall id name
                        (Json.stringify (default Json.empty_object (Json.parse arguments))))
                     function_calls
               /\ In (OpenAI.ToolMessage id (Json.stringify failure)) answers)
        /\ forall answer w5,
            Orchestrator.ask_model env updatedMessages w4 = (Return answer, w5) ->
            default [] (OpenAI.reply_tool_calls answer) = [] ->
            Orchestrator.chat env (S (S fuel)) messages w
            = (Return (Orchestrator.final_message answer [] []), w5))
    /\ forall n e w',
        Orchestrator.chat env n messages w = (Throw e, w') -> fatal_to_chat e /\ e <> error.
Proof.
  intros Ho Hv Hask Hcalls Hbefore Hexec failed_call failure.
  pose proof (run_tool_call_function env acc id name arguments w1) as Hone.
  cbv zeta in Hone. rewrite Hexec in Hone.
  destruct (run_tool_calls_returns env after
              (fst acc ++ [ToolCall.mk id name (default Json.empty_object (Json.parse arguments))],
               snd acc ++ [error_result id error]) w2)
    as (calls & Hr & (cs & rs & Hext) & _).
  destruct (Orchestrator.run_tool_calls env _ after w2) as [r w3] eqn:Hafter.
  cbn [fst snd] in Hr, Hext. subst r.
  assert (Hrun : Orchestrator.run_tool_calls env ([], [])
                   (default [] (OpenAI.reply_tool_calls reply)) w0 = (Return calls, w3)).
  { rewrite Hcalls, run_tool_calls_app. unfold bind. rewrite Hbefore.
    cbn [Orchestrator.run_tool_calls]. unfold bind. rewrite Hone. exact Hafter. }
  assert (Hne : fst calls <> []).
  { rewrite Hext. cbn [fst]. intros H. apply app_eq_nil in H as [H _].
    apply app_eq_nil in H as [_ H]. discriminate. }
  assert (Hresult : In (ToolCallResult.mk id failure) (snd calls)).
  { rewrite Hext. cbn [snd]. rewrite !in_app_iff. left. right. now left. }
  assert (Hcall : In failed_call (fst calls)).
  { rewrite Hext. cbn [fst]. rewrite !in_app_iff. left. right. now left. }
  exists calls, w3. split; [exact Hrun |]. split; [exact Hresult |].
  split; [exact Hcall |]. split; [exact Hresult |].
  split.
  2:{ intros n e w' Hthrow. pose proof (chat_throws env n messages w e w' Hthrow) as Hfatal.
      split; [exact Hfatal |]. intros ->.
      apply (thrown_by_tool_not_fatal error); [| exact Hfatal].
      exact (executeToolCall_throws env _ _ _ _ _ Hexec). }
  cbv zeta.
  pose proof (chat_round env fuel messages w w0 w3 reply calls Ho Hv Hask Hrun Hne) as Hround.
  assert (Hh : history_of (next_round w3 (history_of w messages) reply calls)
                          (length (arrays w3))
               = history_of w messages
                   ++ [Orchestrator.assistantMsgWithToolCalls reply (fst calls) (snd calls)]).
  { unfold history_of, next_round. cbn [arrays set_arrays]. now rewrite lookup_last_cell. }
  assert (Hs3 : AIService.openai
                  (service (next_round w3 (history_of w messages) reply calls)) <> None).
  { cbn [next_round service set_arrays].
    destruct (run_tool_calls_create_log env _ _ _ _ _ Hrun) as [_ ->].
    rewrite ask_model_eq in Hask. injection Hask as _ <-. exact Ho. }
  split; [exact Hround |]. split; [exact Hh |]. split; [exact Hh |]. split.
  - rewrite (chat_round env (S fuel) messages w w0 w3 reply calls Ho Hv Hask Hrun Hne).
    destruct (chat_first_request env fuel (length (arrays w3))
                (next_round w3 (history_of w messages) reply calls) Hs3) as (rest & Hlog).
    assert (Hc3 : create_log (next_round w3 (history_of w messages) reply calls)
                  = create_log w ++ [ask_params env messages w]).
    { cbn [next_round create_log set_arrays].
      destruct (run_tool_calls_create_log env _ _ _ _ _ Hrun) as [-> _].
      rewrite ask_model_eq in Hask. injection Hask as _ <-. reflexivity. }
    set (next := ask_params env (length (arrays w3))
                   (next_round w3 (history_of w messages) reply calls)) in *.
    destruct (fst calls) as [|call calls'] eqn:Hfst; [now elim Hne |].
    exists next, rest,
      (flat_map Orchestrator.wire_of_message
         (with_system_context env (next_round w3 (history_of w messages) reply calls)
            (history_of w messages))).
    eexists _, _. split; [| split; [| split]].
    + unfold created_since. rewrite Hlog, Hc3, <- app_assoc. now rewrite drop_log.
    + subst next. unfold ask_params at 1.
      cbn [OpenAI.messages Orchestrator.create_params].
      rewrite Hh, ?Hfst, with_system_context_snoc, flat_map_app.
      cbn [flat_map]. rewrite app_nil_r, wire_of_round. reflexivity.
    + apply (in_map (fun tc => OpenAI.mkFunctionCall (ToolCall.id tc) (ToolCall.name tc)
                                 (Json.stringify (ToolCall.arguments tc)))) in Hcall.
      exact Hcall.
    + apply (in_map (fun tcr => OpenAI.ToolMessage (ToolCallResult.toolCallId tcr)
                                  (Json.stringify (ToolCallResult.result tcr)))) in Hresult.
      exact Hresult.
  - intros answer w5 Hanswer Hnone.
    rewrite (chat_round env (S fuel) messages w w0 w3 reply calls Ho Hv Hask Hrun Hne).
    apply chat_answer; [exact Hs3 | exact Hanswer | exact Hnone].
Qed.

(** A server that is down behind a model that asks once for a tool: the
    error is recorded under the id of the call, the second completion
    call ends with the call and the tool message of its error, and the
    turn ends with the answer of the model. *)
Lemma failing_tool_witness :
  let env := Scenario.failing_tool in
  let reply :=
    OpenAI.mkReply None
      (Some [OpenAI.ReplyFunction "call_1" "getResourceSchedule" "{resourceId"]) in
  let w0 := snd (Orchestrator.ask_model env 0 Scenario.asked) in
  let error := newError TransportError "HTTP error! status: 500" in
  let question := "What is the schedule of X?" in
  (AIService.openai (service Scenario.asked) <> None
   /\ (0 < length (arrays Scenario.asked))%nat
   /\ Orchestrator.ask_model env 0 Scenario.asked = (Return reply, w0)
   /\ Orchestrator.executeToolCall env "getResourceSchedule" Json.empty_object w0
      = (Throw error,
         after_request "tools/call"
           (JObj [("name", JStr "getResourceSchedule"); ("arguments", Json.empty_object)]) w0))
  /\ (exists calls w3,
         Orchestrator.run_tool_calls env ([], []) (default [] (OpenAI.reply_tool_calls reply)) w0
         = (Return calls, w3)
         /\ In (error_result "call_1" error) (snd calls)
         /\ In (ToolCallResult.mk "call_1"
                  (JObj [("error", JStr "HTTP error! status: 500")])) (snd calls)
         /\ history_of (next_round w3 (history_of Scenario.asked 0) reply calls)
                       (length (arrays w3))
            = history_of Scenario.asked 0
                ++ [ChatMessage.mk assistant EmptyString (Some (fst calls)) (Some (snd calls))])
  /\ (exists next rest context function_calls answers,
         created_since Scenario.asked (snd (Orchestrator.chat env 2 0 Scenario.asked))
         = ask_params env 0 Scenario.asked :: next :: rest
         /\ OpenAI.messages next
            = context ++ OpenAI.Assistant EmptyString (Some function_calls) :: answers
         /\ In (OpenAI.mkFunctionCall "call_1" "getResourceSchedule"
                  (Json.stringify Json.empty_object)) function_calls
         /\ In (OpenAI.ToolMessage "call_1"
                  (Json.stringify (JObj [("error", JStr "HTTP error! status: 500")])))
               answers)
  /\ map OpenAI.messages
         (created_since Scenario.asked (snd (Orchestrator.chat env 2 0 Scenario.asked)))
     = [[OpenAI.Plain system (Orchestrator.system_context Scenario.noon);
         OpenAI.Plain user question];
        [OpenAI.Plain system (Orchestrator.system_context Scenario.noon);
         OpenAI.Plain user question;
         OpenAI.Assistant EmptyString
           (Some [OpenAI.mkFunctionCall "call_1" "getResourceSchedule" "{}"]);
         OpenAI.ToolMessage "call_1" (Scenario.dq "{'error':'HTTP error! status: 500'}")]]
  /\ fst (Orchestrator.chat env 2 0 Scenario.asked)
     = Return (ChatMessage.mk assistant "The schedule is not available." None None).
Proof.
  cbv zeta.
  assert (H1 : AIService.openai (service Scenario.asked) <> None) by discriminate.
  assert (H2 : (0 < length (arrays Scenario.asked))%nat) by (vm_compute; lia).
  assert (H3 : Orchestrator.ask_model Scenario.failing_tool 0 Scenario.asked
               = (Return (OpenAI.mkReply None
                            (Some [OpenAI.ReplyFunction "call_1" "getResourceSchedule"
                                                        "{resourceId"])),
                  snd (Orchestrator.ask_model Scenario.failing_tool 0 Scenario.asked)))
    by (vm_compute; reflexivity).
  assert (H4 : Orchestrator.executeToolCall Scenario.failing_tool "getResourceSchedule"
                 (default Json.empty_object (Json.parse "{resourceId"))
                 (snd (Orchestrator.ask_model Scenario.failing_tool 0 Scenario.asked))
               = (Throw (newError TransportError "HTTP error! status: 500"),
                  after_request "tools/call"
                    (JObj [("name", JStr "getResourceSchedule");
                           ("arguments", Json.empty_object)])
                    (snd (Orchestrator.ask_model Scenario.failing_tool 0 Scenario.asked))))
    by (vm_compute; reflexivity).
  split; [repeat split; assumption |].
  destruct (failing_tool_is_recorded_not_raised
              Scenario.failing_tool 0 0 Scenario.asked _ _ _ _ [] [] "call_1"
              "getResourceSchedule" "{resourceId" ([], []) _ H1 H2 H3 eq_refl eq_refl H4)
    as (calls & w3 & Hrun & Hin & _ & Hresult & (_ & _ & Hhistory & Hnext & _) & _).
  split; [exists calls, w3; repeat split; assumption |].
  split; [exact Hnext |].
  split; vm_compute; reflexivity.
Defined.

(** C5.  In a call of [chat] on a history that is an array of the
    heap.  When the history starts with a system message, the messages
    of the first completion call are the wire form of the history and
    nothing else.  Otherwise they are that wire form after one system
    message, whose text is the identity of the assistant, the current
    reading of the clock (ISO date and time, date, time) and the fixed
    instructions.  Every array that existed before the call, the
    history of the caller among them, is unchanged after it.  A round
    that called tools recurses on the history followed by the assistant
    message of the round only; the completion call of that round is
    again the wire form of these messages, after a system message made
    for the reading of the clock at that time unless the history starts
    with a system message. *)
Theorem system_context_is_for_the_wire_only
        env (fuel : nat) (messages : ArrayRef) (w : World) :
  AIService.openai (service w) <> None ->
  (messages < length (arrays w))%nat ->
  let history := history_of w messages in
  let w' := snd (Orchestrator.chat env (S fuel) messages w) in
  let context (now : Moment) :=
    OpenAI.Plain system
      ("You are an AI assistant integrated with the Dime.Scheduler MCP (Model Context Protocol) server.

Current Date and Time:
- ISO DateTime: " +:+ toISOString now +:+ "
- Date: " +:+ toLocaleDateString now +:+ "
- Time: " +:+ toLocaleTimeString now +:+ "

You have access to tools and resources from the Dime.Scheduler MCP server. When users ask questions about scheduling, resources, or related topics, you can use the available MCP tools to fetch real-time information and perform actions.

Always be helpful, accurate, and provide clear explanations. When using tools, explain what you're doing to help the user understand the process.") in
  let payload (now : Moment) (sent : list ChatMessage.t) :=
    match history with
    | m :: _ =>
        match ChatMessage.role m with
        | system => flat_map Orchestrator.wire_of_message sent
        | _ => context now :: flat_map Orchestrator.wire_of_message sent
        end
    | [] => context now :: flat_map Orchestrator.wire_of_message sent
    end in
  (exists first rest,
      created_since w w' = first :: rest
      /\ OpenAI.messages first
         = flat_map Orchestrator.wire_of_message
             (if Orchestrator.hasSystemMessage history then history
              else Orchestrator.system_message (Date_now env (dates_read w)) :: history)
      /\ OpenAI.messages first = payload (Date_now env (dates_read w)) history)
  /\ (forall a, (a < length (arrays w))%nat -> arrays w' !! a = arrays w !! a)
  /\ history_of w' messages = history
  /\ (forall reply w1 calls w2,
         Orchestrator.ask_model env messages w = (Return reply, w1) ->
         Orchestrator.run_tool_calls env ([], [])
           (default [] (OpenAI.reply_tool_calls reply)) w1 = (Return calls, w2) ->
         fst calls <> [] ->
         let updatedMessages := length (arrays w2) in
         let w3 := next_round w2 history reply calls in
         let made :=
           ChatMessage.mk assistant (default EmptyString (OpenAI.reply_content reply))
                          (Some (fst calls)) (Some (snd calls)) in
         Orchestrator.chat env (S fuel) messages w
         = Orchestrator.chat env fuel updatedMessages w3
         /\ history_of w3 updatedMessages
            = history ++ [Orchestrator.assistantMsgWithToolCalls reply (fst calls) (snd calls)]
         /\ history_of w3 updatedMessages = history ++ [made]
         /\ Orchestrator.hasSystemMessage (history_of w3 updatedMessages)
            = Orchestrator.hasSystemMessage history
         /\ forall fuel',
             exists next rest,
               created_since w3 (snd (Orchestrator.chat env (S fuel') updatedMessages w3))
               = next :: rest
               /\ OpenAI.messages next
                  = payload (Date_now env (dates_read w3)) (history ++ [made])).
Proof.
  intros Ho Hv. cbv zeta.
  destruct (chat_effect env (S fuel) messages w) as (_ & _ & (more & Hmore & _) & _).
  split; [| split; [| split]].
  - destruct (chat_first_request env fuel messages w Ho) as [rest Hlog].
    exists (ask_params env messages w), rest. unfold created_since.
    rewrite Hlog, drop_log. split; [reflexivity |]. split; [reflexivity |].
    unfold ask_params, with_system_context.
    cbn [OpenAI.messages Orchestrator.create_params].
    destruct (history_of w messages) as [|m history']; [reflexivity |].
    cbn [Orchestrator.hasSystemMessage]. destruct (ChatMessage.role m); reflexivity.
  - intros a Ha. now rewrite Hmore, lookup_app_l.
  - eapply history_of_prefix; eassumption.
  - intros reply w1 calls w2 Hask Hrun Hne. cbv zeta.
    assert (Hh : history_of (next_round w2 (history_of w messages) reply calls)
                            (length (arrays w2))
                 = history_of w messages
                     ++ [Orchestrator.assistantMsgWithToolCalls reply (fst calls) (snd calls)]).
    { unfold history_of, next_round. cbn [arrays set_arrays]. now rewrite lookup_last_cell. }
    split; [now apply (chat_round env fuel messages w w1 w2) |]. split; [exact Hh |].
    split; [exact Hh |]. split; [rewrite Hh; apply hasSystemMessage_snoc |].
    intros fuel'.
    assert (Hs3 : AIService.openai
                    (service (next_round w2 (history_of w messages) reply calls)) <> None).
    { cbn [next_round service set_arrays].
      destruct (run_tool_calls_create_log env _ _ _ _ _ Hrun) as [_ ->].
      rewrite ask_model_eq in Hask. injection Hask as _ <-. exact Ho. }
    destruct (chat_first_request env fuel' (length (arrays w2))
                (next_round w2 (history_of w messages) reply calls) Hs3) as [rest Hlog].
    eexists _, rest. unfold created_since. rewrite Hlog, drop_log.
    split; [reflexivity |].
    unfold ask_params. cbn [OpenAI.messages Orchestrator.create_params].
    rewrite Hh, with_system_context_snoc. unfold with_system_context.
    destruct (history_of w messages) as [|m history']; [reflexivity |].
    cbn [Orchestrator.hasSystemMessage]. destruct (ChatMessage.role m); reflexivity.
Qed.

(** The question of the user, without a system message: the system
    message of the moment is sent ahead of it, and the array of the
    caller still holds the question alone after two rounds.  The same
    question after a system message of the caller: the history is sent
    as it is.  Both completion calls of the turn start that way. *)
Lemma system_context_witness :
  let env := Scenario.failing_tool in
  let w' := snd (Orchestrator.chat env 2 0 Scenario.asked) in
  let context :=
    OpenAI.Plain system
      ("You are an AI assistant integrated with the Dime.Scheduler MCP (Model Context Protocol) server.

Current Date and Time:
- ISO DateTime: 2026-01-01T12:00:00.000Z
- Date: Thursday, January 1, 2026
- Time: 12:00:00 PM UTC

You have access to tools and resources from the Dime.Scheduler MCP server. When users ask questions about scheduling, resources, or related topics, you can use the available MCP tools to fetch real-time information and perform actions.

Always be helpful, accurate, and provide clear explanations. When using tools, explain what you're doing to help the user understand the process.") in
  (AIService.openai (service Scenario.asked) <> None
   /\ (0 < length (arrays Scenario.asked))%nat
   /\ AIService.openai (service Case.briefed) <> None
   /\ (0 < length (arrays Case.briefed))%nat)
  /\ history_of w' 0 = [ChatMessage.mk user "What is the schedule of X?" None None]
  /\ (exists first rest,
         created_since Scenario.asked w' = first :: rest
         /\ OpenAI.messages first
            = [context; OpenAI.Plain user "What is the schedule of X?"])
  /\ (exists first rest,
         created_since Case.briefed (snd (Orchestrator.chat env 2 0 Case.briefed))
         = first :: rest
         /\ OpenAI.messages first
            = [OpenAI.Plain system "Be brief.";
               OpenAI.Plain user "What is the schedule of X?"])
  /\ map (fun p => hd_error (OpenAI.messages p)) (created_since Scenario.asked w')
     = [Some context; Some context]
  /\ map (fun p => hd_error (OpenAI.messages p))
         (created_since Case.briefed (snd (Orchestrator.chat env 2 0 Case.briefed)))
     = [Some (OpenAI.Plain system "Be brief."); Some (OpenAI.Plain system "Be brief.")].
Proof.
  cbv zeta.
  assert (H1 : AIService.openai (service Scenario.asked) <> None) by discriminate.
  assert (H2 : (0 < length (arrays Scenario.asked))%nat) by (vm_compute; lia).
  assert (H3 : AIService.openai (service Case.briefed) <> None) by discriminate.
  assert (H4 : (0 < length (arrays Case.briefed))%nat) by (vm_compute; lia).
  split; [repeat split; assumption |].
  destruct (system_context_is_for_the_wire_only Scenario.failing_tool 1 0 Scenario.asked H1 H2)
    as ((first & rest & Hlog & _ & Hfirst) & _ & Hh & _).
  split; [exact Hh |]. split; [exists first, rest; split; [exact Hlog | exact Hfirst] |].
  destruct (system_context_is_for_the_wire_only Scenario.failing_tool 1 0 Case.briefed H3 H4)
    as ((first' & rest' & Hlog' & _ & Hfirst') & _).
  split; [exists first', rest'; split; [exact Hlog' | exact Hfirst'] |].
  split; vm_compute; reflexivity.
Defined.

(* ================================================================== *)
(** * Further properties of the session store                           *)
(* ================================================================== *)

(** ** Requests and the store *)

Lemma pure_ret {A} (a : A) : pure_outcome (ret a).
Proof. now exists (Return a). Qed.

Lemma pure_throw {A} (e : Thrown) : pure_outcome (@throw A e).
Proof. now exists (Throw e). Qed.

Lemma pure_bind {A B} (m : M A) (k : A -> M B) :
  pure_outcome m -> (forall a, pure_outcome (k a)) -> pure_outcome (bind m k).
Proof.
  intros [r Hm] Hk. unfold bind. destruct r as [a|e|].
  - destruct (Hk a) as [r' Hr']. exists r'. intros w. now rewrite Hm, Hr'.
  - exists (Throw e). intros w. now rewrite Hm.
  - exists OutOfFuel. intros w. now rewrite Hm.
Qed.

Lemma pure_read_envelope env (data : JSON) : pure_outcome (Transport.read_envelope env data).
Proof.
  unfold Transport.read_envelope, Transport.read_result.
  repeat case_match; first [apply pure_ret | apply pure_throw].
Qed.

Lemma pure_after_fetch env (response : Response) : pure_outcome (after_fetch env response).
Proof.
  unfold after_fetch. destruct (negb (ok response)); [apply pure_throw |].
  apply pure_bind.
  - eexists. intros w. rewrite parseSSEResponse_eq. reflexivity.
  - intros responseText. apply pure_bind; [| intros data; apply pure_read_envelope].
    repeat case_match; first [apply pure_ret | apply pure_throw].
Qed.

Lemma after_fetch_any_world env (response : Response) (w w' : World) :
  fst (after_fetch env response w) = fst (after_fetch env response w').
Proof. destruct (pure_after_fetch env response) as [r Hr]. now rewrite !Hr. Qed.

(** The outcome of a request depends on the client and on the number of
    calls of [fetch] made so far, and on nothing else of the world. *)
Lemma request_any_store env (method : string) (params : JSON) (s : Store.t) (w : World) :
  Transport.request env method params (set_store s w)
  = (fst (Transport.request env method params w),
     set_store s (snd (Transport.request env method params w))).
Proof.
  rewrite !request_unfold. cbn [fst snd].
  change (fetch_log (set_store s w)) with (fetch_log w).
  change (sent_by_request method params (set_store s w))
    with (sent_by_request method params w).
  destruct (fetch env (length (fetch_log w)) (sent_by_request method params w))
    as [r|response]; [reflexivity |].
  f_equal. apply after_fetch_any_world.
Qed.

Lemma initialize_any_store env (s : Store.t) (w : World) :
  Transport.initialize env (set_store s w)
  = (fst (Transport.initialize env w), set_store s (snd (Transport.initialize env w))).
Proof. unfold Transport.initialize. rewrite !try_catch_rethrow. apply request_any_store. Qed.

Lemma listTools_any_store env (server : option string) (s : Store.t) (w : World) :
  Transport.listTools env server (set_store s w)
  = (fst (Transport.listTools env server w),
     set_store s (snd (Transport.listTools env server w))).
Proof.
  rewrite !listTools_outcome, request_any_store.
  destruct (Transport.request env "tools/list" (Transport.with_server [] server) w)
    as [[result|error|] w']; reflexivity.
Qed.

(** ** [loadTools] *)

Lemma loadTools_eq env (w : World) :
  Store.mcpClient (store w) <> None ->
  Session.loadTools env w
  = (Return tt,
     match Transport.listTools env None w with
     | (Return result, w1) => tools_listed (default [] (ListToolsResult.tools result)) w1
     | (_, w1) => snd (Session.set_tools [] w1)
     end).
Proof.
  intros Hc. unfold Session.loadTools, bind, gets, try_catch.
  destruct (Store.mcpClient (store w)) as [[]|]; [| now elim Hc].
  destruct (listTools_frame env None w) as (_ & Hstore & _).
  pose proof (finishes_request env "tools/list" (Transport.with_server [] None) w) as Hf.
  rewrite listTools_outcome in Hstore |- *.
  destruct (Transport.request env "tools/list" (Transport.with_server [] None) w)
    as [[result|error|] w1]; [| | now elim Hf].
  - cbn [snd] in Hstore. unfold tools_listed. rewrite Hstore.
    unfold Session.set_tools, Orchestrator.setTools, modify, ret. cbv zeta.
    cbn [snd fst store set_store].
    destruct (Store.aiService (store w)) as [[]|]; [| reflexivity].
    destruct (0 <? length _)%nat; reflexivity.
  - destruct (Transport.method_not_available (message error)); [| reflexivity].
    cbn [snd] in Hstore. unfold tools_listed. rewrite Hstore.
    unfold Session.set_tools, Orchestrator.setTools, modify, ret. cbv zeta.
    cbn [snd fst store set_store ListToolsResult.tools default length Nat.ltb Nat.leb].
    destruct (Store.aiService (store w)) as [[]|]; reflexivity.
Qed.

Lemma loadTools_returns env (w : World) : fst (Session.loadTools env w) = Return tt.
Proof.
  destruct (Store.mcpClient (store w)) as [c|] eqn:Hc.
  - rewrite loadTools_eq; [reflexivity | now rewrite Hc].
  - unfold Session.loadTools, bind, gets. now rewrite Hc.
Qed.

(** X15.  [loadTools] never rejects, and what a listing that fails
    costs is the tool list of the store only: the store then lists no
    tool, while the orchestrator keeps offering the tools it knew.
    Without a client [loadTools] does nothing, and without a service a
    listing only fills the store. *)
Theorem loadTools_never_rejects env (w : World) :
  fst (Session.loadTools env w) = Return tt
  /\ (Store.mcpClient (store w) = None -> snd (Session.loadTools env w) = w)
  /\ (Store.mcpClient (store w) <> None ->
      forall error w1,
        Transport.listTools env None w = (Throw error, w1) ->
        let w' := snd (Session.loadTools env w) in
        Store.tools (store w') = []
        /\ AIService.tools (service w') = AIService.tools (service w)
        /\ fetched_since w w' = [sent_by_request "tools/list" (JObj []) w])
  /\ (Store.mcpClient (store w) <> None ->
      Store.aiService (store w) = None ->
      forall result w1,
        Transport.listTools env None w = (Return result, w1) ->
        let w' := snd (Session.loadTools env w) in
        Store.tools (store w') = default [] (ListToolsResult.tools result)
        /\ service w' = service w).
Proof.
  split; [apply loadTools_returns | split; [| split]].
  - intros Hc. unfold Session.loadTools, bind, gets. now rewrite Hc.
  - intros Hc error w1 Hlist. cbv zeta. rewrite (loadTools_eq env w Hc), Hlist. cbn [snd].
    pose proof (listTools_world env None w) as Hw. rewrite Hlist in Hw. cbn [snd] in Hw.
    subst w1. repeat split.
    unfold fetched_since, Session.set_tools, modify, after_request.
    cbn [snd fetch_log set_store set_fetch_log set_client]. now rewrite drop_log.
  - intros Hc Hs result w1 Hlist. cbv zeta. rewrite (loadTools_eq env w Hc), Hlist. cbn [snd].
    destruct (listTools_frame env None w) as (Hservice & Hstore & _).
    rewrite Hlist in Hservice, Hstore. cbn [snd] in Hservice, Hstore.
    unfold tools_listed. rewrite Hstore, Hs. now split.
Qed.

(** ** [connect] *)

Lemma connect_eq env (w : World) :
  Store.mcpClient (store w) <> None ->
  JsString.truthy (trim (Store.mcpApiKey (store w))) = true ->
  Session.connect env w
  = (Return tt, connect_settled env (Transport.initialize env (connecting w))).
Proof.
  intros Hc Hk. unfold Session.connect. unfold bind at 1, gets at 1.
  destruct (Store.mcpClient (store w)) as [[]|]; [| now elim Hc].
  rewrite Hk. cbn [negb].
  change (bind (Session.set_loading true) ?k w)
    with (k tt (snd (Session.set_loading true w))).
  cbv beta.
  change (bind (Session.set_error None) ?k ?w0)
    with (k tt (snd (Session.set_error None w0))).
  cbv beta. fold (connecting w).
  unfold bind at 1, try_catch. unfold bind at 1.
  assert (Hf : fst (Transport.initialize env (connecting w)) <> OutOfFuel).
  { unfold Transport.initialize. rewrite try_catch_rethrow. apply finishes_request. }
  unfold connect_settled.
  destruct (Transport.initialize env (connecting w)) as [[result|err|] w1];
    [| reflexivity | now elim Hf].
  change (bind (Session.set_connected true) ?k w1)
    with (k tt (snd (Session.set_connected true w1))).
  cbv beta.
  pose proof (loadTools_returns env (snd (Session.set_connected true w1))) as Hl.
  destruct (Session.loadTools env (snd (Session.set_connected true w1))) as [r w3].
  cbn [fst] in Hl. subst r. reflexivity.
Qed.

Lemma initialize_world env (w : World) :
  snd (Transport.initialize env w) = after_request "initialize" initialize_params w.
Proof. unfold Transport.initialize. rewrite try_catch_rethrow. apply request_world. Qed.

Lemma connecting_eq (w : World) :
  connecting w
  = set_store (let s := store w in
               Store.mk (Store.openaiApiKey s) (Store.aiService s) (Store.mcpApiKey s)
                        (Store.serverUrl s) (Store.mcpClient s) (Store.connected s)
                        (Store.tools s) true None) w.
Proof. reflexivity. Qed.

(** [connect], in terms of what [initialize] and [listTools] do from the
    world [connect] was called in. *)
Lemma connect_outcome env (w : World) :
  Store.mcpClient (store w) <> None ->
  JsString.truthy (trim (Store.mcpApiKey (store w))) = true ->
  let s := store w in
  let w1 := after_request "initialize" initialize_params w in
  snd (Session.connect env w)
  = match fst (Transport.initialize env w) with
    | Return _ =>
        let w2 := after_request "tools/list" (JObj []) w1 in
        match fst (Transport.listTools env None w1) with
        | Return result =>
            let tools := default [] (ListToolsResult.tools result) in
            let stored :=
              set_store (Store.mk (Store.openaiApiKey s) (Store.aiService s)
                                  (Store.mcpApiKey s) (Store.serverUrl s)
                                  (Store.mcpClient s) true tools false None) w2 in
            match Store.aiService s with
            | Some _ =>
                if (0 <? length tools)%nat
                then snd (Orchestrator.setTools tools stored) else stored
            | None => stored
            end
        | _ =>
            set_store (Store.mk (Store.openaiApiKey s) (Store.aiService s)
                                (Store.mcpApiKey s) (Store.serverUrl s)
                                (Store.mcpClient s) true [] false None) w2
        end
    | Throw err =>
        set_store (Store.mk (Store.openaiApiKey s) (Store.aiService s)
                            (Store.mcpApiKey s) (Store.serverUrl s)
                            (Store.mcpClient s) false (Store.tools s) false
                            (Some (Session.message_or "Failed to connect to MCP server" err)))
                  w1
    | OutOfFuel => w1
    end.
Proof.
  intros Hc Hk. cbv zeta. rewrite (connect_eq env w Hc Hk). cbn [snd].
  rewrite connecting_eq, initialize_any_store, initialize_world.
  assert (Hf : fst (Transport.initialize env w) <> OutOfFuel).
  { unfold Transport.initialize. rewrite try_catch_rethrow. apply finishes_request. }
  unfold connect_settled.
  destruct (fst (Transport.initialize env w)) as [result|err|]; [| reflexivity | now elim Hf].
  unfold Session.set_connected at 1, modify at 1. cbn [snd store set_store].
  rewrite loadTools_eq by (cbn; exact Hc).
  rewrite !listTools_any_store. cbn [fst snd].
  pose proof (listTools_world env None (after_request "initialize" initialize_params w))
    as Hw. cbn [Transport.with_server] in Hw.
  destruct (Transport.listTools env None (after_request "initialize" initialize_params w))
    as [listing wl]. cbn [fst snd] in Hw |- *. subst wl.
  destruct listing as [listed|error|]; try reflexivity.
  unfold tools_listed. cbn [store set_store Store.aiService].
  destruct (Store.aiService (store w)); [| reflexivity].
  destruct (0 <? length (default [] (ListToolsResult.tools listed)))%nat; reflexivity.
Qed.

Lemma connect_returns env (w : World) : fst (Session.connect env w) = Return tt.
Proof.
  destruct (Store.mcpClient (store w)) as [c|] eqn:Hc;
    [destruct (JsString.truthy (trim (Store.mcpApiKey (store w)))) eqn:Hk |].
  - rewrite connect_eq; [reflexivity | now rewrite Hc | exact Hk].
  - unfold Session.connect, bind, gets. rewrite Hc, Hk. now destruct c.
  - unfold Session.connect, bind, gets. now rewrite Hc.
Qed.

Lemma connect_blank env (w : World) :
  Store.mcpClient (store w) = None
  \/ JsString.truthy (trim (Store.mcpApiKey (store w))) = false ->
  Session.connect env w = (Return tt, w).
Proof.
  unfold Session.connect, bind, gets. intros [-> | ->]; [reflexivity |].
  now destruct (Store.mcpClient (store w)) as [[]|].
Qed.

(** X16.  [connect] never rejects: what goes wrong is reported in the
    store.  Without a client, or with a key that is blank, it does
    nothing at all; otherwise the session is not loading any more once
    it has settled, whatever happened. *)
Theorem connect_never_rejects env (w : World) :
  fst (Session.connect env w) = Return tt
  /\ (Store.mcpClient (store w) = None
      \/ JsString.truthy (trim (Store.mcpApiKey (store w))) = false ->
      snd (Session.connect env w) = w)
  /\ (Store.mcpClient (store w) <> None ->
      JsString.truthy (trim (Store.mcpApiKey (store w))) = true ->
      Store.isLoading (store (snd (Session.connect env w))) = false).
Proof.
  split; [apply connect_returns | split].
  - intros H. now rewrite connect_blank.
  - intros Hc Hk. rewrite (connect_eq env w Hc Hk). reflexivity.
Qed.

(** X17.  A handshake that fails is reported and ends the connection
    attempt: when [initialize] throws, the session is marked as not
    connected, its error is the message of what was thrown (a fallback
    text when that is not an [Error]), the tools are not listed, so
    that the one request of the handshake is all that was sent, and the
    tool lists of the store and of the orchestrator are as before. *)
Theorem failed_handshake_is_reported env (w : World) (err : Thrown) :
  Store.mcpClient (store w) <> None ->
  JsString.truthy (trim (Store.mcpApiKey (store w))) = true ->
  fst (Transport.initialize env w) = Throw err ->
  let w' := snd (Session.connect env w) in
  Store.connected (store w') = false
  /\ Store.error (store w')
     = Some (if instanceofError err then message err
             else "Failed to connect to MCP server")
  /\ Store.isLoading (store w') = false
  /\ Store.tools (store w') = Store.tools (store w)
  /\ service w' = service w
  /\ map (fun i => MCPRequest.method (body i)) (fetched_since w w') = ["initialize"].
Proof.
  intros Hc Hk Hinit. cbv zeta. rewrite (connect_outcome env w Hc Hk), Hinit.
  cbn [store set_store Store.connected Store.error Store.isLoading Store.tools service].
  repeat split. unfold fetched_since, after_request.
  cbn [fetch_log set_store set_fetch_log set_client]. now rewrite drop_log.
Qed.

Lemma failed_handshake_witness :
  let env := Scenario.environment Case.unreachable Scenario.silent_model in
  let w' := snd (Session.connect env Scenario.fresh) in
  (Store.mcpClient (store Scenario.fresh) <> None
   /\ JsString.truthy (trim (Store.mcpApiKey (store Scenario.fresh))) = true
   /\ fst (Transport.initialize env Scenario.fresh)
      = Throw (mkThrown NetworkFailure true "Failed to fetch"))
  /\ Store.connected (store w') = false
  /\ Store.error (store w') = Some "Failed to fetch".
Proof.
  assert (H1 : Store.mcpClient (store Scenario.fresh) <> None) by discriminate.
  assert (H2 : JsString.truthy (trim (Store.mcpApiKey (store Scenario.fresh))) = true)
    by reflexivity.
  assert (H3 : fst (Transport.initialize
                      (Scenario.environment Case.unreachable Scenario.silent_model)
                      Scenario.fresh)
               = Throw (mkThrown NetworkFailure true "Failed to fetch"))
    by (vm_compute; reflexivity).
  split; [auto |].
  destruct (failed_handshake_is_reported _ _ _ H1 H2 H3) as (Hconn & Herr & _).
  split; [exact Hconn | exact Herr].
Defined.

(** X18.  A handshake that succeeds connects the session whatever the
    listing of the tools does next.  [connect] then sends two requests,
    [initialize] and [tools/list], under consecutive ids; the session
    is connected and without error even when the listing fails, in
    which case the store lists no tool; when the listing succeeds the
    store lists what it returned, and the orchestrator takes that list
    over when there is a service and the list is not empty. *)
Theorem handshake_connects_then_lists_the_tools env (w : World) (result : JSON) :
  Store.mcpClient (store w) <> None ->
  JsString.truthy (trim (Store.mcpApiKey (store w))) = true ->
  fst (Transport.initialize env w) = Return result ->
  let w' := snd (Session.connect env w) in
  let listing := fst (Transport.listTools env None (snd (Transport.initialize env w))) in
  let listed :=
    match listing with
    | Return result => default [] (ListToolsResult.tools result)
    | _ => []
    end in
  Store.connected (store w') = true
  /\ Store.error (store w') = None
  /\ Store.isLoading (store w') = false
  /\ map (fun i => (request_id i, MCPRequest.method (body i))) (fetched_since w w')
     = [(MCPClient.requestId (client w) + 1, "initialize");
        (MCPClient.requestId (client w) + 2, "tools/list")]
  /\ Store.tools (store w') = listed
  /\ AIService.tools (service w')
     = match Store.aiService (store w), listed with
       | Some _, _ :: _ => listed
       | _, _ => AIService.tools (service w)
       end.
Proof.
  intros Hc Hk Hinit. cbv zeta. rewrite (connect_outcome env w Hc Hk), Hinit.
  rewrite initialize_world. cbv zeta.
  assert (Hlog : forall s,
             map (fun i => (request_id i, MCPRequest.method (body i)))
                 (fetched_since w
                    (set_store s (after_request "tools/list" (JObj [])
                                    (after_request "initialize" initialize_params w))))
             = [(MCPClient.requestId (client w) + 1, "initialize");
                (MCPClient.requestId (client w) + 2, "tools/list")]).
  { intros s. unfold fetched_since, after_request.
    cbn [fetch_log set_store set_fetch_log set_client client].
    rewrite <- app_assoc, drop_log. cbn. unfold request_id. cbn.
    do 3 f_equal. lia. }
  destruct (fst (Transport.listTools env None
                   (after_request "initialize" initialize_params w)))
    as [listed|error|].
  - destruct (Store.aiService (store w)) as [a|];
      [destruct (default [] (ListToolsResult.tools listed)) as [|t ts] eqn:Hl |];
      cbn -[fetched_since]; rewrite ?Hl;
      try change (fetched_since w (set_service ?x ?w0)) with (fetched_since w w0);
      rewrite Hlog; auto 10.
  - cbn -[fetched_since]. rewrite Hlog. destruct (Store.aiService (store w)); auto 10.
  - cbn -[fetched_since]. rewrite Hlog. destruct (Store.aiService (store w)); auto 10.
Qed.

Lemma handshake_witness :
  let env := Scenario.one_tool_catalog in
  let w' := snd (Session.connect env Scenario.fresh) in
  (Store.mcpClient (store Scenario.fresh) <> None
   /\ JsString.truthy (trim (Store.mcpApiKey (store Scenario.fresh))) = true
   /\ exists result, fst (Transport.initialize env Scenario.fresh) = Return result)
  /\ Store.connected (store w') = true
  /\ map (fun i => (request_id i, MCPRequest.method (body i)))
         (fetched_since Scenario.fresh w')
     = [(MCPClient.requestId (client Scenario.fresh) + 1, "initialize");
        (MCPClient.requestId (client Scenario.fresh) + 2, "tools/list")].
Proof.
  assert (H1 : Store.mcpClient (store Scenario.fresh) <> None) by discriminate.
  assert (H2 : JsString.truthy (trim (Store.mcpApiKey (store Scenario.fresh))) = true)
    by reflexivity.
  assert (H3 : fst (Transport.initialize Scenario.one_tool_catalog Scenario.fresh)
               = Return (JObj [("tools",
                                JArr [JObj [("name", JStr "getResourceSchedule");
                                            ("description", JStr "Schedule of a resource");
                                            ("inputSchema",
                                             JObj [("type", JStr "object")])]])]))
    by (vm_compute; reflexivity).
  split; [split; [exact H1 | split; [exact H2 | eexists; exact H3]] |].
  destruct (handshake_connects_then_lists_the_tools _ _ _ H1 H2 H3)
    as (Hconn & _ & _ & Hsent & _).
  split; [exact Hconn | exact Hsent].
Defined.

Lemma loadTools_failure_witness :
  let env := Scenario.failing_tool in
  let w' := snd (Session.loadTools env Scenario.with_one_tool) in
  (Store.mcpClient (store Scenario.with_one_tool) <> None
   /\ fst (Transport.listTools env None Scenario.with_one_tool)
      = Throw (newError TransportError "HTTP error! status: 500"))
  /\ Store.tools (store w') = []
  /\ AIService.tools (service w') = AIService.tools (service Scenario.with_one_tool).
Proof.
  assert (H1 : Store.mcpClient (store Scenario.with_one_tool) <> None) by discriminate.
  assert (H2 : Transport.listTools Scenario.failing_tool None Scenario.with_one_tool
               = (Throw (newError TransportError "HTTP error! status: 500"),
                  snd (Transport.listTools Scenario.failing_tool None
                                           Scenario.with_one_tool)))
    by (vm_compute; reflexivity).
  split; [split; [exact H1 | now rewrite H2] |].
  destruct (proj1 (proj2 (proj2 (loadTools_never_rejects Scenario.failing_tool
                                   Scenario.with_one_tool))) H1 _ _ H2)
    as (Hstore & Hservice & _).
  split; [exact Hstore | exact Hservice].
Defined.

(** ** A new session *)

Lemma connect_first_request env (w : World) :
  Store.mcpClient (store w) <> None ->
  JsString.truthy (trim (Store.mcpApiKey (store w))) = true ->
  exists rest,
    fetched_since w (snd (Session.connect env w))
    = sent_by_request "initialize" initialize_params w :: rest.
Proof.
  intros Hc Hk. rewrite (connect_outcome env w Hc Hk). cbv zeta.
  assert (Hf : fst (Transport.initialize env w) <> OutOfFuel).
  { unfold Transport.initialize. rewrite try_catch_rethrow. apply finishes_request. }
  destruct (fst (Transport.initialize env w)) as [result|err|]; [| | now elim Hf].
  - eexists [_].
    assert (Hlog : forall s,
               fetched_since w
                 (set_store s (after_request "tools/list" (JObj [])
                                 (after_request "initialize" initialize_params w)))
               = [sent_by_request "initialize" initialize_params w;
                  sent_by_request "tools/list" (JObj [])
                    (after_request "initialize" initialize_params w)]).
    { intros s. unfold fetched_since, after_request at 1.
      cbn [fetch_log set_store set_fetch_log set_client].
      destruct (after_request_one "initialize" initialize_params w) as (Hone & _).
      unfold fetched_since in Hone.
      rewrite <- (take_drop (length (fetch_log w))
                    (fetch_log (after_request "initialize" initialize_params w))) at 1.
      rewrite Hone. unfold after_request at 1. cbn [fetch_log set_fetch_log set_client].
      rewrite take_app_length, <- app_assoc, drop_log. reflexivity. }
    destruct (fst (Transport.listTools env None _)) as [listed|error|];
      [destruct (Store.aiService (store w));
       [destruct (0 <? length _)%nat |] | |];
      try change (fetched_since w (snd (Orchestrator.setTools ?x ?w0)))
        with (fetched_since w w0);
      apply Hlog.
  - exists []. unfold fetched_since, after_request.
    cbn [fetch_log set_store set_fetch_log set_client]. now rewrite drop_log.
Qed.

Lemma trim_truthy (s : string) :
  JsString.truthy (trim s) = true -> JsString.truthy s = true.
Proof. now destruct s. Qed.

(** X19.  The first request of a new session.  After [initialize],
    the constructor of the OpenAI client not throwing when it is called,
    [connect] with a key that is not blank starts by sending
    [initialize] to the server
    that was given, or to the default server when none or an empty one
    was, under the id 1 and with the key in the header [X-API-KEY].
    The session has a service exactly when the OpenAI key is not
    blank. *)
Theorem first_request_of_a_session
        (new_OpenAI : string -> Rejection + OpenAI.Client)
        (openaiApiKey mcpApiKey : string) (serverUrl : option string)
        env (w : World) :
  (JsString.truthy (trim openaiApiKey) = true ->
   exists c, new_OpenAI openaiApiKey = inr c) ->
  JsString.truthy (trim mcpApiKey) = true ->
  let server :=
    match serverUrl with
    | Some u => if JsString.truthy u then u else Session.DEFAULT_SERVER_URL
    | None => Session.DEFAULT_SERVER_URL
    end in
  let w1 := snd (Session.initialize new_OpenAI openaiApiKey mcpApiKey serverUrl w) in
  let w2 := snd (Session.connect env w1) in
  (exists rest,
      fetched_since w1 w2
      = {| url := server;
           http_method := "POST";
           headers := [("Content-Type", "application/json"); ("X-API-KEY", mcpApiKey)];
           body := MCPRequest.mk "2.0" 1 "initialize" initialize_params |} :: rest)
  /\ (Store.aiService (store w1) <> None <-> JsString.truthy (trim openaiApiKey) = true)
  /\ Store.connected (store w1) = false.
Proof.
  intros Hnew Hkey. cbv zeta.
  pose proof (trim_truthy _ Hkey) as Hk.
  set (w1 := snd (Session.initialize new_OpenAI openaiApiKey mcpApiKey serverUrl w)).
  assert (H1 : client w1
               = MCPClient.new
                   match serverUrl with
                   | Some u => if JsString.truthy u then u else Session.DEFAULT_SERVER_URL
                   | None => Session.DEFAULT_SERVER_URL
                   end (Some mcpApiKey)
               /\ Store.mcpClient (store w1) = Some the_client
               /\ Store.mcpApiKey (store w1) = mcpApiKey
               /\ Store.connected (store w1) = false
               /\ (Store.aiService (store w1) <> None
                   <-> JsString.truthy (trim openaiApiKey) = true)).
  { subst w1. unfold Session.initialize, Session.new_AIService. rewrite Hk.
    destruct (JsString.truthy (trim openaiApiKey)).
    - destruct (Hnew eq_refl) as [c ->]. cbn. repeat split; done.
    - cbn. repeat split; done. }
  destruct H1 as (Hclient & Hc & Hm & Hconn & Hservice).
  split; [| split; [exact Hservice | exact Hconn]].
  destruct (connect_first_request env w1) as (rest & ->);
    [now rewrite Hc | now rewrite Hm |].
  exists rest. f_equal. unfold sent_by_request, Transport.request_headers.
  rewrite Hclient. cbn. now rewrite Hk.
Qed.

Lemma first_request_witness :
  let new_OpenAI := fun key => @inr Rejection _ (OpenAI.mkClient key) in
  let env := Scenario.one_tool_catalog in
  let w1 := snd (Session.initialize new_OpenAI "openai-key" "mcp-key" None Scenario.fresh) in
  JsString.truthy (trim "mcp-key") = true
  /\ exists rest,
      fetched_since w1 (snd (Session.connect env w1))
      = {| url := Session.DEFAULT_SERVER_URL;
           http_method := "POST";
           headers := [("Content-Type", "application/json"); ("X-API-KEY", "mcp-key")];
           body := MCPRequest.mk "2.0" 1 "initialize" initialize_params |} :: rest.
Proof.
  assert (H : JsString.truthy (trim "mcp-key") = true) by reflexivity.
  split; [exact H |].
  exact (proj1 (first_request_of_a_session
                  (fun key => inr (OpenAI.mkClient key)) "openai-key" "mcp-key" None
                  Scenario.one_tool_catalog Scenario.fresh
                  (fun _ => ex_intro _ (OpenAI.mkClient "openai-key") eq_refl) H)).
Defined.

(* ================================================================== *)
(** * Properties of the chat view                                       *)
(* ================================================================== *)

Lemma handleSendMessage_eq env (fuel : nat) (message : string) (app : App.State)
      (w : World) :
  Store.aiService (store w) <> None ->
  let turn := Orchestrator.chat env fuel (length (arrays w)) (question_asked message app w) in
  App.handleSendMessage env fuel message app w
  = (match fst turn with
     | Return answer =>
         Return (App.mkState (App.chatMessages app ++ [question message; answer]) false)
     | Throw err =>
         Return (App.mkState (App.chatMessages app ++ [question message; shown_error err])
                             false)
     | OutOfFuel => OutOfFuel
     end, snd turn).
Proof.
  intros Hs. cbv zeta. unfold App.handleSendMessage. unfold bind at 1, gets at 1.
  destruct (Store.aiService (store w)) as [[]|]; [| now elim Hs].
  unfold bind at 1, try_catch. unfold bind at 1, new_array at 1.
  fold (question message). fold (question_asked message app w).
  unfold bind at 1.
  destruct (Orchestrator.chat env fuel (length (arrays w)) (question_asked message app w))
    as [[answer|err|] w']; cbn [fst snd ret]; try reflexivity.
  - unfold App.setChatLoading, App.append_message. cbn. now rewrite <- app_assoc.
  - unfold App.setChatLoading, App.append_message, shown_error, Session.message_or. cbn.
    now rewrite <- app_assoc.
Qed.

(** X20.  What a submission that sends nothing leaves behind.  A blank
    input, or one submitted while a turn is running, changes nothing and
    stays in the input field.  An input submitted to a session without
    a service (no OpenAI key, or a client that could not be made) is
    dropped: the field is cleared, but no message is added to the
    conversation and nothing is sent. *)
Theorem submission_without_effect env (fuel : nat) (input : string) (app : App.State)
        (w : World) :
  (JsString.truthy (trim input) = false \/ App.chatLoading app = true ->
   App.handleSubmit env fuel input app w = (Return (input, app), w))
  /\ (JsString.truthy (trim input) = true -> App.chatLoading app = false ->
      Store.aiService (store w) = None ->
      App.handleSubmit env fuel input app w = (Return (EmptyString, app), w)).
Proof.
  unfold App.handleSubmit. split.
  - intros [-> | ->]; [reflexivity | now rewrite orb_true_r].
  - intros -> -> Hs. cbn [negb orb]. unfold bind at 1. unfold App.handleSendMessage.
    unfold bind at 1, gets at 1. now rewrite Hs.
Qed.

Lemma submission_without_effect_witness :
  (JsString.truthy (trim "Hello") = true /\ Store.aiService (store Case.no_service) = None)
  /\ App.handleSubmit Scenario.one_tool_catalog 3 "Hello" (App.mkState [] false)
                      Case.no_service
     = (Return (EmptyString, App.mkState [] false), Case.no_service).
Proof.
  assert (H1 : JsString.truthy (trim "Hello") = true) by reflexivity.
  assert (H2 : Store.aiService (store Case.no_service) = None) by reflexivity.
  split; [split; [exact H1 | exact H2] |].
  exact (proj2 (submission_without_effect Scenario.one_tool_catalog 3 "Hello"
                  (App.mkState [] false) Case.no_service) H1 eq_refl H2).
Defined.

(** X21.  A submission that is sent adds exactly two messages to the
    conversation, whatever happens in the turn: the question, which is
    the input without the white space around it, and either the answer
    of [chat] or, when [chat] throws, an assistant message that starts
    with ["Error: "].  The handler never rejects, the input field is
    cleared and the view is not loading any more.  Neither message
    carries tool calls: the system context and the rounds of tool calls
    of the turn do not reach the conversation. *)
Theorem submission_adds_question_and_answer
        env (fuel : nat) (input : string) (app : App.State) (w : World) :
  JsString.truthy (trim input) = true ->
  App.chatLoading app = false ->
  Store.aiService (store w) <> None ->
  let asked := question (trim input) in
  let turn := Orchestrator.chat env fuel (length (arrays w))
                                (question_asked (trim input) app w) in
  match fst (App.handleSubmit env fuel input app w) with
  | Return (field, app') =>
      field = EmptyString
      /\ App.chatLoading app' = false
      /\ exists answer,
          App.chatMessages app' = App.chatMessages app ++ [asked; answer]
          /\ ChatMessage.role answer = assistant
          /\ ChatMessage.toolCalls answer = None
          /\ ChatMessage.toolCallResults answer = None
          /\ match fst turn with
             | Return response => answer = response
             | Throw err => answer = shown_error err
             | OutOfFuel => False
             end
  | Throw _ => False
  | OutOfFuel => fst turn = OutOfFuel
  end.
Proof.
  intros Hin Hl Hs. cbv zeta. unfold App.handleSubmit. rewrite Hin, Hl. cbn [negb orb].
  unfold bind. rewrite (handleSendMessage_eq env fuel (trim input) app w Hs). cbv zeta.
  destruct (Orchestrator.chat env fuel (length (arrays w))
              (question_asked (trim input) app w)) as [[response|err|] w'] eqn:Hturn;
    cbn [fst snd ret]; [| | reflexivity].
  - destruct (chat_result env fuel _ _ _ _ Hturn) as (Hrole & Hcalls & Hresults).
    repeat split. exists response. auto.
  - repeat split. exists (shown_error err). auto 6.
Qed.

Lemma submission_witness :
  let env := Scenario.failing_tool in
  (JsString.truthy (trim "  What is the schedule of X? ") = true
   /\ Store.aiService (store Scenario.fresh) <> None)
  /\ exists app',
      fst (App.handleSubmit env 2 "  What is the schedule of X? " (App.mkState [] false)
                            Scenario.fresh)
      = Return (EmptyString, app')
      /\ App.chatLoading app' = false
      /\ length (App.chatMessages app') = 2%nat.
Proof.
  assert (H1 : JsString.truthy (trim "  What is the schedule of X? ") = true)
    by reflexivity.
  assert (H3 : Store.aiService (store Scenario.fresh) <> None) by discriminate.
  split; [split; [exact H1 | exact H3] |].
  pose proof (submission_adds_question_and_answer Scenario.failing_tool 2
                "  What is the schedule of X? " (App.mkState [] false) Scenario.fresh
                H1 eq_refl H3) as H.
  cbv zeta in H. revert H.
  destruct (fst (App.handleSubmit Scenario.failing_tool 2 "  What is the schedule of X? "
                                  (App.mkState [] false) Scenario.fresh))
    as [[field app']|e|].
  - intros (-> & Hloading & answer & Hmessages & _). exists app'.
    split; [reflexivity |]. split; [exact Hloading |]. now rewrite Hmessages.
  - intros [].
  - vm_compute. discriminate.
Defined.

(** X22.  A failure of the model ends the turn at once and is shown to
    the user.  When the completion call of the first round rejects, the
    conversation gets the question and an assistant message made of
    ["Error: "] and the message of the rejection (a fallback text when
    it is not an [Error]); no tool was run, so nothing was sent to the
    MCP server, and the view is not loading any more. *)
Theorem model_failure_is_shown_in_the_chat
        env (fuel : nat) (message : string) (app : App.State) (w : World) (r : Rejection) :
  Store.aiService (store w) <> None ->
  AIService.openai (service w) <> None ->
  let asked := question_asked message app w in
  completions_create env (length (create_log w))
                     (ask_params env (length (arrays w)) asked) = inl r ->
  let outcome := App.handleSendMessage env (S fuel) message app w in
  fst outcome
  = Return (App.mkState
              (App.chatMessages app
                 ++ [ChatMessage.mk user message None None;
                     ChatMessage.mk assistant
                       ("Error: " +:+ (if rejected_with_Error r then rejection_text r
                                       else "Failed to send message"))
                       None None])
              false)
  /\ fetched_since w (snd outcome) = []
  /\ length (created_since w (snd outcome)) = 1%nat.
Proof.
  intros Hs Ho asked Hmodel. cbv zeta.
  rewrite (handleSendMessage_eq env (S fuel) message app w Hs). cbv zeta.
  fold asked. rewrite chat_step.
  change (service asked) with (service w).
  destruct (AIService.openai (service w)); [| now elim Ho].
  cbv zeta. unfold model_answer.
  change (create_log asked) with (create_log w). rewrite Hmodel. cbn [fst snd].
  split; [reflexivity |].
  unfold fetched_since, created_since, after_ask, asked, question_asked.
  cbn [fetch_log create_log set_create_log set_arrays set_dates_read].
  now rewrite drop_all, drop_log.
Qed.

Lemma model_failure_witness :
  let env := Scenario.environment Case.tool_server Case.out_of_quota in
  (Store.aiService (store Scenario.fresh) <> None
   /\ AIService.openai (service Scenario.fresh) <> None)
  /\ fst (App.handleSendMessage env 1 "Hello" (App.mkState [] false) Scenario.fresh)
     = Return (App.mkState
                 ([] ++ [ChatMessage.mk user "Hello" None None;
                         ChatMessage.mk assistant
                           ("Error: " +:+ "429 You exceeded your current quota")
                           None None])
                 false).
Proof.
  assert (H1 : Store.aiService (store Scenario.fresh) <> None) by discriminate.
  assert (H2 : AIService.openai (service Scenario.fresh) <> None) by discriminate.
  split; [split; [exact H1 | exact H2] |].
  exact (proj1 (model_failure_is_shown_in_the_chat
                  (Scenario.environment Case.tool_server Case.out_of_quota)
                  0 "Hello" (App.mkState [] false) Scenario.fresh
                  (mkRejection true "429 You exceeded your current quota")
                  H1 H2 eq_refl)).
Defined.

(** X23.  A key made of white space only goes unnoticed.  The banner of
    [ApiKeysWarning] tests the keys for emptiness, while [connect] and
    the effect that calls it test them for blankness: with an MCP key
    that is not empty but blank no banner is shown, and yet the session
    [initialize] makes (the constructor of the OpenAI client not
    throwing when it is called) is never connected, since both the
    effect and [connect] itself leave it as it is, without an error. *)
Theorem blank_key_is_not_warned_about
        (new_OpenAI : string -> Rejection + OpenAI.Client)
        (openaiApiKey mcpApiKey : string) env (w : World) :
  (JsString.truthy (trim openaiApiKey) = true ->
   exists c, new_OpenAI openaiApiKey = inr c) ->
  JsString.truthy openaiApiKey = true ->
  JsString.truthy mcpApiKey = true ->
  JsString.truthy (trim mcpApiKey) = false ->
  let w1 := snd (Session.initialize new_OpenAI openaiApiKey mcpApiKey None w) in
  ApiKeysWarning.render openaiApiKey mcpApiKey = None
  /\ App.auto_connect env w1 = (Return tt, w1)
  /\ Session.connect env w1 = (Return tt, w1)
  /\ Store.connected (store w1) = false
  /\ Store.error (store w1) = Store.error (store w).
Proof.
  intros Hnew Ho Hm Hblank. cbv zeta.
  set (w1 := snd (Session.initialize new_OpenAI openaiApiKey mcpApiKey None w)).
  assert (H1 : Store.mcpApiKey (store w1) = mcpApiKey
               /\ Store.connected (store w1) = false
               /\ Store.error (store w1) = Store.error (store w)).
  { subst w1. unfold Session.initialize, Session.new_AIService.
    destruct (JsString.truthy (trim openaiApiKey)).
    - destruct (Hnew eq_refl) as [c ->]. cbn. auto.
    - cbn. auto. }
  destruct H1 as (Hkey & Hconn & Herr).
  assert (Hconnect : Session.connect env w1 = (Return tt, w1)).
  { unfold Session.connect, bind, gets. rewrite Hkey, Hblank. cbn [negb].
    now destruct (Store.mcpClient (store w1)) as [[]|]. }
  split; [unfold ApiKeysWarning.render; now rewrite Ho, Hm |].
  split; [| auto].
  unfold App.auto_connect, bind, gets. rewrite Hkey, Hblank, andb_false_r. reflexivity.
Qed.

Lemma blank_key_witness :
  let new_OpenAI := fun key => @inr Rejection _ (OpenAI.mkClient key) in
  let w1 := snd (Session.initialize new_OpenAI "openai-key" "  " None Scenario.fresh) in
  (JsString.truthy "  " = true /\ JsString.truthy (trim "  ") = false)
  /\ ApiKeysWarning.render "openai-key" "  " = None
  /\ App.auto_connect Scenario.one_tool_catalog w1 = (Return tt, w1).
Proof.
  assert (H1 : JsString.truthy "  " = true) by reflexivity.
  assert (H2 : JsString.truthy (trim "  ") = false) by reflexivity.
  split; [split; [exact H1 | exact H2] |].
  destruct (blank_key_is_not_warned_about
              (fun key => inr (OpenAI.mkClient key)) "openai-key" "  "
              Scenario.one_tool_catalog Scenario.fresh
              (fun _ => ex_intro _ (OpenAI.mkClient "openai-key") eq_refl)
              eq_refl H1 H2) as (Hrender & Hauto & _).
  split; [exact Hrender | exact Hauto].
Defined.
